(** * asr-hub: the audio preprocessing core, embedded and verified

    A shallow embedding of [src/utils/audio.py],
    [src/preprocessors/noise_reduction.py], [src/preprocessors/base.py],
    [src/utils/exceptions.py], [src/core/pipeline.py] and
    [src/core/registry.py], followed by the properties of the PCM codec,
    the resampler, the two preprocessing stages, the pipeline and its
    manager, and the registry.

    Conventions.
    - A Python [bytes] object is a [list Byte.byte].
    - A function that may raise returns a [result]; a [try/except] block
      is [try_except].
    - A NumPy array is an [ndarray]: an element type tag ([int16],
      [float32] kept as its 32-bit pattern, [float64]) over a one- or
      two-dimensional row-major layout.
    - Double-precision arithmetic is an interface ([FloatArith], [FloatExp],
      [Float32]) that the source functions are written against once.  It has
      two instances: [Binary64], IEEE 754 binary64 as specified by
      [SpecFloat], on which the code can be run; and [ExtReal], exact real
      arithmetic extended with the IEEE special values, which shows what
      the formulas compute when nothing is rounded.
    - An asynchronous generator is a [Stream.t]: what it yields until it
      ends, and the exception that ends it, if one does. *)

From Stdlib Require Import ZArith List String Lia Bool Reals Lra.
From Stdlib Require Import Floats.SpecFloat.
From stdpp Require Import gmap strings.
Import ListNotations.

Local Open Scope string_scope.
Local Open Scope list_scope.
Local Open Scope Z_scope.

(* ===================================================================== *)
(** * Exceptions ([src/utils/exceptions.py]) *)
(* ===================================================================== *)

Module Exceptions.

(** The exception classes of the package, and the built-in ones that
    Python and NumPy raise on the paths below. *)
Inductive exc_class :=
| Exception
| ValueError | TypeError | ZeroDivisionError | OverflowError
| ASRCoreError
| ConfigurationError
| EngineError | EngineNotFoundError | EngineInitializationError
| TranscriptionError
| PreprocessorError | PreprocessorNotFoundError | AudioProcessingError
| APIError | InvalidAudioFormatError | ServiceUnavailableError.

(** The direct base class, as written in each [class] statement. *)
Definition base_class (c : exc_class) : option exc_class :=
  match c with
  | Exception => None
  | ValueError | TypeError => Some Exception
  | ZeroDivisionError | OverflowError => Some Exception
  | ASRCoreError => Some Exception
  | ConfigurationError => Some ASRCoreError
  | EngineError => Some ASRCoreError
  | EngineNotFoundError => Some EngineError
  | EngineInitializationError => Some EngineError
  | TranscriptionError => Some EngineError
  | PreprocessorError => Some ASRCoreError
  | PreprocessorNotFoundError => Some PreprocessorError
  | AudioProcessingError => Some PreprocessorError
  | APIError => Some ASRCoreError
  | InvalidAudioFormatError => Some ASRCoreError
  | ServiceUnavailableError => Some ASRCoreError
  end.

Definition exc_class_eqb (a b : exc_class) : bool :=
  match a, b with
  | Exception, Exception | ValueError, ValueError | TypeError, TypeError
  | ZeroDivisionError, ZeroDivisionError | OverflowError, OverflowError
  | ASRCoreError, ASRCoreError | ConfigurationError, ConfigurationError
  | EngineError, EngineError | EngineNotFoundError, EngineNotFoundError
  | EngineInitializationError, EngineInitializationError
  | TranscriptionError, TranscriptionError
  | PreprocessorError, PreprocessorError
  | PreprocessorNotFoundError, PreprocessorNotFoundError
  | AudioProcessingError, AudioProcessingError
  | APIError, APIError | InvalidAudioFormatError, InvalidAudioFormatError
  | ServiceUnavailableError, ServiceUnavailableError => true
  | _, _ => false
  end.

(** [issubclass c k]; the hierarchy is four levels deep. *)
Fixpoint issubclass_fuel (fuel : nat) (c k : exc_class) : bool :=
  exc_class_eqb c k ||
  match fuel with
  | O => false
  | S fuel' =>
      match base_class c with
      | Some b => issubclass_fuel fuel' b k
      | None => false
      end
  end.

Definition issubclass (c k : exc_class) : bool := issubclass_fuel 4 c k.

(** A raised exception: its class and [str(e)]. *)
Record exc := mk_exc { exc_cls : exc_class; exc_str : string }.

Definition isinstance (e : exc) (k : exc_class) : bool :=
  issubclass (exc_cls e) k.

Inductive result (A : Type) :=
| Ok (a : A)
| Raise (e : exc).
Arguments Ok {A} a.
Arguments Raise {A} e.

Definition bind {A B} (r : result A) (k : A -> result B) : result B :=
  match r with
  | Ok a => k a
  | Raise e => Raise e
  end.

(** [try: body  except Exception as e: raise handler(e)]. Every class above
    derives from [Exception], so the handler sees every raise. *)
Definition try_except {A} (body : result A) (handler : exc -> exc) : result A :=
  match body with
  | Ok a => Ok a
  | Raise e => Raise (handler e)
  end.

Definition is_ok {A} (r : result A) : bool :=
  match r with Ok _ => true | Raise _ => false end.

End Exceptions.
Export Exceptions.

Notation "'let*' x ':=' m 'in' k" := (bind m (fun x => k))
  (at level 10, x pattern, m at level 100, k at level 200).

(* ===================================================================== *)
(** * Bytes and little-endian words *)
(* ===================================================================== *)

Module Bytes.

Abbreviation byte := Byte.byte.
Abbreviation bytes := (list Byte.byte).

Definition byte_to_Z (b : byte) : Z := Z.of_N (Byte.to_N b).

Definition byte_of_Z (z : Z) : byte :=
  match Byte.of_N (Z.to_N (z mod 256)) with
  | Some b => b
  | None => Byte.x00
  end.

(** The unsigned little-endian value of a group of bytes. *)
Fixpoint le_decode (bs : bytes) : Z :=
  match bs with
  | [] => 0
  | b :: bs' => byte_to_Z b + 256 * le_decode bs'
  end.

(** The [k] low-order bytes of [z], least significant first. *)
Fixpoint le_encode (k : nat) (z : Z) : bytes :=
  match k with
  | O => []
  | S k' => byte_of_Z z :: le_encode k' (z / 256)
  end.

(** The list cut into consecutive groups of [k]; the last group is shorter
    when [k] does not divide the length. *)
Fixpoint chunks_fuel {A} (fuel k : nat) (l : list A) : list (list A) :=
  match fuel with
  | O => []
  | S fuel' =>
      match l with
      | [] => []
      | _ :: _ => firstn k l :: chunks_fuel fuel' k (skipn k l)
      end
  end.

Definition chunks {A} (k : nat) (l : list A) : list (list A) :=
  chunks_fuel (length l) k l.

(** Two's complement in 16 bits. *)
Definition wrap16 (z : Z) : Z := (z + 32768) mod 65536 - 32768.

Definition int16_of_word (u : Z) : Z := if u <? 32768 then u else u - 65536.
Definition word_of_int16 (z : Z) : Z := z mod 65536.

End Bytes.
Export Bytes.

(* ===================================================================== *)
(** * Double-precision arithmetic as an interface *)
(* ===================================================================== *)

(** What the source asks of Python's [float] and NumPy's [float64]:
    conversion from [int], the four operations, the three comparisons and
    [int(x)] (truncation toward zero, raising on NaN and the infinities). *)
Class FloatArith (F : Type) := {
  f_of_Z : Z -> F;
  f_add : F -> F -> F;
  f_sub : F -> F -> F;
  f_mul : F -> F -> F;
  f_div : F -> F -> F;
  f_eqb : F -> F -> bool;
  f_ltb : F -> F -> bool;
  f_leb : F -> F -> bool;
  f_trunc : F -> option Z
}.

(** [np.exp], which is the platform's [libm]. *)
Class FloatExp (F : Type) := {
  f_exp : F -> F
}.

(** Conversion between a double and the bit pattern of a [float32]. *)
Class Float32 (F : Type) := {
  f32_of : F -> Z;
  of_f32 : Z -> F
}.

(** ** IEEE 754 binary64, after [SpecFloat] *)

Module Binary64.

Definition prec : Z := 53.
Definition emax : Z := 1024.

Definition of_Z (z : Z) : spec_float := binary_normalize prec emax z 0 false.

Definition trunc (x : spec_float) : option Z :=
  match x with
  | S754_zero _ => Some 0
  | S754_finite s m e =>
      Some (cond_Zopp s
              match e with
              | Z0 => Zpos m
              | Zpos _ => Zpos m * 2 ^ e
              | Zneg p => Zpos m / 2 ^ Zpos p
              end)
  | S754_infinity _ | S754_nan => None
  end.

#[global] Instance arith : FloatArith spec_float := {|
  f_of_Z := of_Z;
  f_add := SFadd prec emax;
  f_sub := SFsub prec emax;
  f_mul := SFmul prec emax;
  f_div := SFdiv prec emax;
  f_eqb := SFeqb;
  f_ltb := SFltb;
  f_leb := SFleb;
  f_trunc := trunc
|}.

(** binary32: 24 bits of precision, exponents up to 128. *)
Definition sign_bit (s : bool) : Z := if s then 2 ^ 31 else 0.

Definition b32_bits (y : spec_float) : Z :=
  match y with
  | S754_zero s => sign_bit s
  | S754_infinity s => sign_bit s + 255 * 2 ^ 23
  | S754_nan => 255 * 2 ^ 23 + 2 ^ 22
  | S754_finite s m e =>
      sign_bit s +
      (if 2 ^ 23 <=? Zpos m
       then (e + 150) * 2 ^ 23 + (Zpos m - 2 ^ 23)
       else Zpos m)
  end.

(** Round a double to the nearest [float32] and give its pattern. *)
Definition to_f32 (x : spec_float) : Z :=
  match x with
  | S754_finite s m e => b32_bits (binary_round 24 128 s m e)
  | _ => b32_bits x
  end.

(** The double that a [float32] pattern denotes (always exact). *)
Definition from_f32 (w : Z) : spec_float :=
  let s := Z.testbit w 31 in
  let biased := (w / 2 ^ 23) mod 256 in
  let frac := w mod 2 ^ 23 in
  if biased =? 255 then
    if frac =? 0 then S754_infinity s else S754_nan
  else if biased =? 0 then
    match frac with
    | Zpos m => binary_round prec emax s m (-149)
    | _ => S754_zero s
    end
  else
    binary_round prec emax s (Z.to_pos (frac + 2 ^ 23)) (biased - 150).

#[global] Instance float32 : Float32 spec_float := {|
  f32_of := to_f32;
  of_f32 := from_f32
|}.

(** A double that is [+0] or positive and finite, with exponent in
    [[elo, ehi]] and magnitude (digits plus exponent) at most [hi]. *)
Definition positive_finite (elo ehi hi : Z) (x : spec_float) : Prop :=
  match x with
  | S754_zero s => s = false
  | S754_finite s m e =>
      s = false /\ elo <= e <= ehi /\ Zpos (digits2_pos m) + e <= hi
  | S754_infinity _ | S754_nan => False
  end.

(** [np.exp] is not fixed by IEEE 754; an instance takes it as given. *)
Definition with_exp (libm_exp : spec_float -> spec_float) : FloatExp spec_float :=
  {| f_exp := libm_exp |}.

(** [np.exp] on the special values, which C (Annex F) and IEEE 754 do fix:
    [exp(nan) = nan], [exp(+inf) = +inf], [exp(-inf) = +0] and
    [exp(+-0) = 1]; the platform's [libm] decides the other values. *)
Definition ieee_exp (libm_exp : spec_float -> spec_float) : FloatExp spec_float :=
  {| f_exp := fun x =>
       match x with
       | S754_nan => S754_nan
       | S754_infinity false => S754_infinity false
       | S754_infinity true => S754_zero false
       | S754_zero _ => of_Z 1
       | S754_finite _ _ _ => libm_exp x
       end |}.

End Binary64.

(** ** Exact reals with the IEEE special values *)

Module ExtReal.

(** Finite values are exact reals, so no operation rounds, overflows or
    underflows; zero carries no sign and behaves as IEEE's [+0]. The special
    values are produced and propagated as IEEE 754 prescribes. *)
Inductive ereal :=
| EFin (r : R)
| EPInf
| ENInf
| ENaN.

Definition inf_of_sign (negative : bool) : ereal :=
  if negative then ENInf else EPInf.

Definition neg (a : ereal) : ereal :=
  match a with
  | EFin x => EFin (- x)
  | EPInf => ENInf
  | ENInf => EPInf
  | ENaN => ENaN
  end.

Definition add (a b : ereal) : ereal :=
  match a, b with
  | ENaN, _ | _, ENaN => ENaN
  | EFin x, EFin y => EFin (x + y)
  | EPInf, ENInf | ENInf, EPInf => ENaN
  | EPInf, _ | _, EPInf => EPInf
  | ENInf, _ | _, ENInf => ENInf
  end.

Definition sub (a b : ereal) : ereal := add a (neg b).

(** [inf * x] for a finite [x]. *)
Definition scale_inf (negative : bool) (x : R) : ereal :=
  if Req_dec_T x 0 then ENaN
  else if Rlt_dec 0 x then inf_of_sign negative
  else inf_of_sign (negb negative).

Definition mul (a b : ereal) : ereal :=
  match a, b with
  | ENaN, _ | _, ENaN => ENaN
  | EFin x, EFin y => EFin (x * y)
  | EFin x, EPInf | EPInf, EFin x => scale_inf false x
  | EFin x, ENInf | ENInf, EFin x => scale_inf true x
  | EPInf, EPInf | ENInf, ENInf => EPInf
  | EPInf, ENInf | ENInf, EPInf => ENInf
  end.

Definition div (a b : ereal) : ereal :=
  match a, b with
  | ENaN, _ | _, ENaN => ENaN
  | EFin x, EFin y =>
      if Req_dec_T y 0 then
        if Req_dec_T x 0 then ENaN
        else if Rlt_dec 0 x then EPInf else ENInf
      else EFin (x / y)
  | EFin _, (EPInf | ENInf) => EFin 0
  | EPInf, EFin y => if Rlt_dec y 0 then ENInf else EPInf
  | ENInf, EFin y => if Rlt_dec y 0 then EPInf else ENInf
  | (EPInf | ENInf), (EPInf | ENInf) => ENaN
  end.

Definition eqb (a b : ereal) : bool :=
  match a, b with
  | EFin x, EFin y => if Req_dec_T x y then true else false
  | EPInf, EPInf | ENInf, ENInf => true
  | _, _ => false
  end.

Definition ltb (a b : ereal) : bool :=
  match a, b with
  | ENaN, _ | _, ENaN => false
  | EFin x, EFin y => if Rlt_dec x y then true else false
  | ENInf, ENInf | EPInf, EPInf => false
  | ENInf, _ | _, EPInf => true
  | _, ENInf | EPInf, _ => false
  end.

Definition leb (a b : ereal) : bool :=
  match a, b with
  | ENaN, _ | _, ENaN => false
  | EFin x, EFin y => if Rle_dec x y then true else false
  | ENInf, _ | _, EPInf => true
  | _, ENInf | EPInf, _ => false
  end.

Definition trunc (a : ereal) : option Z :=
  match a with
  | EFin x => Some (if Rle_dec 0 x then Int_part x else - Int_part (- x))
  | _ => None
  end.

Definition exp (a : ereal) : ereal :=
  match a with
  | EFin x => EFin (Rtrigo_def.exp x)
  | EPInf => EPInf
  | ENInf => EFin 0
  | ENaN => ENaN
  end.

#[global] Instance arith : FloatArith ereal := {|
  f_of_Z := fun z => EFin (IZR z);
  f_add := add;
  f_sub := sub;
  f_mul := mul;
  f_div := div;
  f_eqb := eqb;
  f_ltb := ltb;
  f_leb := leb;
  f_trunc := trunc
|}.

#[global] Instance expo : FloatExp ereal := {| f_exp := exp |}.

End ExtReal.

(* ===================================================================== *)
(** * The NumPy routines the source calls *)
(* ===================================================================== *)

Module Numpy.

(** A one-dimensional array, or a two-dimensional one of [cols] columns
    held row by row (C order). *)
Inductive shaped (A : Type) :=
| Arr1 (xs : list A)
| Arr2 (cols : nat) (rows : list (list A)).
Arguments Arr1 {A} xs.
Arguments Arr2 {A} cols rows.

(** [len(a)]: the extent of the first axis. *)
Definition len {A} (a : shaped A) : nat :=
  match a with
  | Arr1 xs => length xs
  | Arr2 _ rows => length rows
  end.

(** [len(a.shape)]. *)
Definition ndim {A} (a : shaped A) : nat :=
  match a with
  | Arr1 _ => 1%nat
  | Arr2 _ _ => 2%nat
  end.

(** The elements in memory order. *)
Definition ravel {A} (a : shaped A) : list A :=
  match a with
  | Arr1 xs => xs
  | Arr2 _ rows => concat rows
  end.

Definition shaped_map {A B} (f : A -> B) (a : shaped A) : shaped B :=
  match a with
  | Arr1 xs => Arr1 (map f xs)
  | Arr2 c rows => Arr2 c (map (map f) rows)
  end.

(** [a.reshape(-1, c)] of a one-dimensional array whose length [c] divides. *)
Definition reshape_rows {A} (c : nat) (xs : list A) : shaped A :=
  Arr2 c (chunks c xs).

(** [np.column_stack([xs] * c)]. *)
Definition column_stack_copies {A} (c : nat) (xs : list A) : shaped A :=
  Arr2 c (map (fun x => repeat x c) xs).

(** [a[:, j]]. *)
Definition column {A} (d : A) (j : nat) (rows : list (list A)) : list A :=
  map (fun row => nth j row d) rows.

(** The [n]-row array whose [j]-th column is [nth j columns]. *)
Definition of_columns {A} (d : A) (n : nat) (columns : list (list A)) : list (list A) :=
  map (fun i => map (fun col => nth i col d) columns) (seq 0 n).

(** [np.frombuffer(b, dtype)] for an item size in bytes: the unsigned
    little-endian words of the buffer. *)
Definition frombuffer (itemsize : nat) (b : bytes) : result (list Z) :=
  if (length b mod itemsize =? 0)%nat
  then Ok (map le_decode (chunks itemsize b))
  else Raise (mk_exc ValueError "buffer size must be a multiple of element size").

Definition tobytes_int16 (a : shaped Z) : bytes :=
  concat (map (fun z => le_encode 2 (word_of_int16 z)) (ravel a)).

Definition tobytes_float32 (a : shaped Z) : bytes :=
  concat (map (le_encode 4) (ravel a)).

(** [np.abs] on [int16]: the magnitude, wrapped ([abs(-32768) = -32768]). *)
Definition abs_int16 (z : Z) : Z := wrap16 (Z.abs z).

(** [np.max] of a flat [int16] array. *)
Definition amax (xs : list Z) : result Z :=
  match xs with
  | [] => Raise (mk_exc ValueError
            "zero-size array to reduction operation maximum which has no identity")
  | x :: xs' => Ok (fold_left Z.max xs' x)
  end.

Section WithFloat.
Context {F : Type} {FA : FloatArith F}.

Definition f_isnan (x : F) : bool := negb (f_eqb x x).

(** [np.add.reduce] in double precision, written left to right. NumPy adds
    long runs pairwise; both orders give the same double whenever every
    partial sum is exactly representable, which is the case for sums of
    [int16] samples. *)
Definition sum (xs : list F) : F :=
  match xs with
  | [] => f_of_Z 0
  | x :: xs' => fold_left f_add xs' x
  end.

(** [np.mean]: the sum divided by the count ([nan] for an empty array). *)
Definition mean (xs : list F) : F :=
  f_div (sum xs) (f_of_Z (Z.of_nat (length xs))).

(** [np.maximum] and [np.minimum] propagate a NaN first argument. *)
Definition maximum (a b : F) : F := if f_leb b a || f_isnan a then a else b.
Definition minimum (a b : F) : F := if f_leb a b || f_isnan a then a else b.

(** [np.clip(x, lo, hi)] is [minimum(maximum(x, lo), hi)]. *)
Definition clip (lo hi : F) (x : F) : F := minimum (maximum x lo) hi.

(** [np.linspace(start, stop, num)] with the default [endpoint=True]. *)
Definition linspace (start stop : F) (num : Z) : result (list F) :=
  if num <? 0 then
    Raise (mk_exc ValueError "Number of samples must be non-negative.")
  else
    let div := num - 1 in
    let delta := f_sub stop start in
    let y := map (fun i => f_of_Z (Z.of_nat i)) (seq 0 (Z.to_nat num)) in
    let y :=
      if 0 <? div then
        let step := f_div delta (f_of_Z div) in
        if f_eqb step (f_of_Z 0)
        then map (fun v => f_mul (f_div v (f_of_Z div)) delta) y
        else map (fun v => f_mul v step) y
      else map (fun v => f_mul v delta) y in
    let y := map (fun v => f_add v start) y in
    Ok (if 1 <? num then removelast y ++ [stop] else y).

(** The index [j] with [xp[j] <= x < xp[j+1]] that [np.interp] looks up by
    bisection, here by scanning the increasing [xp] from the left: the
    number of leading sample points not above [x]. *)
Fixpoint count_le (x : F) (xp : list F) : nat :=
  match xp with
  | [] => O
  | p :: xp' => if f_leb p x then S (count_le x xp') else O
  end.

(** One value of [np.interp(x, xp, fp)], for [xp] and [fp] of equal,
    non-zero length. *)
Definition interp1 (xp fp : list F) (x : F) : F :=
  let zero := f_of_Z 0 in
  let n := length xp in
  let lval := hd zero fp in
  let rval := List.last fp zero in
  if (n =? 1)%nat then
    if f_ltb x (hd zero xp) then lval
    else if f_ltb (hd zero xp) x then rval else hd zero fp
  else if f_isnan x then x
  else if f_ltb x (hd zero xp) then lval
  else if f_ltb (List.last xp zero) x then rval
  else
    let j := (count_le x xp - 1)%nat in
    if (j =? n - 1)%nat then nth j fp zero
    else if f_eqb (nth j xp zero) x then nth j fp zero
    else
      let slope := f_div (f_sub (nth (S j) fp zero) (nth j fp zero))
                         (f_sub (nth (S j) xp zero) (nth j xp zero)) in
      let r := f_add (f_mul slope (f_sub x (nth j xp zero))) (nth j fp zero) in
      if f_isnan r then
        let r' := f_add (f_mul slope (f_sub x (nth (S j) xp zero)))
                        (nth (S j) fp zero) in
        if f_isnan r' && f_eqb (nth j fp zero) (nth (S j) fp zero)
        then nth j fp zero else r'
      else r.

Definition interp (x xp fp : list F) : result (list F) :=
  match xp with
  | [] => Raise (mk_exc ValueError "array of sample points is empty")
  | _ :: _ =>
      if (length fp =? length xp)%nat
      then Ok (map (interp1 xp fp) x)
      else Raise (mk_exc ValueError "fp and xp are not of the same length.")
  end.

(** [np.pad(a, k, mode='edge')] of a one-dimensional array. *)
Definition pad_edge (k : nat) (xs : list F) : result (list F) :=
  match xs with
  | [] =>
      if (k =? 0)%nat then Ok []
      else Raise (mk_exc ValueError
             "can't extend empty axis 0 using modes other than 'constant' or 'empty'")
  | x :: _ => Ok (repeat x k ++ xs ++ repeat (List.last xs x) k)
  end.

(** The [n] windows of width [w] starting at positions [0 .. n-1]. *)
Fixpoint windows (n w : nat) (a : list F) : list (list F) :=
  match n with
  | O => []
  | S n' => firstn w a :: windows n' w (tl a)
  end.

Definition dot (a b : list F) : F :=
  sum (map (fun p => f_mul (fst p) (snd p)) (combine a b)).

(** [np.convolve(a, v, mode='valid')]: the arguments are swapped when [v] is
    the longer, and the result is the correlation of [a] with [v] reversed. *)
Definition convolve_valid (a v : list F) : result (list F) :=
  let '(a, v) := if (length a <? length v)%nat then (v, a) else (a, v) in
  match a, v with
  | [], _ => Raise (mk_exc ValueError "a cannot be empty")
  | _, [] => Raise (mk_exc ValueError "v cannot be empty")
  | _, _ =>
      Ok (map (fun win => dot win (rev v))
              (windows (length a - length v + 1) (length v) a))
  end.

(** ** Arrays of the three element types *)

Inductive ndarray :=
| I16 (a : shaped Z)     (* int16, as signed values *)
| F32 (a : shaped Z)     (* float32, as 32-bit patterns *)
| F64 (a : shaped F).    (* float64 *)

Definition nd_len (a : ndarray) : nat :=
  match a with I16 a | F32 a => len a | F64 a => len a end.

Definition nd_ndim (a : ndarray) : nat :=
  match a with I16 a | F32 a => ndim a | F64 a => ndim a end.

(** The number of channels of the layout: [a.shape[1]], or 1. *)
Definition shaped_channels {A} (a : shaped A) : nat :=
  match a with Arr1 _ => 1%nat | Arr2 c _ => c end.

Definition nd_channels (a : ndarray) : nat :=
  match a with
  | I16 a | F32 a => shaped_channels a
  | F64 a => shaped_channels a
  end.

Inductive dtype := int16 | float32 | float64.

Definition nd_dtype (a : ndarray) : dtype :=
  match a with I16 _ => int16 | F32 _ => float32 | F64 _ => float64 end.

(** The C conversion of a double to [int16]: truncation toward zero, then
    the low 16 bits. C leaves the conversion of NaN and of values beyond
    the 32-bit range undefined; x86-64 yields the "integer indefinite"
    value, whose low half is 0. *)
Definition f64_to_int16 (x : F) : Z :=
  match f_trunc x with
  | Some z => if (- 2 ^ 31 <=? z) && (z <? 2 ^ 31) then wrap16 z else 0
  | None => 0
  end.

Context {FS : Float32 F}.

(** [a.astype(np.float64)] element by element. *)
Definition nd_to_f64 (a : ndarray) : shaped F :=
  match a with
  | I16 a => shaped_map f_of_Z a
  | F32 a => shaped_map of_f32 a
  | F64 a => a
  end.

(** [a.astype(np.int16)]. *)
Definition astype_int16 (a : ndarray) : shaped Z :=
  match a with
  | I16 a => a
  | F32 a => shaped_map (fun w => f64_to_int16 (of_f32 w)) a
  | F64 a => shaped_map f64_to_int16 a
  end.

(** [a.astype(np.float32)]. *)
Definition astype_float32 (a : ndarray) : shaped Z :=
  match a with
  | I16 a => shaped_map (fun z => f32_of (f_of_Z z)) a
  | F32 a => a
  | F64 a => shaped_map f32_of a
  end.

(** [a.astype(dt)] of a double array. *)
Definition astype (dt : dtype) (a : shaped F) : ndarray :=
  match dt with
  | int16 => I16 (astype_int16 (F64 a))
  | float32 => F32 (astype_float32 (F64 a))
  | float64 => F64 a
  end.

(** [np.mean(a, axis=1).astype(a.dtype)] of one row. A [float32] row is
    added and divided in single precision, each operation being the double
    one rounded once more (which is the correctly rounded single result). *)
Definition row_mean_int16 (row : list Z) : Z :=
  f64_to_int16 (mean (map f_of_Z row)).

Definition row_mean_float32 (row : list Z) : Z :=
  let add32 (a b : Z) := f32_of (f_add (of_f32 a) (of_f32 b)) in
  let s := match row with
           | [] => f32_of (f_of_Z 0)
           | w :: row' => fold_left add32 row' w
           end in
  f32_of (f_div (of_f32 s) (f_of_Z (Z.of_nat (length row)))).

End WithFloat.
Arguments ndarray F : clear implicits.

End Numpy.
Export Numpy.

(** [[f(x) for x in xs]] where [f] may raise: the first raise wins. *)
Fixpoint mapM {A B} (f : A -> result B) (xs : list A) : result (list B) :=
  match xs with
  | [] => Ok []
  | x :: xs' =>
      let* y := f x in
      let* ys := mapM f xs' in
      Ok (y :: ys)
  end.

(* ===================================================================== *)
(** * Audio utilities ([src/utils/audio.py]) *)
(* ===================================================================== *)

Module Audio.
Section WithFloat.
Context {F : Type} {FA : FloatArith F} {FS : Float32 F}.

(** Lines 34-39 of [bytes_to_numpy]: with more than one channel, drop the
    samples past the last whole frame and reshape to [(-1, channels)]. *)
Definition to_frames (channels : Z) (audio_array : list Z) : shaped Z :=
  if 1 <? channels then
    let c := Z.to_nat channels in
    let r := (length audio_array mod c)%nat in
    let audio_array :=
      if negb (r =? 0)%nat
      then firstn (length audio_array - r) audio_array
      else audio_array in
    reshape_rows c audio_array
  else Arr1 audio_array.

(** The number of samples in a frame of [to_frames]: one, unless more
    channels are asked for. *)
Definition frame_width (channels : Z) : nat := Z.to_nat (Z.max 1 channels).

Definition conversion_failed (e : exc) : exc :=
  mk_exc InvalidAudioFormatError (String.append "音訊格式轉換失敗: " (exc_str e)).

Definition bytes_to_numpy (audio_bytes : bytes) (sample_rate channels : Z)
    (dtype : string) : result (ndarray F * Z * Z) :=
  try_except
    (let* audio_array :=
       if String.eqb dtype "int16" then
         let* ws := frombuffer 2 audio_bytes in
         Ok (I16, map int16_of_word ws)
       else if String.eqb dtype "float32" then
         let* ws := frombuffer 4 audio_bytes in
         Ok (F32, ws)
       else
         Raise (mk_exc InvalidAudioFormatError
                  (String.append "不支援的資料類型: " dtype)) in
     let '(tag, flat) := audio_array in
     Ok (tag (to_frames channels flat), sample_rate, channels))
    conversion_failed.

(** The call [bytes_to_numpy(audio_bytes, sample_rate, channels)] with the
    default [dtype='int16'], typed by what it returns
    (see [bytes_to_numpy_default]). *)
Definition bytes_to_numpy_int16 (audio_bytes : bytes) (sample_rate channels : Z)
    : result (shaped Z * Z * Z) :=
  try_except
    (let* ws := frombuffer 2 audio_bytes in
     Ok (to_frames channels (map int16_of_word ws), sample_rate, channels))
    conversion_failed.

(** [np.ascontiguousarray] changes the strides, not the elements; the
    layouts here are always row-major. *)
Definition numpy_to_bytes (audio_array : ndarray F) (dtype : string) : result bytes :=
  try_except
    (if String.eqb dtype "int16" then
       Ok (tobytes_int16 (astype_int16 audio_array))
     else if String.eqb dtype "float32" then
       Ok (tobytes_float32 (astype_float32 audio_array))
     else
       Raise (mk_exc InvalidAudioFormatError
                (String.append "不支援的資料類型: " dtype)))
    conversion_failed.

(** [numpy_to_bytes(a)] with the default [dtype='int16'], typed by the
    element type of [a] (see [numpy_to_bytes_float64_eq] and
    [numpy_to_bytes_int16_eq]). *)
Definition numpy_to_bytes_from_float64 (audio_array : shaped F) : result bytes :=
  try_except (Ok (tobytes_int16 (shaped_map f64_to_int16 audio_array)))
             conversion_failed.

Definition numpy_to_bytes_from_int16 (audio_array : shaped Z) : result bytes :=
  try_except (Ok (tobytes_int16 audio_array)) conversion_failed.

(** An array has one or two axes here, so the final [raise] of the source
    (three axes or more) has no counterpart. *)
Definition convert_to_mono (audio_array : ndarray F) : ndarray F :=
  match audio_array with
  | I16 (Arr1 xs) => I16 (Arr1 xs)
  | F32 (Arr1 xs) => F32 (Arr1 xs)
  | F64 (Arr1 xs) => F64 (Arr1 xs)
  | I16 (Arr2 _ rows) => I16 (Arr1 (map row_mean_int16 rows))
  | F32 (Arr2 _ rows) => F32 (Arr1 (map row_mean_float32 rows))
  | F64 (Arr2 _ rows) => F64 (Arr1 (map mean rows))
  end.

(** [convert_to_mono] on an [int16] array, typed by what it returns
    (see [convert_to_mono_int16_eq]). *)
Definition convert_to_mono_int16 (audio_array : shaped Z) : list Z :=
  match audio_array with
  | Arr1 xs => xs
  | Arr2 _ rows => map row_mean_int16 rows
  end.

(** [int(x)] of a float. *)
Definition py_int_of_float (x : F) : result Z :=
  match f_trunc x with
  | Some z => Ok z
  | None =>
      if f_isnan x
      then Raise (mk_exc ValueError "cannot convert float NaN to integer")
      else Raise (mk_exc OverflowError "cannot convert float infinity to integer")
  end.

(** The conversion of a Python [int] operand of a float operation: an
    integer beyond the range of a double raises. *)
Definition py_float_of_int (z : Z) : result F :=
  match f_trunc (f_of_Z z) with
  | Some _ => Ok (f_of_Z z)
  | None => Raise (mk_exc OverflowError "int too large to convert to float")
  end.

(** [a / b] on two Python [int]s. Python rounds the exact quotient once,
    and raises when it is beyond the range of a double; for operands that a
    double holds exactly (magnitude up to [2^53]) the quotient is the double
    division written here. *)
Definition py_true_div (a b : Z) : result F :=
  if b =? 0 then Raise (mk_exc ZeroDivisionError "division by zero")
  else
    let q := f_div (f_of_Z a) (f_of_Z b) in
    match f_trunc q with
    | Some _ => Ok q
    | None => Raise (mk_exc OverflowError
                       "integer division result too large for a float")
    end.

(** [ratio = target_rate / original_rate] and
    [new_length = int(len(audio_array) * ratio)]. *)
Definition new_length (n : nat) (original_rate target_rate : Z) : result Z :=
  let* ratio := py_true_div target_rate original_rate in
  let* n := py_float_of_int (Z.of_nat n) in
  py_int_of_float (f_mul n ratio).

Definition _resample_audio (audio_array : ndarray F)
    (original_rate target_rate : Z) : result (ndarray F) :=
  if original_rate =? target_rate then Ok audio_array
  else
    let n := nd_len audio_array in
    let* new_length := new_length n original_rate target_rate in
    let last_index := f_of_Z (Z.of_nat n - 1) in
    let* old_indices := linspace (f_of_Z 0) last_index (Z.of_nat n) in
    let* new_indices := linspace (f_of_Z 0) last_index new_length in
    let* resampled :=
      match nd_to_f64 audio_array with
      | Arr2 c rows =>
          let* columns :=
            mapM (fun channel =>
                    interp new_indices old_indices (column (f_of_Z 0) channel rows))
                 (seq 0 c) in
          Ok (Arr2 c (of_columns (f_of_Z 0) (Z.to_nat new_length) columns))
      | Arr1 xs =>
          let* ys := interp new_indices old_indices xs in
          Ok (Arr1 ys)
      end in
    Ok (astype (nd_dtype audio_array) resampled).

(** [np.column_stack([a] * c)]: a one-dimensional array becomes the [c]
    equal columns; a two-dimensional one is repeated side by side. *)
Definition column_stack (c : nat) (audio_array : ndarray F) : ndarray F :=
  let stack {A} (a : shaped A) : shaped A :=
    match a with
    | Arr1 xs => column_stack_copies c xs
    | Arr2 c' rows => Arr2 (c * c') (map (fun row => concat (repeat row c)) rows)
    end in
  match audio_array with
  | I16 a => I16 (stack a)
  | F32 a => F32 (stack a)
  | F64 a => F64 (stack a)
  end.

Definition normalize_audio (audio_bytes : bytes)
    (original_sample_rate original_channels : Z)
    (target_sample_rate target_channels : Z) : result bytes :=
  try_except
    (let* decoded :=
       bytes_to_numpy audio_bytes original_sample_rate original_channels "int16" in
     let '(audio_array, _, _) := decoded in
     let audio_array :=
       if (1 <? original_channels) && (target_channels =? 1) then
         convert_to_mono audio_array
       else if (original_channels =? 1) && (1 <? target_channels) then
         column_stack (Z.to_nat target_channels) audio_array
       else audio_array in
     let* audio_array :=
       if negb (original_sample_rate =? target_sample_rate)
       then _resample_audio audio_array original_sample_rate target_sample_rate
       else Ok audio_array in
     numpy_to_bytes audio_array "int16")
    (fun e => mk_exc AudioProcessingError
                (String.append "音訊標準化失敗: " (exc_str e))).

(** The values of the dictionary that [get_audio_info] returns. *)
Inductive info_value :=
| IInt (z : Z)
| IFloat (x : F)
| IStr (s : string).

(** The dictionary is built key by key; the division for
    ['duration_seconds'] is the one entry that may raise. Whatever is
    raised, the function returns [{'error': str(e)}] instead. *)
Definition get_audio_info (audio_bytes : bytes) (sample_rate channels : Z)
    : gmap string info_value :=
  match
    (let* decoded := bytes_to_numpy_int16 audio_bytes sample_rate channels in
     let '(audio_array, _, _) := decoded in
     let* duration_seconds :=
       py_true_div (Z.of_nat (len audio_array)) sample_rate in
     Ok (<["duration_samples" := IInt (Z.of_nat (len audio_array))]>
         (<["duration_seconds" := IFloat duration_seconds]>
         (<["channels" := IInt channels]>
         (<["sample_rate" := IInt sample_rate]>
         (<["dtype" := IStr "int16"]>
         (<["size_bytes" := IInt (Z.of_nat (length audio_bytes))]>
          (∅ : gmap string info_value))))))))
  with
  | Ok info => info
  | Raise e => <["error" := IStr (exc_str e)]> ∅
  end.

(** [max_size and len(audio_bytes) > max_size]: [None] and [0] are both
    false, so neither sets a limit. *)
Definition validate_audio_format (audio_bytes : bytes) (min_size : Z)
    (max_size : option Z) : bool :=
  match
    (if Z.of_nat (length audio_bytes) <? min_size then Ok false
     else if match max_size with
             | Some m => negb (m =? 0) && (m <? Z.of_nat (length audio_bytes))
             | None => false
             end
     then Ok false
     else
       let* _ := bytes_to_numpy_int16 audio_bytes 16000 1 in
       Ok true)
  with
  | Ok valid => valid
  | Raise _ => false
  end.

End WithFloat.
Arguments info_value F : clear implicits.
End Audio.
Export Audio.

(* ===================================================================== *)
(** * Python values of a configuration dictionary *)
(* ===================================================================== *)

Module Py.
Section WithFloat.
Context {F : Type} {FA : FloatArith F}.

(** The values a stage configuration holds: [None], booleans, integers and
    floats. *)
Inductive value :=
| PNone
| PBool (b : bool)
| PInt (z : Z)
| PFloat (x : F).

(** The double nearest to the decimal [p/q], for integers that doubles hold
    exactly: division is correctly rounded, as is the reading of a literal. *)
Definition lit (p q : Z) : F := f_div (f_of_Z p) (f_of_Z q).

(** [float(v)]. *)
Definition float (v : value) : result F :=
  match v with
  | PNone => Raise (mk_exc TypeError
      "float() argument must be a string or a real number, not 'NoneType'")
  | PBool b => Ok (f_of_Z (if b then 1 else 0))
  | PInt z => py_float_of_int z
  | PFloat x => Ok x
  end.

(** [int(v)]. *)
Definition int (v : value) : result Z :=
  match v with
  | PNone => Raise (mk_exc TypeError
      "int() argument must be a string, a bytes-like object or a real number, not 'NoneType'")
  | PBool b => Ok (if b then 1 else 0)
  | PInt z => Ok z
  | PFloat x => py_int_of_float x
  end.

(** Truth value, as tested by [not v]. *)
Definition truthy (v : value) : bool :=
  match v with
  | PNone => false
  | PBool b => b
  | PInt z => negb (z =? 0)
  | PFloat x => negb (f_eqb x (f_of_Z 0))
  end.

(** The chained comparison [0.0 <= x <= 1.0]. *)
Definition in_unit_interval (x : F) : bool :=
  f_leb (f_of_Z 0) x && f_leb x (f_of_Z 1).

(** [hint or default] for an optional integer keyword argument. *)
Definition hint_or (hint : option Z) (default : Z) : Z :=
  match hint with
  | Some z => if z =? 0 then default else z
  | None => default
  end.

(** [config.get(key, default)]. *)
Definition get (config : gmap string value) (key : string) (default : value) : value :=
  match config !! key with
  | Some v => v
  | None => default
  end.

End WithFloat.
Arguments value F : clear implicits.
End Py.

(** Keyword arguments of [process]: the two optional format hints, and
    whatever else a caller passes. *)
Abbreviation kwargs := (gmap string (option Z)).

(* ===================================================================== *)
(** * The preprocessor interface ([src/preprocessors/base.py]) *)
(* ===================================================================== *)

(** An instance of a concrete [AudioPreprocessor]: its [name] property and
    its [process(audio_bytes, **kwargs)] method. *)
Module AudioPreprocessor.
Record t := {
  name : string;
  process : bytes -> kwargs -> result bytes
}.
End AudioPreprocessor.

(** An asynchronous generator that ends, run to its end: the items it
    yields, in order, and the exception that ends it, if one does. *)
Module Stream.
Record t (A : Type) := mk { yielded : list A; raised : option exc }.
Arguments mk {A} yielded raised.
Arguments yielded {A} t.
Arguments raised {A} t.

Definition cons {A} (x : A) (s : t A) : t A :=
  mk (x :: yielded s) (raised s).
End Stream.

(** [AudioPreprocessor.process_streaming] for a class that leaves
    [supports_streaming] at [False], as both stages of
    [noise_reduction.py] do: [self.process(chunk)], without keyword
    arguments, on each chunk as it arrives. A raise, of [process] or of
    the incoming stream, ends the generator. *)
Module AudioPreprocessorStreaming.

Fixpoint each_chunk (self : AudioPreprocessor.t) (chunks : list bytes)
    (raised : option exc) : Stream.t bytes :=
  match chunks with
  | [] => Stream.mk [] raised
  | chunk :: rest =>
      match AudioPreprocessor.process self chunk ∅ with
      | Ok out => Stream.cons out (each_chunk self rest raised)
      | Raise e => Stream.mk [] (Some e)
      end
  end.

Definition process_streaming (self : AudioPreprocessor.t)
    (audio_stream : Stream.t bytes) : Stream.t bytes :=
  each_chunk self (Stream.yielded audio_stream) (Stream.raised audio_stream).

End AudioPreprocessorStreaming.

(** Calling [process(self, audio_bytes, original_sample_rate=None,
    original_channels=None)] with [**kwargs]: any other keyword is a
    [TypeError]. *)
Definition call_with_hints (f : option Z -> option Z -> result bytes)
    (kw : kwargs) : result bytes :=
  if forallb (fun kv => String.eqb (fst kv) "original_sample_rate"
                        || String.eqb (fst kv) "original_channels")
             (map_to_list kw)
  then f (default None (kw !! "original_sample_rate"))
         (default None (kw !! "original_channels"))
  else Raise (mk_exc TypeError "process() got an unexpected keyword argument").

(* ===================================================================== *)
(** * Noise reduction ([src/preprocessors/noise_reduction.py]) *)
(* ===================================================================== *)

Module NoiseReductionProcessor.
Section WithFloat.
Context {F : Type} {FA : FloatArith F}.

Record t := {
  enabled : Py.value F;
  strength : F;
  sample_rate : Z;
  frame_length : Z;
  hop_length : Z;
  config : gmap string (Py.value F)
}.

Definition _initialize (self : t) : result unit :=
  if negb (Py.in_unit_interval (strength self)) then
    Raise (mk_exc AudioProcessingError "降噪強度必須在 0.0 到 1.0 之間")
  else if sample_rate self <=? 0 then
    Raise (mk_exc AudioProcessingError "採樣率必須大於 0")
  else Ok tt.

Definition __init__ (config : gmap string (Py.value F)) : result t :=
  let enabled := Py.get config "enabled" (Py.PBool true) in
  let* strength := Py.float (Py.get config "strength" (Py.PFloat (Py.lit 1 2))) in
  let* sample_rate := Py.int (Py.get config "sample_rate" (Py.PInt 16000)) in
  let* frame_length := Py.int (Py.get config "frame_length" (Py.PInt 2048)) in
  let* hop_length := Py.int (Py.get config "hop_length" (Py.PInt 512)) in
  let self := {| enabled := enabled; strength := strength;
                 sample_rate := sample_rate; frame_length := frame_length;
                 hop_length := hop_length; config := config |} in
  let* _ := _initialize self in
  Ok self.

(** [max(3, int(self.sample_rate * 0.001))]. *)
Definition window_size (self : t) : result Z :=
  let* rate := py_float_of_int (sample_rate self) in
  let* w := py_int_of_float (f_mul rate (Py.lit 1 1000)) in
  Ok (Z.max 3 w).

Definition _apply_smoothing (self : t) (audio_array : list F) : result (list F) :=
  let* window_size := window_size self in
  if Z.of_nat (length audio_array) <=? window_size then Ok audio_array
  else
    let w := Z.to_nat window_size in
    let kernel := repeat (f_div (f_of_Z 1) (f_of_Z window_size)) w in
    let* padded_audio := pad_edge (Z.to_nat (window_size / 2)) audio_array in
    let* smoothed := convolve_valid padded_audio kernel in
    Ok (firstn (length audio_array) smoothed).

Context {FE : FloatExp F}.

(** A method that does not read [self]. The energies arrive as doubles:
    dividing an [int16] array by a double converts it first. *)
Definition _create_soft_mask (energy : list F) (threshold : F) : list F :=
  let ratio := map (fun e => f_div e (f_add threshold (Py.lit 1 100000000))) energy in
  let mask :=
    map (fun r => f_div (f_of_Z 1)
                    (f_add (f_of_Z 1)
                       (f_exp (f_mul (f_of_Z (-5)) (f_sub r (f_of_Z 1))))))
        ratio in
  map (clip (Py.lit 1 10) (f_of_Z 1)) mask.

(** [process] passes a mono [int16] array; the result is a double array. *)
Definition _apply_noise_reduction (self : t) (audio_array : list Z) : result (list F) :=
  let energy := map abs_int16 audio_array in
  let noise_sample_size :=
    Z.min (Z.of_nat (length audio_array) / 10) (sample_rate self / 2) in
  let noise_level :=
    if 0 <? noise_sample_size
    then mean (map f_of_Z (firstn (Z.to_nat noise_sample_size) energy))
    else f_mul (mean (map f_of_Z energy)) (Py.lit 1 10) in
  let threshold := f_mul noise_level (f_add (f_of_Z 1) (strength self)) in
  let mask := _create_soft_mask (map f_of_Z energy) threshold in
  let processed_audio :=
    map (fun xm => f_mul (f_of_Z (fst xm)) (snd xm)) (combine audio_array mask) in
  _apply_smoothing self processed_audio.

Definition process (self : t) (audio_bytes : bytes)
    (original_sample_rate original_channels : option Z) : result bytes :=
  if negb (Py.truthy (enabled self)) then Ok audio_bytes
  else
    try_except
      (let sample_rate := Py.hint_or original_sample_rate (sample_rate self) in
       let channels := Py.hint_or original_channels 1 in
       let* decoded := bytes_to_numpy_int16 audio_bytes sample_rate channels in
       let '(audio_array, _, _) := decoded in
       let mono_array :=
         if (1 <? ndim audio_array)%nat
         then convert_to_mono_int16 audio_array
         else ravel audio_array in
       let* processed_mono := _apply_noise_reduction self mono_array in
       let processed_array :=
         if (1 <? ndim audio_array)%nat && (1 <? channels)
         then column_stack_copies (Z.to_nat channels) processed_mono
         else Arr1 processed_mono in
       numpy_to_bytes_from_float64 processed_array)
      (fun e => mk_exc AudioProcessingError
                  (String.append "降噪處理失敗: " (exc_str e))).

Definition as_preprocessor (self : t) : AudioPreprocessor.t :=
  {| AudioPreprocessor.name := "noise_reduction";
     AudioPreprocessor.process :=
       fun audio_bytes kw => call_with_hints (process self audio_bytes) kw |}.

End WithFloat.
Arguments t F : clear implicits.
End NoiseReductionProcessor.

Module AudioNormalizer.
Section WithFloat.
Context {F : Type} {FA : FloatArith F}.

Record t := {
  target_sample_rate : Z;
  target_channels : Z;
  normalize_volume : Py.value F;
  target_volume : F;
  config : gmap string (Py.value F)
}.

Definition _initialize (self : t) : result unit :=
  if target_sample_rate self <=? 0 then
    Raise (mk_exc AudioProcessingError "目標採樣率必須大於 0")
  else if negb ((target_channels self =? 1) || (target_channels self =? 2)) then
    Raise (mk_exc AudioProcessingError "目標聲道數必須是 1 或 2")
  else if negb (Py.in_unit_interval (target_volume self)) then
    Raise (mk_exc AudioProcessingError "目標音量必須在 0.0 到 1.0 之間")
  else Ok tt.

Definition __init__ (config : gmap string (Py.value F)) : result t :=
  let* target_sample_rate :=
    Py.int (Py.get config "target_sample_rate" (Py.PInt 16000)) in
  let* target_channels := Py.int (Py.get config "target_channels" (Py.PInt 1)) in
  let normalize_volume := Py.get config "normalize_volume" (Py.PBool true) in
  let* target_volume :=
    Py.float (Py.get config "target_volume" (Py.PFloat (Py.lit 4 5))) in
  let self := {| target_sample_rate := target_sample_rate;
                 target_channels := target_channels;
                 normalize_volume := normalize_volume;
                 target_volume := target_volume; config := config |} in
  let* _ := _initialize self in
  Ok self.

(** Python's [min(a, b)]: [b] when [b < a], else [a]. *)
Definition py_min (a b : F) : F := if f_ltb b a then b else a.

Definition int16_max : Z := 32767.
Definition int16_min : Z := -32768.

(** The closing [normalized_array.astype(np.int16)] is written in each
    branch: a conversion of the scaled doubles, nothing for the untouched
    [int16] array. *)
Definition _normalize_volume (self : t) (audio_bytes : bytes) : result bytes :=
  try_except
    (let* decoded :=
       bytes_to_numpy_int16 audio_bytes (target_sample_rate self) (target_channels self) in
     let '(audio_array, _, _) := decoded in
     let* current_max := amax (map abs_int16 (ravel audio_array)) in
     let normalized_array :=
       if 0 <? current_max then
         let target_max := f_mul (target_volume self) (f_of_Z int16_max) in
         let scale_factor := f_div target_max (f_of_Z current_max) in
         let scale_factor :=
           if f_ltb (f_of_Z 1) scale_factor
           then py_min scale_factor (f_div target_max (f_of_Z current_max))
           else scale_factor in
         shaped_map
           (fun x => f64_to_int16
                       (clip (f_of_Z int16_min) (f_of_Z int16_max)
                          (f_mul (f_of_Z x) scale_factor)))
           audio_array
       else audio_array in
     numpy_to_bytes_from_int16 normalized_array)
    (fun e => mk_exc AudioProcessingError
                (String.append "音量標準化失敗: " (exc_str e))).

Context {FS : Float32 F}.

Definition process (self : t) (audio_bytes : bytes)
    (original_sample_rate original_channels : option Z) : result bytes :=
  try_except
    (match original_sample_rate, original_channels with
     | Some original_sample_rate, Some original_channels =>
         let need_conversion :=
           negb (original_sample_rate =? target_sample_rate self)
           || negb (original_channels =? target_channels self) in
         let* normalized_bytes :=
           if need_conversion
           then normalize_audio audio_bytes original_sample_rate original_channels
                  (target_sample_rate self) (target_channels self)
           else Ok audio_bytes in
         if Py.truthy (normalize_volume self)
         then _normalize_volume self normalized_bytes
         else Ok normalized_bytes
     | _, _ =>
         if Py.truthy (normalize_volume self)
         then _normalize_volume self audio_bytes
         else Ok audio_bytes
     end)
    (fun e => mk_exc AudioProcessingError
                (String.append "音訊標準化失敗: " (exc_str e))).

Definition as_preprocessor (self : t) : AudioPreprocessor.t :=
  {| AudioPreprocessor.name := "audio_normalizer";
     AudioPreprocessor.process :=
       fun audio_bytes kw => call_with_hints (process self audio_bytes) kw |}.

End WithFloat.
Arguments t F : clear implicits.
End AudioNormalizer.

(* ===================================================================== *)
(** * The pipeline ([src/core/pipeline.py]) *)
(* ===================================================================== *)

Module AudioPipeline.

Record t := { processors : list AudioPreprocessor.t }.

Definition __init__ (processors : list AudioPreprocessor.t) : t :=
  {| processors := processors |}.

(** The [for] loop of [process]: [result = processor.process(result,
    **kwargs)] for each processor in turn; a raise leaves the loop. *)
Fixpoint run (processors : list AudioPreprocessor.t) (kw : kwargs)
    (result : bytes) : Exceptions.result bytes :=
  match processors with
  | [] => Ok result
  | processor :: rest =>
      let* result := AudioPreprocessor.process processor result kw in
      run rest kw result
  end.

Definition pipeline_failed (e : exc) : exc :=
  mk_exc AudioProcessingError
    (String.append "音訊處理管線執行失敗: " (exc_str e)).

Definition process (self : t) (audio_bytes : bytes) (kw : kwargs) : result bytes :=
  try_except (run (processors self) kw audio_bytes) pipeline_failed.

Definition __len__ (self : t) : nat := length (processors self).

Definition streaming_failed (e : exc) : exc :=
  mk_exc AudioProcessingError
    (String.append "串流音訊處理管線執行失敗: " (exc_str e)).

(** The generators are chained in construction order and then drained;
    whatever ends the last one is re-raised by the [except] clause. *)
Definition process_streaming (self : t) (audio_stream : Stream.t bytes)
    : Stream.t bytes :=
  let current_stream :=
    fold_left (fun current_stream processor =>
                 AudioPreprocessorStreaming.process_streaming processor current_stream)
              (processors self) audio_stream in
  Stream.mk (Stream.yielded current_stream)
            (option_map streaming_failed (Stream.raised current_stream)).

End AudioPipeline.

Module AudioPipelineManager.

Record t := { registered_processors : gmap string AudioPreprocessor.t }.

Definition __init__ : t := {| registered_processors := ∅ |}.

Definition register_processor (self : t) (processor : AudioPreprocessor.t) : t :=
  {| registered_processors :=
       <[AudioPreprocessor.name processor := processor]> (registered_processors self) |}.

(** A computation that reads the registry: the keys it looked up, in order,
    and its outcome. *)
Definition traced (A : Type) : Type := list string * result A.

(** [name not in self.registered_processors], then
    [self.registered_processors[name]]. *)
Definition get_processor (self : t) (name : string) : traced AudioPreprocessor.t :=
  match registered_processors self !! name with
  | None => ([name], Raise (mk_exc PreprocessorError
                              (String.append "找不到前處理器: " name)))
  | Some processor => ([name; name], Ok processor)
  end.

(** The loop of [create_pipeline], appending to [processors]. *)
Fixpoint collect (self : t) (processor_names : list string)
    (processors : list AudioPreprocessor.t) : traced (list AudioPreprocessor.t) :=
  match processor_names with
  | [] => ([], Ok processors)
  | name :: rest =>
      match get_processor self name with
      | (seen, Raise e) => (seen, Raise e)
      | (seen, Ok processor) =>
          let '(seen', r) := collect self rest (processors ++ [processor]) in
          (seen ++ seen', r)
      end
  end.

Definition create_pipeline (self : t) (processor_names : list string)
    : traced AudioPipeline.t :=
  match processor_names with
  | [] => ([], Ok (AudioPipeline.__init__ []))
  | _ :: _ =>
      let '(seen, r) := collect self processor_names [] in
      (seen, let* processors := r in Ok (AudioPipeline.__init__ processors))
  end.

Definition is_registered (self : t) (name : string) : bool :=
  match registered_processors self !! name with
  | Some _ => true
  | None => false
  end.

End AudioPipelineManager.

(* ===================================================================== *)
(** * The component registry ([src/core/registry.py]) *)
(* ===================================================================== *)

(** A registered class is what calling it does: it takes a configuration
    and returns an instance, or raises. *)
Module ComponentRegistry.
Section WithClasses.
Context {Config Engine Preprocessor : Type}.

Record t := {
  engine_classes : gmap string (Config -> result Engine);
  preprocessor_classes : gmap string (Config -> result Preprocessor)
}.

Definition __init__ : t :=
  {| engine_classes := ∅; preprocessor_classes := ∅ |}.

Definition register_engine (self : t) (name : string)
    (engine_class : Config -> result Engine) : t :=
  {| engine_classes := <[name := engine_class]> (engine_classes self);
     preprocessor_classes := preprocessor_classes self |}.

Definition register_preprocessor (self : t) (name : string)
    (preprocessor_class : Config -> result Preprocessor) : t :=
  {| engine_classes := engine_classes self;
     preprocessor_classes :=
       <[name := preprocessor_class]> (preprocessor_classes self) |}.

Definition create_engine (self : t) (name : string) (config : Config)
    : result Engine :=
  match engine_classes self !! name with
  | None => Raise (mk_exc EngineNotFoundError
                     (String.append "找不到 ASR 引擎: " name))
  | Some engine_class => engine_class config
  end.

Definition create_preprocessor (self : t) (name : string) (config : Config)
    : result Preprocessor :=
  match preprocessor_classes self !! name with
  | None => Raise (mk_exc PreprocessorNotFoundError
                     (String.append "找不到前處理器: " name))
  | Some preprocessor_class => preprocessor_class config
  end.

Definition is_engine_registered (self : t) (name : string) : bool :=
  match engine_classes self !! name with Some _ => true | None => false end.

Definition is_preprocessor_registered (self : t) (name : string) : bool :=
  match preprocessor_classes self !! name with Some _ => true | None => false end.

End WithClasses.
Arguments t : clear implicits.
End ComponentRegistry.

(* ===================================================================== *)
(** * The specification's vocabulary *)
(* ===================================================================== *)

Module Spec.

(** The sample width in bytes of a supported [dtype]. *)
Definition sample_width (dtype : string) : option nat :=
  if String.eqb dtype "int16" then Some 2%nat
  else if String.eqb dtype "float32" then Some 4%nat
  else None.

(** [round(p / q)] for [q > 0]: the nearest integer, a tie going to the
    even neighbour (Python's [round]). *)
Definition round_div (p q : Z) : Z :=
  let d := p / q in
  let r := p mod q in
  if 2 * r <? q then d
  else if q <? 2 * r then d + 1
  else if Z.even d then d else d + 1.

(** "Target length = round(original_length * to_rate / from_rate)". *)
Definition target_length (original_length : nat) (from_rate to_rate : Z) : Z :=
  round_div (Z.of_nat original_length * to_rate) from_rate.

(** The bytes of the whole frames of a buffer: its longest prefix whose
    length is a multiple of [frame] bytes. *)
Definition whole_frames (frame : nat) (b : bytes) : bytes :=
  firstn (frame * (length b / frame)) b.

(** "stage2.process(stage1.process(b))" with the same hints, and its
    extension to a list of stages, left to right. *)
Definition then_stage (kw : kwargs) (r : result bytes) (stage : AudioPreprocessor.t)
    : result bytes :=
  let* b := r in AudioPreprocessor.process stage b kw.

Definition compose (stages : list AudioPreprocessor.t) (kw : kwargs) (b : bytes)
    : result bytes :=
  fold_left (then_stage kw) stages (Ok b).

Definition all_zero (b : bytes) : Prop := Forall (fun x => x = Byte.x00) b.

(** The samples of a buffer of 16-bit PCM, in order. *)
Definition int16_samples (b : bytes) : list Z :=
  map int16_of_word (map le_decode (chunks 2 b)).

(** "mask = sigmoid(5 x (ratio - 1)), then clamp mask into [0.1, 1.0]",
    with "ratio = energy / (threshold + 1e-8)", over the reals. *)
Definition sigmoid (x : R) : R := (1 / (1 + exp (- x)))%R.

Definition soft_mask (threshold energy : R) : R :=
  Rmin (Rmax (sigmoid (5 * (energy / (threshold + 1 / 100000000) - 1))) (1 / 10)) 1.

End Spec.

(** The value of [processed_audio] after step 4 of
    [_apply_noise_reduction], before smoothing
    (see [apply_noise_reduction_steps]). *)
Definition masked_audio {F} `{FloatArith F} `{FloatExp F}
    (self : NoiseReductionProcessor.t F) (audio_array : list Z) : list F :=
  let energy := map abs_int16 audio_array in
  let noise_sample_size :=
    Z.min (Z.of_nat (length audio_array) / 10)
          (NoiseReductionProcessor.sample_rate self / 2) in
  let noise_level :=
    if 0 <? noise_sample_size
    then mean (map f_of_Z (firstn (Z.to_nat noise_sample_size) energy))
    else f_mul (mean (map f_of_Z energy)) (Py.lit 1 10) in
  let threshold :=
    f_mul noise_level (f_add (f_of_Z 1) (NoiseReductionProcessor.strength self)) in
  let mask := NoiseReductionProcessor._create_soft_mask (map f_of_Z energy) threshold in
  map (fun xm => f_mul (f_of_Z (fst xm)) (snd xm)) (combine audio_array mask).

(** ** Shapes and ranges of arrays *)

Module Shape.

(** [a.size]: the number of elements. *)
Definition size {A} (a : shaped A) : nat := length (ravel a).

Definition nd_size {F} (a : ndarray F) : nat :=
  match a with I16 a | F32 a => size a | F64 a => size a end.

(** Every row of a two-dimensional array has as many entries as the array
    has columns. *)
Definition rectangular {A} (a : shaped A) : Prop :=
  match a with
  | Arr1 _ => True
  | Arr2 c rows => Forall (fun row => length row = c) rows
  end.

Definition nd_rectangular {F} (a : ndarray F) : Prop :=
  match a with I16 a | F32 a => rectangular a | F64 a => rectangular a end.

(** The values of [np.int16]. *)
Definition is_int16 (z : Z) : Prop := -32768 <= z <= 32767.

End Shape.

(** ** Chunk-wise processing of a stream *)

Module StreamSpec.

(** [f] applied to each chunk in turn, up to the first chunk on which it
    raises. *)
Fixpoint until_raise (f : bytes -> result bytes) (chunks : list bytes)
    : Stream.t bytes :=
  match chunks with
  | [] => Stream.mk [] None
  | chunk :: rest =>
      match f chunk with
      | Ok out => Stream.cons out (until_raise f rest)
      | Raise e => Stream.mk [] (Some e)
      end
  end.

End StreamSpec.

(* ===================================================================== *)
(** * Sample configurations and signals *)
(* ===================================================================== *)

Module Examples.
Import Byte.

(** Stages over exact reals. *)
Definition disabled_cfg : gmap string (Py.value ExtReal.ereal) :=
  {["enabled" := Py.PBool false]}.

Definition disabled_stage : NoiseReductionProcessor.t ExtReal.ereal :=
  {| NoiseReductionProcessor.enabled := Py.PBool false;
     NoiseReductionProcessor.strength := Py.lit 1 2;
     NoiseReductionProcessor.sample_rate := 16000;
     NoiseReductionProcessor.frame_length := 2048;
     NoiseReductionProcessor.hop_length := 512;
     NoiseReductionProcessor.config := disabled_cfg |}.

(** The stage that [NoiseReductionProcessor({})] builds. *)
Definition default_stage : NoiseReductionProcessor.t ExtReal.ereal :=
  {| NoiseReductionProcessor.enabled := Py.PBool true;
     NoiseReductionProcessor.strength := Py.lit 1 2;
     NoiseReductionProcessor.sample_rate := 16000;
     NoiseReductionProcessor.frame_length := 2048;
     NoiseReductionProcessor.hop_length := 512;
     NoiseReductionProcessor.config := ∅ |}.

Definition strength_2_cfg : gmap string (Py.value ExtReal.ereal) :=
  {["strength" := Py.PInt 2]}.

(** Configurations over binary64: the two rejected by the test suite, and
    a sample rate beyond the range of a double. *)
Definition strength_1_5_cfg : gmap string (Py.value spec_float) :=
  {["strength" := Py.PFloat (Py.lit 3 2)]}.

Definition negative_rate_cfg : gmap string (Py.value spec_float) :=
  {["sample_rate" := Py.PInt (-1)]}.

Definition huge_rate_cfg : gmap string (Py.value spec_float) :=
  {["sample_rate" := Py.PInt (10 ^ 400)]}.

(** The stage that [NoiseReductionProcessor({'sample_rate': 10**400})]
    builds. *)
Definition huge_rate_stage : NoiseReductionProcessor.t spec_float :=
  {| NoiseReductionProcessor.enabled := Py.PBool true;
     NoiseReductionProcessor.strength := Py.lit 1 2;
     NoiseReductionProcessor.sample_rate := 10 ^ 400;
     NoiseReductionProcessor.frame_length := 2048;
     NoiseReductionProcessor.hop_length := 512;
     NoiseReductionProcessor.config := huge_rate_cfg |}.

Definition normalizer (channels : Z) : AudioNormalizer.t spec_float :=
  {| AudioNormalizer.target_sample_rate := 16000;
     AudioNormalizer.target_channels := channels;
     AudioNormalizer.normalize_volume := Py.PBool true;
     AudioNormalizer.target_volume := Py.lit 4 5;
     AudioNormalizer.config := ∅ |}.

(** A normalizer configuration asking for three channels. *)
Definition three_channels_cfg : gmap string (Py.value spec_float) :=
  {["target_channels" := Py.PInt 3]}.

(** Seven mono samples. *)
Definition ramp : ndarray spec_float := I16 (Arr1 [0; 10; 20; 30; 40; 50; 60]).

End Examples.

(* ===================================================================== *)
(** * Properties *)
(* ===================================================================== *)

(** ** Bytes, words and chunks *)

Section BytesFacts.

Lemma byte_to_Z_range (b : byte) : 0 <= byte_to_Z b < 256.
Proof.
  unfold byte_to_Z. pose proof (Byte.to_N_bounded b). lia.
Qed.

Lemma byte_of_to_Z (b : byte) : byte_of_Z (byte_to_Z b) = b.
Proof.
  unfold byte_of_Z. pose proof (byte_to_Z_range b) as Hr.
  rewrite Z.mod_small by exact Hr.
  unfold byte_to_Z. rewrite N2Z.id, Byte.of_to_N. reflexivity.
Qed.

Lemma byte_of_Z_low (b : byte) (z : Z) : byte_of_Z (byte_to_Z b + 256 * z) = b.
Proof.
  unfold byte_of_Z. pose proof (byte_to_Z_range b) as Hr.
  replace (byte_to_Z b + 256 * z) with (byte_to_Z b + z * 256) by lia.
  rewrite Z.mod_add by lia. rewrite Z.mod_small by exact Hr.
  unfold byte_to_Z. rewrite N2Z.id, Byte.of_to_N. reflexivity.
Qed.

Lemma le_decode_range (bs : bytes) : 0 <= le_decode bs < 256 ^ Z.of_nat (length bs).
Proof.
  induction bs as [|b bs IH]; cbn [le_decode length].
  - simpl. lia.
  - pose proof (byte_to_Z_range b) as Hr.
    rewrite Nat2Z.inj_succ, Z.pow_succ_r by lia. lia.
Qed.

Lemma le_encode_decode (bs : bytes) : le_encode (length bs) (le_decode bs) = bs.
Proof.
  induction bs as [|b bs IH]; cbn [le_decode le_encode length]; [reflexivity|].
  rewrite byte_of_Z_low. f_equal.
  pose proof (byte_to_Z_range b) as Hr.
  replace ((byte_to_Z b + 256 * le_decode bs) / 256) with (le_decode bs); [exact IH|].
  apply Z.div_unique with (r := byte_to_Z b); lia.
Qed.

Lemma word_of_int16_of_word (u : Z) :
  0 <= u < 65536 -> word_of_int16 (int16_of_word u) = u.
Proof.
  intros Hu. unfold word_of_int16, int16_of_word.
  destruct (u <? 32768) eqn:E.
  - apply Z.mod_small. lia.
  - replace (u - 65536) with (u + (-1) * 65536) by lia.
    rewrite Z.mod_add by lia. apply Z.mod_small. lia.
Qed.

Lemma int16_of_word_range (u : Z) :
  0 <= u < 65536 -> -32768 <= int16_of_word u <= 32767.
Proof.
  intros Hu. unfold int16_of_word. destruct (u <? 32768) eqn:E; lia.
Qed.

Context {A : Type}.
Implicit Types l : list A.

Lemma firstn_plus (a b : nat) l :
  firstn (a + b) l = firstn a l ++ firstn b (skipn a l).
Proof.
  revert l. induction a as [|a IH]; intros l; [reflexivity|].
  destruct l as [|x l]; cbn [Nat.add firstn skipn app].
  - rewrite firstn_nil. reflexivity.
  - f_equal. apply IH.
Qed.

Lemma chunks_fuel_concat (fuel k : nat) l :
  (0 < k)%nat -> (length l <= fuel)%nat -> concat (chunks_fuel fuel k l) = l.
Proof.
  intros Hk. revert l. induction fuel as [|fuel IH]; intros l Hl.
  - destruct l; [reflexivity | simpl in Hl; lia].
  - destruct l as [|x l]; [reflexivity|].
    cbn [chunks_fuel concat].
    rewrite IH.
    + apply firstn_skipn.
    + rewrite length_skipn. simpl in *. lia.
Qed.

Lemma chunks_concat (k : nat) l : (0 < k)%nat -> concat (chunks k l) = l.
Proof. intros Hk. apply chunks_fuel_concat; [exact Hk | lia]. Qed.

Lemma chunks_fuel_firstn (m fuel k : nat) l :
  (0 < k)%nat -> (length l <= fuel)%nat ->
  concat (firstn m (chunks_fuel fuel k l)) = firstn (m * k) l.
Proof.
  intros Hk. revert fuel l. induction m as [|m IH]; intros fuel l Hl.
  - reflexivity.
  - destruct fuel as [|fuel].
    + destruct l; [|simpl in Hl; lia]. cbn. rewrite firstn_nil. reflexivity.
    + destruct l as [|x l]; [cbn [chunks_fuel firstn concat]; rewrite firstn_nil; reflexivity|].
      cbn [chunks_fuel firstn concat].
      rewrite IH by (rewrite length_skipn; simpl in *; lia).
      replace (S m * k)%nat with (k + m * k)%nat by lia.
      rewrite firstn_plus. reflexivity.
Qed.

Lemma chunks_firstn (m k : nat) l :
  (0 < k)%nat -> concat (firstn m (chunks k l)) = firstn (m * k) l.
Proof. intros Hk. apply chunks_fuel_firstn; [exact Hk | lia]. Qed.

Lemma chunks_fuel_sizes (fuel k q : nat) l :
  (0 < k)%nat -> length l = (q * k)%nat -> (length l <= fuel)%nat ->
  Forall (fun c => length c = k) (chunks_fuel fuel k l)
  /\ length (chunks_fuel fuel k l) = q.
Proof.
  intros Hk. revert q l. induction fuel as [|fuel IH]; intros q l Hq Hl.
  - destruct l; [|simpl in Hl; lia]. simpl in Hq.
    split; [constructor|]. simpl. nia.
  - destruct l as [|x l].
    + simpl in Hq. split; [constructor|]. simpl. nia.
    + destruct q as [|q]; [simpl in Hq; lia|].
      cbn [chunks_fuel].
      destruct (IH q (skipn k (x :: l))) as [Hall Hlen].
      * rewrite length_skipn. lia.
      * rewrite length_skipn. simpl in *. lia.
      * split.
        -- constructor; [|exact Hall]. rewrite length_firstn. lia.
        -- cbn [length]. rewrite Hlen. reflexivity.
Qed.

Lemma chunks_sizes (k q : nat) l :
  (0 < k)%nat -> length l = (q * k)%nat ->
  Forall (fun c => length c = k) (chunks k l) /\ length (chunks k l) = q.
Proof. intros Hk Hq. apply chunks_fuel_sizes; [exact Hk | exact Hq | lia]. Qed.

End BytesFacts.

(** ** The PCM codec *)

Section Codec.
Context {F : Type} {FA : FloatArith F} {FS : Float32 F}.

Lemma frame_width_pos (channels : Z) : (0 < frame_width channels)%nat.
Proof. unfold frame_width. lia. Qed.

Lemma to_frames_ravel (channels : Z) (xs : list Z) :
  ravel (to_frames channels xs)
  = firstn (frame_width channels * (length xs / frame_width channels)) xs.
Proof.
  unfold to_frames, frame_width.
  destruct (1 <? channels) eqn:Hc.
  - apply Z.ltb_lt in Hc. rewrite Z.max_r by lia.
    set (c := Z.to_nat channels). assert (Hpos : (0 < c)%nat) by (subst c; lia).
    pose proof (Nat.div_mod_eq (length xs) c) as Hdm.
    destruct (length xs mod c =? 0)%nat eqn:Hr; cbn [negb reshape_rows ravel].
    + apply Nat.eqb_eq in Hr. rewrite chunks_concat by exact Hpos.
      rewrite <- (firstn_all xs) at 1. f_equal. lia.
    + rewrite chunks_concat by exact Hpos. f_equal. lia.
  - apply Z.ltb_ge in Hc. rewrite Z.max_l by lia. cbn [ravel].
    change (Z.to_nat 1) with 1%nat. rewrite Nat.div_1_r, Nat.mul_1_l.
    symmetry. apply firstn_all.
Qed.

Lemma to_frames_len (channels : Z) (xs : list Z) :
  len (to_frames channels xs) = (length xs / frame_width channels)%nat.
Proof.
  unfold to_frames, frame_width.
  destruct (1 <? channels) eqn:Hc.
  - apply Z.ltb_lt in Hc. rewrite Z.max_r by lia.
    set (c := Z.to_nat channels). assert (Hpos : (0 < c)%nat) by (subst c; lia).
    pose proof (Nat.div_mod_eq (length xs) c) as Hdm.
    cbn [reshape_rows len].
    destruct (length xs mod c =? 0)%nat eqn:Hr; cbn [negb].
    + apply Nat.eqb_eq in Hr.
      apply (chunks_sizes c (length xs / c) xs Hpos). lia.
    + apply (chunks_sizes c (length xs / c) _ Hpos).
      rewrite length_firstn. lia.
  - apply Z.ltb_ge in Hc. rewrite Z.max_l by lia. cbn [len].
    change (Z.to_nat 1) with 1%nat. rewrite Nat.div_1_r. reflexivity.
Qed.

(** Encoding the first [m] decoded words gives back the first [m] groups of
    bytes, whenever encoding undoes decoding on one group. *)
Lemma encode_decoded_prefix (w m : nat) (dec : Z -> Z) (enc : Z -> bytes) (b : bytes) :
  (0 < w)%nat -> (length b mod w = 0)%nat ->
  (forall c : bytes, length c = w -> enc (dec (le_decode c)) = c) ->
  concat (map enc (firstn m (map dec (map le_decode (chunks w b)))))
  = firstn (m * w) b.
Proof.
  intros Hw Hmod Hinv.
  apply Nat.Div0.div_exact in Hmod.
  destruct (chunks_sizes w (length b / w) b Hw ltac:(lia)) as [Hall _].
  rewrite !map_map, firstn_map, map_map.
  rewrite <- (chunks_firstn m w b Hw). f_equal.
  assert (Hall' : Forall (fun c => length c = w) (firstn m (chunks w b))).
  { apply List.Forall_forall. intros c Hin.
    rewrite List.Forall_forall in Hall. apply Hall.
    rewrite <- (firstn_skipn m (chunks w b)). apply List.in_or_app. left. exact Hin. }
  induction Hall' as [|c cs Hc _ IH]; cbn [map]; [reflexivity|].
  rewrite Hinv by exact Hc. f_equal. exact IH.
Qed.

Lemma int16_group_roundtrip (c : bytes) :
  length c = 2%nat -> le_encode 2 (word_of_int16 (int16_of_word (le_decode c))) = c.
Proof.
  intros Hc. pose proof (le_decode_range c) as Hr. rewrite Hc in Hr.
  rewrite word_of_int16_of_word by (change (256 ^ Z.of_nat 2) with 65536 in Hr; lia).
  rewrite <- Hc. apply le_encode_decode.
Qed.

Lemma float32_group_roundtrip (c : bytes) :
  length c = 4%nat -> le_encode 4 (le_decode c) = c.
Proof. intros Hc. rewrite <- Hc. apply le_encode_decode. Qed.

(** What decoding keeps, in bytes: the whole frames of the buffer. *)
Lemma codec_whole_frames (b : bytes) (sr ch : Z) (dtype : string) (w : nat) :
  Spec.sample_width dtype = Some w ->
  (length b mod w = 0)%nat ->
  exists a : ndarray F,
    bytes_to_numpy b sr ch dtype = Ok (a, sr, ch)
    /\ nd_len a = (length b / (frame_width ch * w))%nat
    /\ numpy_to_bytes a dtype = Ok (Spec.whole_frames (frame_width ch * w) b).
Proof.
  intros Hw Hmod.
  pose proof (frame_width_pos ch) as Hfw.
  assert (Hcases : (dtype = "int16" /\ w = 2%nat) \/ (dtype = "float32" /\ w = 4%nat)).
  { unfold Spec.sample_width in Hw.
    destruct (String.eqb dtype "int16") eqn:E1.
    - apply String.eqb_eq in E1. left. split; congruence.
    - destruct (String.eqb dtype "float32") eqn:E2; [|discriminate].
      apply String.eqb_eq in E2. right. split; congruence. }
  assert (Hs : length b = (w * (length b / w))%nat) by (apply Nat.Div0.div_exact; exact Hmod).
  assert (Hw0 : (0 < w)%nat) by (destruct Hcases as [[_ ->]|[_ ->]]; lia).
  assert (Hnw : length (chunks w b) = (length b / w)%nat)
    by (apply (chunks_sizes w (length b / w) b Hw0); lia).
  assert (Hprefix : forall m, (m * w)%nat =
            (frame_width ch * (length b / w / frame_width ch) * w)%nat ->
            firstn (m * w) b = Spec.whole_frames (frame_width ch * w) b).
  { intros m Hm. unfold Spec.whole_frames. f_equal. rewrite Hm.
    rewrite Nat.Div0.div_div. rewrite (Nat.mul_comm w (frame_width ch)). lia. }
  destruct Hcases as [[-> ->]|[-> ->]].
  - exists (I16 (to_frames ch (map int16_of_word (map le_decode (chunks 2 b))))).
    unfold bytes_to_numpy, numpy_to_bytes, frombuffer.
    rewrite Hmod. cbn. split; [reflexivity|]. split.
    + rewrite to_frames_len, !length_map, Hnw, Nat.Div0.div_div.
      f_equal. apply Nat.mul_comm.
    + f_equal. unfold tobytes_int16. rewrite to_frames_ravel.
      rewrite !length_map, Hnw.
      rewrite (encode_decoded_prefix 2 _ int16_of_word
                 (fun z => le_encode 2 (word_of_int16 z)) b Hw0 Hmod
                 int16_group_roundtrip).
      apply Hprefix. reflexivity.
  - exists (F32 (to_frames ch (map le_decode (chunks 4 b)))).
    unfold bytes_to_numpy, numpy_to_bytes, frombuffer.
    rewrite Hmod. cbn. split; [reflexivity|]. split.
    + rewrite to_frames_len, !length_map, Hnw, Nat.Div0.div_div.
      f_equal. apply Nat.mul_comm.
    + f_equal. unfold tobytes_float32. rewrite to_frames_ravel.
      rewrite !length_map, Hnw.
      rewrite <- (map_id (map le_decode (chunks 4 b))).
      rewrite (encode_decoded_prefix 4 _ (fun z => z) (le_encode 4) b Hw0 Hmod
                 float32_group_roundtrip).
      apply Hprefix. reflexivity.
Qed.

(** A buffer that is not a whole number of samples is rejected. *)
Lemma codec_rejects_partial_sample (b : bytes) (sr ch : Z) (dtype : string) (w : nat) :
  Spec.sample_width dtype = Some w ->
  (length b mod w <> 0)%nat ->
  exists e, bytes_to_numpy (F:=F) b sr ch dtype = Raise e
            /\ exc_cls e = InvalidAudioFormatError.
Proof.
  intros Hw Hmod. unfold Spec.sample_width in Hw.
  unfold bytes_to_numpy, frombuffer.
  destruct (String.eqb dtype "int16") eqn:E1.
  - injection Hw as <-. apply Nat.eqb_neq in Hmod. rewrite Hmod. cbn. eauto.
  - destruct (String.eqb dtype "float32") eqn:E2; [|discriminate].
    injection Hw as <-. apply Nat.eqb_neq in Hmod. rewrite Hmod. cbn. eauto.
Qed.

End Codec.

(** The typed views agree with the functions they specialise. *)
Section TypedViews.
Context {F : Type} {FA : FloatArith F} {FS : Float32 F}.

Lemma bytes_to_numpy_default (b : bytes) (sr ch : Z) :
  bytes_to_numpy (F:=F) b sr ch "int16"
  = let* decoded := bytes_to_numpy_int16 b sr ch in
    let '(a, sr', ch') := decoded in Ok (I16 a, sr', ch').
Proof.
  unfold bytes_to_numpy, bytes_to_numpy_int16. cbn.
  destruct (frombuffer 2 b); reflexivity.
Qed.

Lemma convert_to_mono_int16_eq (a : shaped Z) :
  convert_to_mono (I16 a) = I16 (Arr1 (convert_to_mono_int16 a)).
Proof. destruct a; reflexivity. Qed.

Lemma numpy_to_bytes_float64_eq (a : shaped F) :
  numpy_to_bytes (F64 a) "int16" = numpy_to_bytes_from_float64 a.
Proof. reflexivity. Qed.

Lemma numpy_to_bytes_int16_eq (a : shaped Z) :
  numpy_to_bytes (F:=F) (I16 a) "int16" = numpy_to_bytes_from_int16 a.
Proof. reflexivity. Qed.

Lemma apply_noise_reduction_steps {FE : FloatExp F}
    (self : NoiseReductionProcessor.t F) (audio_array : list Z) :
  NoiseReductionProcessor._apply_noise_reduction self audio_array
  = NoiseReductionProcessor._apply_smoothing self (masked_audio self audio_array).
Proof. reflexivity. Qed.

End TypedViews.

Section CodecClaims.
Context {F : Type} {FA : FloatArith F} {FS : Float32 F}.

(** C2. For every byte buffer whose length is an exact multiple of
    [channel_count] times the sample width, decoding and then encoding with
    the same sample width and channel count gives the buffer back:
    [encode(decode(b)) == b]. *)
Theorem decode_encode_roundtrip (b : bytes) (sr ch : Z) (dtype : string) (w : nat) :
  Spec.sample_width dtype = Some w ->
  (length b mod (Z.to_nat ch * w) = 0)%nat ->
  exists a : ndarray F,
    bytes_to_numpy b sr ch dtype = Ok (a, sr, ch)
    /\ numpy_to_bytes a dtype = Ok b.
Proof.
  intros Hw Hmod.
  assert (Hsample : (length b mod w = 0)%nat
                    /\ Spec.whole_frames (frame_width ch * w) b = b).
  { destruct (Z_le_gt_dec ch 0) as [Hle|Hgt].
    - replace (Z.to_nat ch) with 0%nat in Hmod by lia.
      rewrite Nat.mul_0_l, Nat.mod_0_r in Hmod.
      destruct b; [|discriminate]. split; [apply Nat.Div0.mod_0_l|].
      unfold Spec.whole_frames. apply firstn_nil.
    - assert (Hfw : frame_width ch = Z.to_nat ch) by (unfold frame_width; lia).
      rewrite Hfw. pose proof Hmod as Hdiv.
      apply Nat.Div0.div_exact in Hdiv. split.
      + apply Nat.Div0.mod_divides.
        exists (Z.to_nat ch * (length b / (Z.to_nat ch * w)))%nat. lia.
      + unfold Spec.whole_frames. rewrite <- Hdiv. apply firstn_all. }
  destruct Hsample as [Hs Hwhole].
  destruct (codec_whole_frames (F:=F) b sr ch dtype w Hw Hs) as (a & Hdec & _ & Henc).
  exists a. split; [exact Hdec|]. rewrite Henc, Hwhole. reflexivity.
Qed.

(** C7, as amended. Decoding a buffer whose length is a whole number of
    samples succeeds and keeps exactly its whole frames: the trailing
    samples of an incomplete frame are dropped, nothing is padded or
    rounded up. A buffer whose length is not a multiple of the sample
    width is not truncated: decoding raises [InvalidAudioFormatError]. *)
Theorem decode_keeps_whole_frames (b : bytes) (sr ch : Z) (dtype : string) (w : nat) :
  Spec.sample_width dtype = Some w ->
  1 <= ch ->
  ((length b mod w = 0)%nat ->
   exists a : ndarray F,
     bytes_to_numpy b sr ch dtype = Ok (a, sr, ch)
     /\ nd_len a = (length b / (Z.to_nat ch * w))%nat
     /\ numpy_to_bytes a dtype = Ok (Spec.whole_frames (Z.to_nat ch * w) b))
  /\ ((length b mod w <> 0)%nat ->
      exists e, bytes_to_numpy (F:=F) b sr ch dtype = Raise e
                /\ exc_cls e = InvalidAudioFormatError).
Proof.
  intros Hw Hch. split.
  - intros Hs.
    assert (Hfw : frame_width ch = Z.to_nat ch) by (unfold frame_width; lia).
    rewrite <- Hfw. apply codec_whole_frames; assumption.
  - intros Hs. eapply codec_rejects_partial_sample; eassumption.
Qed.

End CodecClaims.

Import Byte.

Lemma decode_encode_roundtrip_witness :
  exists a : ndarray spec_float,
    bytes_to_numpy [x01; x00; xff; xff; x00; x01; x00; x80] 16000 2 "int16"
      = Ok (a, 16000, 2)
    /\ numpy_to_bytes a "int16" = Ok [x01; x00; xff; xff; x00; x01; x00; x80].
Proof.
  apply (decode_encode_roundtrip _ 16000 2 "int16" 2); reflexivity.
Defined.

(** C7 as stated fails: three bytes of mono 16-bit audio violate the frame
    invariant, and decoding them raises instead of truncating. *)
Lemma decode_partial_sample_counterexample :
  (length [x01; x02; x03] mod (1 * 2) <> 0)%nat
  /\ bytes_to_numpy (F:=spec_float) [x01; x02; x03] 16000 1 "int16"
     = Raise (mk_exc InvalidAudioFormatError
                "音訊格式轉換失敗: buffer size must be a multiple of element size").
Proof. split; [discriminate | reflexivity]. Qed.

Lemma decode_keeps_whole_frames_witness :
  exists a : ndarray spec_float,
    bytes_to_numpy [x01; x00; x02; x00; x03; x00; x04; x00; x05; x00] 16000 2 "int16"
      = Ok (a, 16000, 2)
    /\ nd_len a = 2%nat
    /\ numpy_to_bytes a "int16" = Ok [x01; x00; x02; x00; x03; x00; x04; x00].
Proof.
  exact (proj1 (decode_keeps_whole_frames
                  [x01; x00; x02; x00; x03; x00; x04; x00; x05; x00]
                  16000 2 "int16" 2 eq_refl ltac:(lia)) eq_refl).
Defined.

(** ** The pipeline *)

Section Pipeline.
Implicit Types (stage : AudioPreprocessor.t) (kw : kwargs) (b : bytes).

Lemma compose_raise (stages : list AudioPreprocessor.t) kw (e : exc) :
  fold_left (Spec.then_stage kw) stages (Raise e) = Raise e.
Proof. induction stages as [|stage stages IH]; [reflexivity | exact IH]. Qed.

Lemma run_compose (stages : list AudioPreprocessor.t) kw b :
  AudioPipeline.run stages kw b = Spec.compose stages kw b.
Proof.
  unfold Spec.compose. revert b.
  induction stages as [|stage stages IH]; intros b; [reflexivity|].
  cbn [AudioPipeline.run fold_left]. unfold Spec.then_stage at 2. cbn [bind].
  destruct (AudioPreprocessor.process stage b kw) as [b'|e]; cbn [bind].
  - apply IH.
  - symmetry. apply compose_raise.
Qed.

Lemma run_app (front back : list AudioPreprocessor.t) kw b :
  AudioPipeline.run (front ++ back) kw b
  = let* r := AudioPipeline.run front kw b in AudioPipeline.run back kw r.
Proof.
  revert b. induction front as [|stage front IH]; intros b; [reflexivity|].
  cbn [app AudioPipeline.run].
  destruct (AudioPreprocessor.process stage b kw) as [b'|e]; cbn [bind];
    [apply IH | reflexivity].
Qed.

(** C6. A pipeline built from [[s1, s2]] computes
    [s2.process(s1.process(b, hints), hints)], both stages being given the
    caller's hints; a pipeline over any stage list is the left-to-right
    composition of its stages. The equations are exact: on success the
    bytes are those of the composition, and a stage that raises makes the
    pipeline raise that exception wrapped by [pipeline_failed]. *)
Theorem pipeline_is_composition (s1 s2 : AudioPreprocessor.t)
    (stages : list AudioPreprocessor.t) kw b :
  AudioPipeline.process (AudioPipeline.__init__ [s1; s2]) b kw
  = try_except
      (let* r := AudioPreprocessor.process s1 b kw in
       AudioPreprocessor.process s2 r kw)
      AudioPipeline.pipeline_failed
  /\ AudioPipeline.process (AudioPipeline.__init__ stages) b kw
     = try_except (Spec.compose stages kw b) AudioPipeline.pipeline_failed
  /\ AudioPipeline.process (AudioPipeline.__init__ (stages ++ [s2])) b kw
     = try_except
         (let* r := AudioPipeline.run stages kw b in
          AudioPreprocessor.process s2 r kw)
         AudioPipeline.pipeline_failed.
Proof.
  unfold AudioPipeline.process, AudioPipeline.__init__. cbn [AudioPipeline.processors].
  split; [|split].
  - cbn [AudioPipeline.run].
    destruct (AudioPreprocessor.process s1 b kw) as [r|e]; cbn [bind]; [|reflexivity].
    destruct (AudioPreprocessor.process s2 r kw); reflexivity.
  - rewrite run_compose. reflexivity.
  - rewrite run_app. cbn [AudioPipeline.run].
    destruct (AudioPipeline.run stages kw b) as [r|e]; cbn [bind]; [|reflexivity].
    destruct (AudioPreprocessor.process s2 r kw); reflexivity.
Qed.

(** C9. A pipeline with no stage returns its input unchanged, whatever the
    hints; and [create_pipeline] on an empty name list returns such a
    pipeline without a single lookup in the registry, whatever it holds. *)
Theorem empty_pipeline_identity (self : AudioPipelineManager.t) kw b :
  AudioPipeline.process (AudioPipeline.__init__ []) b kw = Ok b
  /\ exists pipeline,
       AudioPipelineManager.create_pipeline self [] = ([], Ok pipeline)
       /\ AudioPipeline.processors pipeline = []
       /\ AudioPipeline.process pipeline b kw = Ok b.
Proof.
  split; [reflexivity|].
  exists (AudioPipeline.__init__ []). repeat split; reflexivity.
Qed.

End Pipeline.

(** ** Noise reduction: construction and the disabled stage *)

Section NoiseReductionConstruction.
Context {F : Type} {FA : FloatArith F}.

Import NoiseReductionProcessor.

(** What a successful construction has read and checked. *)
Lemma init_ok_inv (cfg : gmap string (Py.value F)) (self : t F) :
  __init__ cfg = Ok self ->
  enabled self = Py.get cfg "enabled" (Py.PBool true)
  /\ Py.float (Py.get cfg "strength" (Py.PFloat (Py.lit 1 2))) = Ok (strength self)
  /\ Py.int (Py.get cfg "sample_rate" (Py.PInt 16000)) = Ok (sample_rate self)
  /\ Py.in_unit_interval (strength self) = true
  /\ 0 < sample_rate self.
Proof.
  unfold __init__, _initialize.
  destruct (Py.float _) as [s|]; cbn [bind]; [|discriminate].
  destruct (Py.int (Py.get cfg "sample_rate" _)) as [sr|]; cbn [bind]; [|discriminate].
  destruct (Py.int (Py.get cfg "frame_length" _)) as [fl|]; cbn [bind]; [|discriminate].
  destruct (Py.int (Py.get cfg "hop_length" _)) as [hl|]; cbn [bind]; [|discriminate].
  cbn [strength sample_rate].
  destruct (Py.in_unit_interval s) eqn:Hs; cbn [negb bind]; [|discriminate].
  destruct (sr <=? 0) eqn:Hsr; cbn [bind]; [discriminate|].
  intros [= <-]. cbn. apply Z.leb_gt in Hsr. repeat split; auto.
Qed.

Context {FE : FloatExp F}.

(** C3. A stage constructed with [enabled = False] returns the input buffer
    unchanged, for every buffer and every combination of the two optional
    format hints. *)
Theorem disabled_noise_reduction_is_identity
    (cfg : gmap string (Py.value F)) (self : t F)
    (b : bytes) (original_sample_rate original_channels : option Z) :
  cfg !! "enabled" = Some (Py.PBool false) ->
  __init__ cfg = Ok self ->
  process self b original_sample_rate original_channels = Ok b.
Proof.
  intros Hcfg Hinit. apply init_ok_inv in Hinit as (Hen & _).
  unfold Py.get in Hen. rewrite Hcfg in Hen.
  unfold process. rewrite Hen. reflexivity.
Qed.

End NoiseReductionConstruction.

(** ** Arithmetic facts of the exact-real instance *)

Section ExtRealFacts.
Local Open Scope R_scope.
Local Abbreviation EFin := ExtReal.EFin.
Local Abbreviation ENaN := ExtReal.ENaN.

Lemma er_div_fin (x y : R) : y <> 0 -> f_div (EFin x) (EFin y) = EFin (x / y).
Proof. intros Hy. cbn. destruct (Req_dec_T y 0); [contradiction | reflexivity]. Qed.

Lemma er_div_zero_zero : f_div (EFin 0) (EFin 0) = ENaN.
Proof. cbn. destruct (Req_dec_T 0 0); [|contradiction]. reflexivity. Qed.

Lemma er_lit (p q : Z) : IZR q <> 0 -> Py.lit p q = EFin (IZR p / IZR q).
Proof. intros Hq. unfold Py.lit. apply er_div_fin. exact Hq. Qed.

Lemma er_leb_true (x y : R) : x <= y -> f_leb (EFin x) (EFin y) = true.
Proof. intros H. cbn. destruct (Rle_dec x y); [reflexivity | contradiction]. Qed.

Lemma er_leb_false (x y : R) : y < x -> f_leb (EFin x) (EFin y) = false.
Proof. intros H. cbn. destruct (Rle_dec x y); [lra | reflexivity]. Qed.

Lemma er_isnan_fin (x : R) : f_isnan (EFin x) = false.
Proof.
  unfold f_isnan. cbn. destruct (Req_dec_T x x); [reflexivity | contradiction].
Qed.

Lemma er_maximum_fin (x y : R) : maximum (EFin x) (EFin y) = EFin (Rmax x y).
Proof.
  unfold maximum. rewrite er_isnan_fin, orb_false_r.
  destruct (Rle_dec y x) as [H|H].
  - rewrite er_leb_true by exact H. rewrite Rmax_left by exact H. reflexivity.
  - rewrite er_leb_false by lra. rewrite Rmax_right by lra. reflexivity.
Qed.

Lemma er_minimum_fin (x y : R) : minimum (EFin x) (EFin y) = EFin (Rmin x y).
Proof.
  unfold minimum. rewrite er_isnan_fin, orb_false_r.
  destruct (Rle_dec x y) as [H|H].
  - rewrite er_leb_true by exact H. rewrite Rmin_left by exact H. reflexivity.
  - rewrite er_leb_false by lra. rewrite Rmin_right by lra. reflexivity.
Qed.

Lemma er_clip_fin (lo hi x : R) :
  clip (EFin lo) (EFin hi) (EFin x) = EFin (Rmin (Rmax x lo) hi).
Proof. unfold clip. rewrite er_maximum_fin, er_minimum_fin. reflexivity. Qed.

Lemma exp_monotone (x y : R) : x <= y -> exp x <= exp y.
Proof.
  intros [Hlt | ->]; [left; apply exp_increasing; exact Hlt | right; reflexivity].
Qed.

Lemma exp_5_lower : 9 < exp 5.
Proof.
  replace 5 with (5 / 2 + 5 / 2) by lra. rewrite exp_plus.
  assert (H : 7 / 2 < exp (5 / 2)) by (pose proof (exp_ineq1 (5 / 2)); lra).
  nra.
Qed.

Lemma sigmoid_range (x : R) : 0 < Spec.sigmoid x < 1.
Proof.
  unfold Spec.sigmoid. pose proof (exp_pos (- x)) as Hpos.
  split.
  - apply Rdiv_lt_0_compat; lra.
  - apply Rmult_lt_reg_r with (r := 1 + exp (- x)); [lra|].
    unfold Rdiv. rewrite Rmult_assoc, Rinv_l by lra. lra.
Qed.

Lemma sigmoid_monotone (x y : R) : x <= y -> Spec.sigmoid x <= Spec.sigmoid y.
Proof.
  intros Hxy. unfold Spec.sigmoid.
  pose proof (exp_pos (- x)) as Hx. pose proof (exp_pos (- y)) as Hy.
  assert (Hexp : exp (- y) <= exp (- x)) by (apply exp_monotone; lra).
  unfold Rdiv. rewrite !Rmult_1_l.
  apply Rinv_le_contravar; lra.
Qed.

(** Below [-5] the sigmoid is under the floor of the clamp. *)
Lemma sigmoid_below_floor (x : R) : x <= -5 -> Spec.sigmoid x < 1 / 10.
Proof.
  intros Hx.
  apply Rle_lt_trans with (r2 := Spec.sigmoid (-5)); [apply sigmoid_monotone; exact Hx|].
  unfold Spec.sigmoid. replace (- -5) with 5 by lra.
  pose proof exp_5_lower as H5.
  apply Rmult_lt_reg_r with (r := 1 + exp 5); [lra|].
  unfold Rdiv. rewrite Rmult_assoc, Rinv_l by lra. lra.
Qed.

(** On finite arguments the code computes the specification's formula,
    unless the denominator [threshold + 1e-8] vanishes. *)
Lemma create_soft_mask_fin (threshold : R) (energies : list R) :
  threshold + 1 / 100000000 <> 0 ->
  NoiseReductionProcessor._create_soft_mask (map EFin energies) (EFin threshold)
  = map (fun e => EFin (Spec.soft_mask threshold e)) energies.
Proof.
  intros Hd. unfold NoiseReductionProcessor._create_soft_mask.
  rewrite !map_map. apply map_ext. intros e.
  rewrite !er_lit by lra.
  change (f_add (EFin threshold) (EFin (1 / 100000000)))
    with (EFin (threshold + 1 / 100000000)).
  rewrite er_div_fin by exact Hd.
  change (f_of_Z 1) with (EFin 1). change (f_of_Z (-5)) with (EFin (-5)).
  cbn [f_sub f_mul f_exp f_add ExtReal.arith ExtReal.expo ExtReal.sub
       ExtReal.neg ExtReal.add ExtReal.mul ExtReal.exp].
  pose proof (exp_pos (-5 * (e / (threshold + 1 / 100000000) + - (1)))) as Hpos.
  rewrite er_div_fin by lra.
  rewrite er_clip_fin. unfold Spec.soft_mask, Spec.sigmoid.
  do 4 f_equal. f_equal. f_equal. lra.
Qed.

End ExtRealFacts.

(** ** The soft mask *)

Section SoftMask.
Local Open Scope R_scope.
Local Abbreviation EFin := ExtReal.EFin.
Local Abbreviation ENaN := ExtReal.ENaN.

Lemma soft_mask_range (threshold energy : R) :
  1 / 10 <= Spec.soft_mask threshold energy <= 1.
Proof.
  unfold Spec.soft_mask. split.
  - apply Rmin_glb; [apply Rmax_r | lra].
  - apply Rmin_r.
Qed.

Lemma soft_mask_monotone (threshold e1 e2 : R) :
  threshold + 1 / 100000000 <> 0 -> 0 <= e1 -> e1 <= e2 ->
  Spec.soft_mask threshold e1 <= Spec.soft_mask threshold e2.
Proof.
  intros Hd H1 H12. unfold Spec.soft_mask.
  set (d := threshold + 1 / 100000000) in *.
  destruct (Rlt_dec 0 d) as [Hpos | Hneg].
  - apply Rle_min_compat_r, Rle_max_compat_r, sigmoid_monotone.
    assert (Hq : e1 / d <= e2 / d).
    { unfold Rdiv. apply Rmult_le_compat_r; [|exact H12].
      left. apply Rinv_0_lt_compat. exact Hpos. }
    lra.
  - assert (Hd' : d < 0) by lra.
    assert (Hfloor : forall e, 0 <= e ->
              Rmax (Spec.sigmoid (5 * (e / d - 1))) (1 / 10) = 1 / 10).
    { intros e He. apply Rmax_right. left. apply sigmoid_below_floor.
      assert (Hq : e / d <= 0).
      { unfold Rdiv. assert (Hi : / d < 0) by (apply Rinv_lt_0_compat; exact Hd').
        nra. }
      lra. }
    rewrite !Hfloor by lra. right. reflexivity.
Qed.

(** In exact arithmetic (finite reals, no rounding), whenever the guarded
    denominator [threshold + 1e-8] is not zero and [0 <= e1 <= e2], the
    code computes the clamped sigmoid of the specification: both masks lie
    in [[0.1, 1.0]] and the mask of the larger energy is the larger. *)
Theorem soft_mask_bounded_monotone (threshold e1 e2 : R) :
  threshold + 1 / 100000000 <> 0 -> 0 <= e1 -> e1 <= e2 ->
  exists m1 m2 : R,
    NoiseReductionProcessor._create_soft_mask [EFin e1; EFin e2] (EFin threshold)
      = [EFin m1; EFin m2]
    /\ m1 = Spec.soft_mask threshold e1
    /\ m2 = Spec.soft_mask threshold e2
    /\ 1 / 10 <= m1 /\ m1 <= m2 /\ m2 <= 1.
Proof.
  intros Hd H1 H12.
  exists (Spec.soft_mask threshold e1), (Spec.soft_mask threshold e2).
  split; [exact (create_soft_mask_fin threshold [e1; e2] Hd)|].
  repeat split.
  - apply soft_mask_range.
  - apply soft_mask_monotone; assumption.
  - apply soft_mask_range.
Qed.

Lemma soft_mask_bounded_monotone_witness :
  exists m1 m2 : R,
    NoiseReductionProcessor._create_soft_mask [EFin (1 / 10); EFin 2] (EFin (4 / 5))
      = [EFin m1; EFin m2]
    /\ m1 = Spec.soft_mask (4 / 5) (1 / 10)
    /\ m2 = Spec.soft_mask (4 / 5) 2
    /\ 1 / 10 <= m1 /\ m1 <= m2 /\ m2 <= 1.
Proof. apply soft_mask_bounded_monotone; lra. Defined.

(** The same instance at [threshold = -1e-8]: the guard [threshold + 1e-8]
    is zero, a zero energy gives the ratio [0/0], and the clamp leaves the
    NaN in place. NaN lies in no interval. *)
Lemma soft_mask_nan_counterexample :
  NoiseReductionProcessor._create_soft_mask
    [EFin 0] (ExtReal.neg (Py.lit 1 100000000)) = [ENaN]
  /\ f_leb (Py.lit 1 10) ENaN = false
  /\ f_leb ENaN (f_of_Z 1) = false.
Proof.
  split; [|split; rewrite ?er_lit by lra; reflexivity].
  unfold NoiseReductionProcessor._create_soft_mask.
  rewrite !er_lit by lra. cbn [map ExtReal.neg].
  change (f_add (EFin (- (1 / 100000000))) (EFin (1 / 100000000)))
    with (EFin (- (1 / 100000000) + 1 / 100000000)).
  replace (- (1 / 100000000) + 1 / 100000000) with 0 by lra.
  rewrite er_div_zero_zero. reflexivity.
Qed.

End SoftMask.

(** ** The soft mask in double precision *)

Section SoftMaskBinary64.

(** C4: the code at [energy = [0.0]], [threshold = -1e-8], in IEEE binary64
    and for every [libm]. The denominator [threshold + 1e-8], written to
    avoid a division by zero, is zero; the ratio is [0.0 / 0.0 = nan]; the
    mask is the clamp of [1 / (1 + exp(nan))], which is [nan] as [np.exp]
    propagates NaN; and [nan] is neither at least [0.1] nor at most [1.0]. *)
Theorem soft_mask_guard_defeated (libm_exp : spec_float -> spec_float) :
  let eps : spec_float := Py.lit 1 100000000 in
  let threshold := SFopp eps in
  f_add threshold eps = S754_zero false
  /\ f_div (f_of_Z 0) (f_add threshold eps) = S754_nan
  /\ NoiseReductionProcessor._create_soft_mask (FE := Binary64.with_exp libm_exp)
       [f_of_Z 0] threshold
     = [clip (Py.lit 1 10) (f_of_Z 1)
          (f_div (f_of_Z 1) (f_add (f_of_Z 1) (libm_exp S754_nan)))]
  /\ NoiseReductionProcessor._create_soft_mask (FE := Binary64.ieee_exp libm_exp)
       [f_of_Z 0] threshold
     = [S754_nan]
  /\ f_leb (Py.lit 1 10 : spec_float) S754_nan = false
  /\ f_leb S754_nan (f_of_Z 1 : spec_float) = false.
Proof.
  intros eps threshold.
  assert (Hden : f_add threshold eps = S754_zero false) by (vm_compute; reflexivity).
  assert (Hratio : f_div (f_of_Z 0) (f_add threshold eps) = S754_nan)
    by (rewrite Hden; reflexivity).
  split; [exact Hden|]. split; [exact Hratio|].
  unfold NoiseReductionProcessor._create_soft_mask. cbn [map].
  fold eps. rewrite Hratio.
  repeat split.
Qed.

End SoftMaskBinary64.

(** ** Noise reduction: the enabled stage *)

Section Smoothing.
Context {F : Type} {FA : FloatArith F}.
Import NoiseReductionProcessor.

Lemma windows_length (n w : nat) (a : list F) : length (windows n w a) = n.
Proof.
  revert a. induction n as [|n IH]; intros a; [reflexivity|].
  cbn [windows length]. rewrite IH. reflexivity.
Qed.

Lemma pad_edge_nonempty (k : nat) (xs : list F) :
  (0 < length xs)%nat ->
  exists ys, pad_edge k xs = Ok ys /\ length ys = (length xs + 2 * k)%nat.
Proof.
  intros Hn. destruct xs as [|x xs]; [simpl in Hn; lia|].
  eexists. split; [reflexivity|].
  rewrite !length_app, !repeat_length. lia.
Qed.

Lemma convolve_valid_length (a v : list F) :
  (0 < length v)%nat -> (length v <= length a)%nat ->
  exists ys, convolve_valid a v = Ok ys
             /\ length ys = (length a - length v + 1)%nat.
Proof.
  intros Hv Hle. unfold convolve_valid.
  assert (Hlt : (length a <? length v)%nat = false) by (apply Nat.ltb_ge; exact Hle).
  rewrite Hlt.
  destruct a as [|x a]; [simpl in *; lia|].
  destruct v as [|y v]; [simpl in *; lia|].
  eexists. split; [reflexivity|].
  rewrite length_map, windows_length. reflexivity.
Qed.

Lemma window_size_ge_3 (self : t F) (w : Z) : window_size self = Ok w -> 3 <= w.
Proof.
  unfold window_size.
  destruct (py_float_of_int _) as [rate|]; cbn [bind]; [|discriminate].
  destruct (py_int_of_float _) as [w'|]; cbn [bind]; [|discriminate].
  intros [= <-]. lia.
Qed.

(** Smoothing never fails once the window size is known; it keeps the
    length, and it is skipped for a signal no longer than the window. *)
Lemma apply_smoothing_length (self : t F) (w : Z) (xs : list F) :
  window_size self = Ok w ->
  exists ys, _apply_smoothing self xs = Ok ys
             /\ length ys = length xs
             /\ (Z.of_nat (length xs) <= w -> ys = xs).
Proof.
  intros Hw. pose proof (window_size_ge_3 self w Hw) as H3.
  unfold _apply_smoothing. rewrite Hw. cbn [bind].
  destruct (Z.of_nat (length xs) <=? w) eqn:Hn.
  - exists xs. auto.
  - apply Z.leb_gt in Hn.
    destruct (pad_edge_nonempty (Z.to_nat (w / 2)) xs ltac:(lia)) as (padded & Hpad & Hplen).
    rewrite Hpad. cbn [bind].
    pose proof (Z.div_mod w 2 ltac:(lia)) as Hdm.
    pose proof (Z.mod_pos_bound w 2 ltac:(lia)) as Hmb.
    destruct (convolve_valid_length padded
                (repeat (f_div (f_of_Z 1) (f_of_Z w)) (Z.to_nat w)))
      as (smoothed & Hconv & Hslen).
    + rewrite repeat_length. lia.
    + rewrite repeat_length, Hplen. lia.
    + rewrite Hconv. cbn [bind]. eexists. split; [reflexivity|]. split.
      * rewrite length_firstn, Hslen, repeat_length, Hplen. lia.
      * intros Habs. lia.
Qed.

Lemma tobytes_int16_length (zs : list Z) :
  length (tobytes_int16 (Arr1 zs)) = (2 * length zs)%nat.
Proof.
  unfold tobytes_int16. cbn [ravel].
  induction zs as [|z zs IH]; [reflexivity|].
  cbn [map concat]. rewrite length_app, IH. cbn [le_encode length]. lia.
Qed.

Lemma bytes_to_numpy_int16_ok (b : bytes) (sr ch : Z) :
  (length b mod 2 = 0)%nat ->
  bytes_to_numpy_int16 b sr ch = Ok (to_frames ch (Spec.int16_samples b), sr, ch).
Proof.
  intros Hmod. unfold bytes_to_numpy_int16, frombuffer. rewrite Hmod. reflexivity.
Qed.

Lemma int16_samples_length (b : bytes) :
  (length b mod 2 = 0)%nat -> length (Spec.int16_samples b) = (length b / 2)%nat.
Proof.
  intros Hmod. unfold Spec.int16_samples. rewrite !length_map.
  apply Nat.Div0.div_exact in Hmod.
  apply (chunks_sizes 2 (length b / 2) b); lia.
Qed.

Context {FE : FloatExp F}.

Lemma masked_audio_length (self : t F) (xs : list Z) :
  length (masked_audio self xs) = length xs.
Proof.
  unfold masked_audio, _create_soft_mask.
  rewrite length_map, length_combine, !length_map. lia.
Qed.

(** An enabled stage whose window size is defined fails only when the
    buffer cannot be decoded. *)
Lemma process_ok_iff_decodes (self : t F) (w : Z) (b : bytes) (osr och : option Z) :
  Py.truthy (enabled self) = true ->
  window_size self = Ok w ->
  is_ok (process self b osr och)
  = is_ok (bytes_to_numpy_int16 b (Py.hint_or osr (sample_rate self))
                                (Py.hint_or och 1)).
Proof.
  intros Hen Hw. unfold process. rewrite Hen. cbn [negb].
  destruct (bytes_to_numpy_int16 _ _ _) as [[[a sr'] ch']|e]; cbn [bind try_except is_ok];
    [|reflexivity].
  rewrite apply_noise_reduction_steps.
  destruct (apply_smoothing_length self w
              (masked_audio self
                 (if (1 <? ndim a)%nat then convert_to_mono_int16 a else ravel a)) Hw)
    as (ys & Hys & _).
  rewrite Hys. reflexivity.
Qed.

(** C10, as amended. For a mono 16-bit buffer of even byte length, an
    enabled stage whose window size [max(3, int(sample_rate * 0.001))] is
    defined (the sample rate fits a double) returns a buffer of the same
    byte length; when the signal has no more samples than the window,
    smoothing is skipped and the output is the encoded masked signal. *)
Theorem noise_reduction_preserves_length
    (self : t F) (w : Z) (b : bytes) (osr och : option Z) :
  Py.truthy (enabled self) = true ->
  window_size self = Ok w ->
  (length b mod 2 = 0)%nat ->
  Py.hint_or och 1 <= 1 ->
  exists out,
    process self b osr och = Ok out
    /\ length out = length b
    /\ (Z.of_nat (length b / 2) <= w ->
        _apply_smoothing self (masked_audio self (Spec.int16_samples b))
          = Ok (masked_audio self (Spec.int16_samples b))
        /\ out = tobytes_int16
                   (Arr1 (map f64_to_int16 (masked_audio self (Spec.int16_samples b))))).
Proof.
  intros Hen Hw Hmod Hch.
  destruct (apply_smoothing_length self w
              (masked_audio self (Spec.int16_samples b)) Hw) as (ys & Hys & Hlen & Hskip).
  exists (tobytes_int16 (Arr1 (map f64_to_int16 ys))).
  assert (Hmono : (1 <? Py.hint_or och 1) = false) by (apply Z.ltb_ge; exact Hch).
  split; [|split].
  - unfold process. rewrite Hen. cbn [negb].
    rewrite bytes_to_numpy_int16_ok by exact Hmod. cbn [bind try_except].
    unfold to_frames. rewrite Hmono. cbn [ndim ravel Nat.ltb Nat.leb andb].
    rewrite apply_noise_reduction_steps, Hys. reflexivity.
  - rewrite tobytes_int16_length, length_map, Hlen, masked_audio_length.
    rewrite int16_samples_length by exact Hmod.
    apply Nat.Div0.div_exact in Hmod. lia.
  - intros Hshort.
    rewrite masked_audio_length, int16_samples_length in Hskip by exact Hmod.
    rewrite (Hskip Hshort) in *. split; [exact Hys | reflexivity].
Qed.

(** C8, as amended. A strength outside [[0.0, 1.0]] or a non-positive
    sample rate makes construction fail, with an [AudioProcessingError]
    (which is not a [ConfigurationError]); a stage that was constructed
    holds checked values, and [process] does not check them again: when
    enabled, with a window size that is defined, it fails exactly when the
    buffer cannot be decoded. *)
Theorem noise_reduction_validates_at_construction
    (cfg : gmap string (Py.value F)) (self : t F)
    (b : bytes) (osr och : option Z) (w : Z) :
  (forall (s : F) (sr fl hl : Z),
     Py.float (Py.get cfg "strength" (Py.PFloat (Py.lit 1 2))) = Ok s ->
     Py.int (Py.get cfg "sample_rate" (Py.PInt 16000)) = Ok sr ->
     Py.int (Py.get cfg "frame_length" (Py.PInt 2048)) = Ok fl ->
     Py.int (Py.get cfg "hop_length" (Py.PInt 512)) = Ok hl ->
     Py.in_unit_interval s = false \/ sr <= 0 ->
     exists e, __init__ cfg = Raise e
               /\ exc_cls e = AudioProcessingError
               /\ isinstance e ConfigurationError = false)
  /\ (__init__ cfg = Ok self ->
      Py.in_unit_interval (strength self) = true
      /\ 0 < sample_rate self
      /\ (Py.truthy (enabled self) = true ->
          window_size self = Ok w ->
          is_ok (process self b osr och)
          = is_ok (bytes_to_numpy_int16 b (Py.hint_or osr (sample_rate self))
                                        (Py.hint_or och 1)))).
Proof.
  split.
  - intros s sr fl hl Hs Hsr Hfl Hhl Hbad.
    unfold __init__. rewrite Hs, Hsr, Hfl, Hhl. cbn [bind].
    unfold _initialize. cbn [strength sample_rate].
    destruct (Py.in_unit_interval s) eqn:Hunit; cbn [negb].
    + destruct Hbad as [Hbad|Hbad]; [discriminate|].
      apply Z.leb_le in Hbad. rewrite Hbad. cbn [bind]. eauto.
    + cbn [bind]. eauto.
  - intros Hinit. apply init_ok_inv in Hinit as (_ & _ & _ & Hunit & Hpos).
    repeat split; [exact Hunit | exact Hpos |].
    intros Hen Hw. apply process_ok_iff_decodes with (w := w); assumption.
Qed.

End Smoothing.

(** ** Volume normalization of a silent buffer *)

Section ZeroSignal.

Lemma tobytes_int16_frames (b : bytes) (ch : Z) :
  (length b mod 2 = 0)%nat ->
  tobytes_int16 (to_frames ch (Spec.int16_samples b))
  = Spec.whole_frames (frame_width ch * 2) b.
Proof.
  intros Hmod. unfold tobytes_int16, Spec.int16_samples.
  rewrite to_frames_ravel.
  rewrite (encode_decoded_prefix 2 _ int16_of_word
             (fun z => le_encode 2 (word_of_int16 z)) b ltac:(lia) Hmod
             int16_group_roundtrip).
  fold (Spec.int16_samples b). rewrite int16_samples_length by exact Hmod.
  unfold Spec.whole_frames. f_equal.
  rewrite Nat.Div0.div_div, (Nat.mul_comm 2 (frame_width ch)). lia.
Qed.

Lemma chunks_fuel_Forall {A} (P : A -> Prop) (fuel k : nat) (l : list A) :
  Forall P l -> Forall (Forall P) (chunks_fuel fuel k l).
Proof.
  revert l. induction fuel as [|fuel IH]; intros l Hl; [constructor|].
  destruct l as [|x l]; [constructor|].
  cbn [chunks_fuel]. constructor.
  - apply Forall_take. exact Hl.
  - apply IH. apply Forall_drop. exact Hl.
Qed.

Lemma le_decode_zero (c : bytes) : Spec.all_zero c -> le_decode c = 0.
Proof.
  induction 1 as [|x c Hx _ IH]; [reflexivity|].
  cbn [le_decode]. rewrite Hx, IH. reflexivity.
Qed.

Lemma int16_samples_zero (b : bytes) :
  Spec.all_zero b -> Forall (fun z => z = 0) (Spec.int16_samples b).
Proof.
  intros Hb. unfold Spec.int16_samples. rewrite map_map.
  apply List.Forall_map.
  pose proof (chunks_fuel_Forall _ (length b) 2 b Hb) as Hc.
  fold (chunks 2 b) in Hc.
  induction Hc as [|c cs Hz _ IH]; constructor; [|exact IH].
  rewrite (le_decode_zero c Hz). reflexivity.
Qed.

Lemma amax_abs_zero (zs : list Z) :
  (0 < length zs)%nat -> Forall (fun z => z = 0) zs ->
  amax (map abs_int16 zs) = Ok 0.
Proof.
  intros Hn Hz. destruct zs as [|z zs]; [simpl in Hn; lia|].
  inversion Hz as [|? ? Hz0 Hzs]; subst. cbn [map amax]. f_equal.
  change (abs_int16 0) with 0. clear Hn Hz.
  induction Hzs as [|y ys Hy _ IH]; [reflexivity|].
  subst y. cbn [map fold_left]. exact IH.
Qed.

Context {F : Type} {FA : FloatArith F}.
Import AudioNormalizer.

(** C5, as amended. For every all-zero buffer of even length that holds at
    least one whole frame, the volume step raises nothing and returns the
    whole frames of the buffer, all zero: the buffer itself, at its own
    length, when the length is a multiple of the frame size. *)
Theorem normalize_volume_zero_signal (self : t F) (b : bytes) :
  Spec.all_zero b ->
  (length b mod 2 = 0)%nat ->
  (frame_width (target_channels self) * 2 <= length b)%nat ->
  let frame := (frame_width (target_channels self) * 2)%nat in
  _normalize_volume self b = Ok (Spec.whole_frames frame b)
  /\ Spec.all_zero (Spec.whole_frames frame b)
  /\ length (Spec.whole_frames frame b) = (frame * (length b / frame))%nat
  /\ ((length b mod frame = 0)%nat -> Spec.whole_frames frame b = b).
Proof.
  intros Hzero Hmod Hframe frame.
  set (ch := target_channels self) in *.
  pose proof (frame_width_pos ch) as Hfw.
  assert (Hle : (frame * (length b / frame) <= length b)%nat).
  { pose proof (Nat.div_mod_eq (length b) frame). lia. }
  split; [|split; [|split]].
  - unfold _normalize_volume.
    rewrite bytes_to_numpy_int16_ok by exact Hmod. cbn [bind].
    fold ch.
    assert (Hsamples : Forall (fun z => z = 0) (ravel (to_frames ch (Spec.int16_samples b)))).
    { rewrite to_frames_ravel. apply Forall_take, int16_samples_zero, Hzero. }
    assert (Hnonempty : (0 < length (ravel (to_frames ch (Spec.int16_samples b))))%nat).
    { rewrite to_frames_ravel, length_firstn, int16_samples_length by exact Hmod.
      assert (Hs : (frame_width ch <= length b / 2)%nat).
      { apply Nat.div_le_lower_bound; lia. }
      pose proof (Nat.div_str_pos (length b / 2) (frame_width ch) ltac:(lia)) as Hq.
      pose proof (Nat.div_mod_eq (length b / 2) (frame_width ch)). nia. }
    rewrite (amax_abs_zero _ Hnonempty Hsamples). cbn [bind Z.ltb Z.compare].
    unfold numpy_to_bytes_from_int16. cbn [try_except].
    rewrite tobytes_int16_frames by exact Hmod. reflexivity.
  - unfold Spec.whole_frames. apply Forall_take. exact Hzero.
  - unfold Spec.whole_frames. rewrite length_firstn. lia.
  - intros Haligned. unfold Spec.whole_frames.
    apply Nat.Div0.div_exact in Haligned. rewrite <- Haligned. apply firstn_all.
Qed.

End ZeroSignal.

(** ** The resampler *)

Section Resample.
Context {F : Type} {FA : FloatArith F}.

Lemma removelast_snoc_length {A} (l : list A) (x : A) :
  (0 < length l)%nat -> length (removelast l ++ [x]) = length l.
Proof.
  intros Hl. rewrite length_app, removelast_firstn_len, length_firstn.
  cbn [length]. lia.
Qed.

Lemma linspace_length (start stop : F) (num : Z) :
  0 <= num ->
  exists ys, linspace start stop num = Ok ys /\ length ys = Z.to_nat num.
Proof.
  intros Hnum. unfold linspace.
  assert (Hneg : (num <? 0) = false) by (apply Z.ltb_ge; exact Hnum).
  rewrite Hneg. eexists. split; [reflexivity|].
  set (y := map (fun v => f_add v start) _).
  assert (Hy : length y = Z.to_nat num).
  { subst y. rewrite length_map.
    destruct (0 <? num - 1); [destruct (f_eqb _ _)|];
      rewrite !length_map, length_seq; reflexivity. }
  destruct (1 <? num) eqn:H1; [|exact Hy].
  apply Z.ltb_lt in H1. rewrite removelast_snoc_length by lia. exact Hy.
Qed.

Lemma interp_length (x xp fp : list F) :
  (0 < length xp)%nat -> length fp = length xp ->
  exists ys, interp x xp fp = Ok ys /\ length ys = length x.
Proof.
  intros Hxp Hfp. unfold interp.
  destruct xp as [|p xp]; [simpl in Hxp; lia|].
  rewrite Hfp, Nat.eqb_refl. eexists. split; [reflexivity|].
  apply length_map.
Qed.

Lemma mapM_length {A B} (f : A -> result B) (xs : list A) :
  (forall x, In x xs -> exists y, f x = Ok y) ->
  exists ys, mapM f xs = Ok ys /\ length ys = length xs.
Proof.
  induction xs as [|x xs IH]; intros Hall.
  - exists []. split; reflexivity.
  - destruct (Hall x (or_introl eq_refl)) as (y & Hy).
    destruct IH as (ys & Hys & Hlen); [intros x' Hin; apply Hall; right; exact Hin|].
    exists (y :: ys). cbn [mapM]. rewrite Hy, Hys. cbn [bind length].
    split; [reflexivity | lia].
Qed.

Lemma of_columns_length {A} (d : A) (n : nat) (columns : list (list A)) :
  length (of_columns d n columns) = n.
Proof. unfold of_columns. rewrite length_map, length_seq. reflexivity. Qed.

Context {FS : Float32 F}.

Lemma nd_to_f64_shape (a : ndarray F) :
  len (nd_to_f64 a) = nd_len a
  /\ ndim (nd_to_f64 a) = nd_ndim a
  /\ shaped_channels (nd_to_f64 a) = nd_channels a.
Proof.
  destruct a as [a|a|a]; destruct a as [xs|c rows]; cbn;
    rewrite ?length_map; auto.
Qed.

Lemma astype_shape (dt : dtype) (a : shaped F) :
  nd_len (astype dt a) = len a
  /\ nd_dtype (astype dt a) = dt
  /\ nd_ndim (astype dt a) = ndim a
  /\ nd_channels (astype dt a) = shaped_channels a.
Proof.
  destruct dt; destruct a as [xs|c rows]; cbn; rewrite ?length_map; auto.
Qed.

(** Equal rates return the input unchanged. Otherwise, for a non-empty
    matrix whose new length is defined and not negative, the result has
    that length, and the element type and channel layout of the input. *)
Lemma resample_length_generic (x : ndarray F) (r1 r2 n : Z) :
  (r1 = r2 -> _resample_audio x r1 r2 = Ok x)
  /\ (r1 <> r2 ->
      (0 < nd_len x)%nat ->
      new_length (nd_len x) r1 r2 = Ok n ->
      0 <= n ->
      exists y, _resample_audio x r1 r2 = Ok y
                /\ nd_len y = Z.to_nat n
                /\ nd_dtype y = nd_dtype x
                /\ nd_ndim y = nd_ndim x
                /\ nd_channels y = nd_channels x).
Proof.
  split.
  - intros ->. unfold _resample_audio. rewrite Z.eqb_refl. reflexivity.
  - intros Hne Hlen Hnew Hn. unfold _resample_audio.
    assert (Hrates : (r1 =? r2) = false) by (apply Z.eqb_neq; exact Hne).
    rewrite Hrates, Hnew. cbn [bind].
    destruct (linspace_length (f_of_Z 0) (f_of_Z (Z.of_nat (nd_len x) - 1))
                (Z.of_nat (nd_len x)) ltac:(lia)) as (old & Hold & Holdlen).
    destruct (linspace_length (f_of_Z 0) (f_of_Z (Z.of_nat (nd_len x) - 1)) n Hn)
      as (new & Hnewi & Hnewlen).
    rewrite Hold, Hnewi. cbn [bind].
    destruct (nd_to_f64_shape x) as (Hl & Hd & Hc).
    destruct (nd_to_f64 x) as [xs|c rows] eqn:Hx; cbn [len ndim shaped_channels] in *.
    + destruct (interp_length new old xs) as (ys & Hys & Hyslen); [lia | lia |].
      rewrite Hys. cbn [bind]. eexists. split; [reflexivity|].
      destruct (astype_shape (nd_dtype x) (Arr1 ys)) as (H1 & H2 & H3 & H4).
      rewrite H1, H2, H3, H4. cbn [len ndim shaped_channels]. repeat split; lia.
    + destruct (mapM_length
                  (fun channel => interp new old (column (f_of_Z 0) channel rows))
                  (seq 0 c)) as (columns & Hcols & _).
      { intros j _.
        destruct (interp_length new old (column (f_of_Z 0) j rows)) as (ys & Hys & _);
          [lia | unfold column; rewrite length_map; lia | eauto]. }
      rewrite Hcols. cbn [bind]. eexists. split; [reflexivity|].
      destruct (astype_shape (nd_dtype x)
                  (Arr2 c (of_columns (f_of_Z 0) (Z.to_nat n) columns)))
        as (H1 & H2 & H3 & H4).
      rewrite H1, H2, H3, H4. cbn [len ndim shaped_channels].
      rewrite of_columns_length. repeat split; lia.
Qed.

End Resample.

(** ** Binary64: when conversions, products and quotients are finite *)

Section Digits.

Lemma digits2_bounds (p : positive) :
  2 ^ (Zpos (digits2_pos p) - 1) <= Zpos p < 2 ^ Zpos (digits2_pos p).
Proof.
  induction p as [p IH|p IH|]; cbn [digits2_pos].
  - rewrite Pos2Z.inj_succ.
    replace (Z.succ (Zpos (digits2_pos p)) - 1) with (Z.succ (Zpos (digits2_pos p) - 1)) by lia.
    rewrite !Z.pow_succ_r by lia. lia.
  - rewrite Pos2Z.inj_succ.
    replace (Z.succ (Zpos (digits2_pos p)) - 1) with (Z.succ (Zpos (digits2_pos p) - 1)) by lia.
    rewrite !Z.pow_succ_r by lia. lia.
  - simpl. lia.
Qed.

Lemma Zdigits2_nonneg (x : Z) : 0 <= Zdigits2 x.
Proof. destruct x; simpl; lia. Qed.

Lemma Zdigits2_upper (x : Z) : 0 <= x -> x < 2 ^ Zdigits2 x.
Proof.
  intros Hx. destruct x as [|p|p]; [simpl; lia | | lia].
  apply (digits2_bounds p).
Qed.

Lemma Zdigits2_lower (x : Z) : 0 < x -> 2 ^ (Zdigits2 x - 1) <= x.
Proof.
  intros Hx. destruct x as [|p|p]; [lia | | lia].
  apply (digits2_bounds p).
Qed.

(** A number below [2^k] has at most [k] digits. *)
Lemma Zdigits2_le (x k : Z) : 0 <= x -> 0 <= k -> x < 2 ^ k -> Zdigits2 x <= k.
Proof.
  intros Hx Hk Hlt.
  destruct (Z.eq_dec x 0) as [->|Hn]; [simpl; lia|].
  pose proof (Zdigits2_lower x ltac:(lia)) as Hlow.
  pose proof (Zdigits2_nonneg x) as Hd.
  destruct (Z_lt_le_dec k (Zdigits2 x)) as [Hgt|]; [|lia].
  exfalso.
  assert (2 ^ k <= 2 ^ (Zdigits2 x - 1)) by (apply Z.pow_le_mono_r; lia).
  lia.
Qed.

Lemma Zdigits2_monotone (a b : Z) : 0 <= a <= b -> Zdigits2 a <= Zdigits2 b.
Proof.
  intros [Ha Hab]. apply Zdigits2_le; [lia | apply Zdigits2_nonneg |].
  pose proof (Zdigits2_upper b ltac:(lia)). lia.
Qed.

Lemma Zdigits2_mul (a b : Z) :
  0 <= a -> 0 <= b -> Zdigits2 (a * b) <= Zdigits2 a + Zdigits2 b.
Proof.
  intros Ha Hb.
  pose proof (Zdigits2_nonneg a). pose proof (Zdigits2_nonneg b).
  apply Zdigits2_le; [nia | lia |].
  rewrite Z.pow_add_r by lia.
  pose proof (Zdigits2_upper a Ha). pose proof (Zdigits2_upper b Hb). nia.
Qed.

Lemma Zdigits2_succ (a : Z) : 0 <= a -> Zdigits2 (a + 1) <= Zdigits2 a + 1.
Proof.
  intros Ha. pose proof (Zdigits2_nonneg a).
  apply Zdigits2_le; [lia | lia |].
  rewrite Z.pow_add_r by lia. pose proof (Zdigits2_upper a Ha). lia.
Qed.

Lemma Zdigits2_shiftl (a s : Z) :
  0 <= a -> 0 <= s -> Zdigits2 (Z.shiftl a s) <= Zdigits2 a + s.
Proof.
  intros Ha Hs. rewrite Z.shiftl_mul_pow2 by lia.
  pose proof (Zdigits2_nonneg a).
  assert (0 < 2 ^ s) by (apply Z.pow_pos_nonneg; lia).
  apply Zdigits2_le; [nia | lia |].
  rewrite Z.pow_add_r by lia. pose proof (Zdigits2_upper a Ha). nia.
Qed.

End Digits.

Section Rounding.

Lemma fexp_unfold (e : Z) : fexp 53 1024 e = Z.max (e - 53) (-1074).
Proof. reflexivity. Qed.

Lemma emin_unfold : emin 53 1024 = -1074.
Proof. reflexivity. Qed.

Lemma shr_1_spec (mrs : shr_record) :
  0 <= shr_m mrs ->
  0 <= shr_m (shr_1 mrs)
  /\ Zdigits2 (shr_m (shr_1 mrs)) = Z.max 0 (Zdigits2 (shr_m mrs) - 1).
Proof.
  destruct mrs as [m r s]. cbn [shr_m]. intros Hm.
  destruct m as [|[p|p|]|p]; cbn [shr_1 shr_m Zdigits2 digits2_pos]; try lia;
    rewrite ?Pos2Z.inj_succ; lia.
Qed.

Lemma iter_shr_1_spec (p : positive) (mrs : shr_record) :
  0 <= shr_m mrs ->
  0 <= shr_m (SpecFloat.iter_pos shr_1 p mrs)
  /\ Zdigits2 (shr_m (SpecFloat.iter_pos shr_1 p mrs))
     = Z.max 0 (Zdigits2 (shr_m mrs) - Zpos p).
Proof.
  revert mrs. induction p as [p IH|p IH|]; intros mrs Hm; cbn [SpecFloat.iter_pos].
  - destruct (shr_1_spec mrs Hm) as [H1 D1].
    destruct (IH _ H1) as [H2 D2]. destruct (IH _ H2) as [H3 D3].
    split; [exact H3|]. rewrite D3, D2, D1. lia.
  - destruct (IH _ Hm) as [H2 D2]. destruct (IH _ H2) as [H3 D3].
    split; [exact H3|]. rewrite D3, D2. lia.
  - apply shr_1_spec. exact Hm.
Qed.

Lemma shr_spec (mrs : shr_record) (e n : Z) :
  0 <= shr_m mrs ->
  0 <= shr_m (fst (shr mrs e n))
  /\ snd (shr mrs e n) = e + Z.max 0 n
  /\ Zdigits2 (shr_m (fst (shr mrs e n)))
     = Z.max 0 (Zdigits2 (shr_m mrs) - Z.max 0 n).
Proof.
  intros Hm. destruct n as [|p|p]; cbn [shr fst snd].
  - repeat split; try lia. pose proof (Zdigits2_nonneg (shr_m mrs)). lia.
  - destruct (iter_shr_1_spec p mrs Hm) as [H D]. repeat split; lia.
  - repeat split; try lia. pose proof (Zdigits2_nonneg (shr_m mrs)). lia.
Qed.

Lemma shr_m_of_loc (m : Z) (l : location) : shr_m (shr_record_of_loc m l) = m.
Proof. destruct l as [|[| |]]; reflexivity. Qed.

Lemma round_nearest_even_spec (m : Z) (l : location) :
  0 <= m ->
  0 <= round_nearest_even m l
  /\ Zdigits2 (round_nearest_even m l) <= Zdigits2 m + 1.
Proof.
  intros Hm. pose proof (Zdigits2_succ m Hm). pose proof (Zdigits2_nonneg m).
  destruct l as [|[| |]]; cbn [round_nearest_even]; try (split; lia).
  destruct (Z.even m); split; lia.
Qed.

Lemma positive_finite_weaken (elo ehi hi elo' ehi' hi' : Z) (x : spec_float) :
  Binary64.positive_finite elo ehi hi x -> elo' <= elo -> ehi <= ehi' -> hi <= hi' ->
  Binary64.positive_finite elo' ehi' hi' x.
Proof. destruct x; cbn; intuition lia. Qed.

Lemma binary_round_aux_finite (mx ex : Z) (lx : location) (hi : Z) :
  0 <= mx -> ex <= 971 ->
  Zdigits2 mx + ex <= hi -> hi < 1024 ->
  Binary64.positive_finite ex (Z.max ex (Z.max (hi - 52) (emin 53 1024)))
    (Z.max (hi + 1) (emin 53 1024 + 1))
    (binary_round_aux 53 1024 false mx ex lx).
Proof.
  intros Hmx Hex Hmag Hhi. unfold binary_round_aux, shr_fexp.
  set (n1 := fexp 53 1024 (Zdigits2 mx + ex) - ex).
  pose proof (shr_spec (shr_record_of_loc mx lx) ex n1) as S1.
  rewrite shr_m_of_loc in S1. specialize (S1 Hmx).
  destruct (shr (shr_record_of_loc mx lx) ex n1) as [mrs1 e1].
  cbn [fst snd] in S1. destruct S1 as (H1 & E1 & D1).
  pose proof (round_nearest_even_spec (shr_m mrs1) (loc_of_shr_record mrs1) H1) as [Hr Dr].
  set (m1 := round_nearest_even (shr_m mrs1) (loc_of_shr_record mrs1)) in *.
  set (n2 := fexp 53 1024 (Zdigits2 m1 + e1) - e1).
  pose proof (shr_spec (shr_record_of_loc m1 loc_Exact) e1 n2) as S2.
  rewrite shr_m_of_loc in S2. specialize (S2 Hr).
  destruct (shr (shr_record_of_loc m1 loc_Exact) e1 n2) as [mrs2 e2].
  cbn [fst snd] in S2. destruct S2 as (H2 & E2 & D2).
  subst n1 n2. rewrite !fexp_unfold in *. rewrite !emin_unfold.
  pose proof (Zdigits2_nonneg mx). pose proof (Zdigits2_nonneg m1).
  destruct (shr_m mrs2) as [|m|m] eqn:Hm2; [reflexivity | | lia].
  cbn [Zdigits2] in D2.
  assert (He2 : (e2 <=? 1024 - 53) = true) by (apply Z.leb_le; lia).
  rewrite He2. cbn [Binary64.positive_finite]. repeat split; lia.
Qed.

Lemma digits2_pos_iter_xO (m d : positive) :
  Zpos (digits2_pos (Pos.iter xO m d)) = Zpos (digits2_pos m) + Zpos d.
Proof.
  induction d as [|d IH] using Pos.peano_ind.
  - cbn. rewrite Pos2Z.inj_succ. lia.
  - rewrite Pos.iter_succ. cbn [digits2_pos].
    rewrite !Pos2Z.inj_succ, IH. lia.
Qed.

Lemma shl_align_spec (mx : positive) (ex ex' : Z) :
  snd (shl_align mx ex ex') = Z.min ex ex'
  /\ Zpos (digits2_pos (fst (shl_align mx ex ex'))) + snd (shl_align mx ex ex')
     = Zpos (digits2_pos mx) + ex.
Proof.
  unfold shl_align. destruct (ex' - ex) as [|d|d] eqn:Hd; cbn [fst snd].
  - split; lia.
  - split; lia.
  - rewrite digits2_pos_iter_xO. split; lia.
Qed.

Lemma of_Z_finite (z hi : Z) :
  0 <= z -> Zdigits2 z <= hi -> hi < 1024 ->
  Binary64.positive_finite (Z.min 0 (fexp 53 1024 (Zdigits2 z)))
    (Z.max 0 (Z.max (hi - 52) (emin 53 1024)))
    (Z.max (hi + 1) (emin 53 1024 + 1))
    (binary_normalize 53 1024 z 0 false).
Proof.
  intros Hz Hd Hhi. destruct z as [|p|p]; [reflexivity | | lia].
  cbn [binary_normalize Zdigits2] in *. unfold binary_round.
  pose proof (shl_align_spec p 0 (fexp 53 1024 (Zpos (digits2_pos p) + 0))) as [He Hm].
  destruct (shl_align p 0 _) as [mz ez]. cbn [fst snd] in *.
  rewrite Z.add_0_r in *.
  rewrite fexp_unfold in *. rewrite emin_unfold.
  eapply positive_finite_weaken.
  - apply (binary_round_aux_finite (Zpos mz) ez loc_Exact hi); cbn [Zdigits2]; lia.
  - lia.
  - rewrite emin_unfold. lia.
  - rewrite emin_unfold. lia.
Qed.

Lemma SFmul_finite (x y : spec_float) (lx ex hx ly ey hy : Z) :
  Binary64.positive_finite lx ex hx x -> Binary64.positive_finite ly ey hy y ->
  ex + ey <= 971 -> hx + hy < 1024 ->
  Binary64.positive_finite (lx + ly)
    (Z.max (ex + ey) (Z.max (hx + hy - 52) (emin 53 1024)))
    (Z.max (hx + hy + 1) (emin 53 1024 + 1))
    (SFmul 53 1024 x y).
Proof.
  intros Hx Hy He Hh.
  destruct x as [sx| | |sx mx e1]; try contradiction;
    destruct y as [sy| | |sy my e2]; try contradiction;
    cbn [Binary64.positive_finite] in Hx, Hy.
  - subst; reflexivity.
  - destruct Hy as (-> & _). subst; reflexivity.
  - destruct Hx as (-> & _). subst; reflexivity.
  - destruct Hx as (-> & Hx1 & Hx2), Hy as (-> & Hy1 & Hy2).
    cbn [SFmul xorb].
    pose proof (Zdigits2_mul (Zpos mx) (Zpos my) ltac:(lia) ltac:(lia)) as Hmul.
    change (Zpos mx * Zpos my) with (Zpos (mx * my)) in Hmul.
    cbn [Zdigits2] in Hmul.
    eapply positive_finite_weaken.
    + apply (binary_round_aux_finite (Zpos (mx * my)) (e1 + e2) loc_Exact (hx + hy));
        cbn [Zdigits2]; lia.
    + lia.
    + lia.
    + lia.
Qed.

Lemma SFdiv_finite (x y : spec_float) (lx ex hx ly ey hy : Z) :
  Binary64.positive_finite lx ex hx x -> Binary64.positive_finite ly ey hy y ->
  (forall s, y <> S754_zero s) ->
  ex - ly <= 971 -> hx - ly < 1024 ->
  Binary64.positive_finite (Z.min (emin 53 1024) (lx - ey))
    (Z.max (ex - ly) (Z.max (hx - ly - 52) (emin 53 1024)))
    (Z.max (hx - ly + 1) (emin 53 1024 + 1))
    (SFdiv 53 1024 x y).
Proof.
  intros Hx Hy Hnz He Hh.
  destruct x as [sx| | |sx mx e1]; try contradiction;
    destruct y as [sy| | |sy my e2]; try contradiction;
    cbn [Binary64.positive_finite] in Hx, Hy.
  - exfalso. eapply Hnz. reflexivity.
  - destruct Hy as (-> & _). subst; reflexivity.
  - exfalso. eapply Hnz. reflexivity.
  - destruct Hx as (-> & Hx1 & Hx2), Hy as (-> & Hy1 & Hy2).
    cbn [SFdiv xorb]. unfold SFdiv_core_binary.
    cbn [Zdigits2].
    set (e' := Z.min (fexp 53 1024 (Zpos (digits2_pos mx) + e1 - (Zpos (digits2_pos my) + e2))) (e1 - e2)).
    set (s := e1 - e2 - e').
    set (m' := match s with Zpos _ => Z.shiftl (Zpos mx) s | Z0 => Zpos mx | Zneg _ => Z0 end).
    assert (Hs : 0 <= s) by (subst s e'; lia).
    assert (Hm' : 0 <= m' /\ Zdigits2 m' <= Zpos (digits2_pos mx) + s).
    { subst m'. destruct s as [|p|p] eqn:Hsp; [cbn; lia | | lia].
      split; [apply Z.shiftl_nonneg; lia|].
      apply (Zdigits2_shiftl (Zpos mx) (Zpos p)); lia. }
    destruct Hm' as [Hm0 Hmd].
    pose proof (Z_div_mod m' (Zpos my) ltac:(lia)) as Hdm.
    destruct (Z.div_eucl m' (Zpos my)) as [q r]. destruct Hdm as [Heq Hr].
    assert (Hq : 0 <= q <= m') by nia.
    pose proof (Zdigits2_monotone q m' Hq) as Hqd.
    clearbody m'. subst s e'. rewrite fexp_unfold in *. rewrite !emin_unfold.
    eapply positive_finite_weaken.
    + apply (binary_round_aux_finite q _ (new_location (Zpos my) r) (hx - ly)); lia.
    + lia.
    + rewrite emin_unfold. lia.
    + rewrite emin_unfold. lia.
Qed.

Lemma binary_round_aux_exact (s : bool) (m : positive) (e : Z) :
  fexp 53 1024 (Zpos (digits2_pos m) + e) <= e -> e <= 971 ->
  binary_round_aux 53 1024 s (Zpos m) e loc_Exact = S754_finite s m e.
Proof.
  intros Hf He. unfold binary_round_aux, shr_fexp. cbn [Zdigits2 shr_record_of_loc].
  assert (Hshr : forall mrs, shr mrs e (fexp 53 1024 (Zpos (digits2_pos m) + e) - e) = (mrs, e)).
  { intros mrs. destruct (fexp 53 1024 (Zpos (digits2_pos m) + e) - e) eqn:Hn; try reflexivity. lia. }
  rewrite Hshr. cbn [shr_m loc_of_shr_record round_nearest_even Zdigits2 shr_record_of_loc].
  rewrite Hshr. cbn [shr_m].
  assert (Hle : (e <=? 1024 - 53) = true) by (apply Z.leb_le; lia).
  rewrite Hle. reflexivity.
Qed.

Lemma of_Z_small (z : Z) :
  0 < z < 2 ^ 53 ->
  exists m e, Binary64.of_Z z = S754_finite false m e
              /\ -52 <= e <= 0 /\ Zpos (digits2_pos m) + e <= 53.
Proof.
  intros Hz. destruct z as [|p|p]; try lia.
  unfold Binary64.of_Z. cbn [binary_normalize]. unfold binary_round.
  pose proof (Zdigits2_le (Zpos p) 53 ltac:(lia) ltac:(lia) ltac:(lia)) as Hd.
  cbn [Zdigits2] in Hd.
  pose proof (shl_align_spec p 0 (fexp 53 1024 (Zpos (digits2_pos p) + 0))) as [He Hm].
  destruct (shl_align p 0 _) as [mz ez]. cbn [fst snd] in *.
  rewrite Z.add_0_r, fexp_unfold in *.
  exists mz, ez. split; [|lia].
  apply binary_round_aux_exact; rewrite ?fexp_unfold; lia.
Qed.

Lemma trunc_positive_finite (elo ehi hi : Z) (x : spec_float) :
  Binary64.positive_finite elo ehi hi x -> exists k, Binary64.trunc x = Some k /\ 0 <= k.
Proof.
  destruct x as [s| | |s m e]; cbn [Binary64.positive_finite]; try contradiction.
  - intros _. exists 0. split; [reflexivity | lia].
  - intros (-> & _). cbn [Binary64.trunc cond_Zopp]. eexists. split; [reflexivity|].
    destruct e as [|p|p]; [lia | | ].
    + assert (0 < 2 ^ Zpos p) by (apply Z.pow_pos_nonneg; lia). nia.
    + apply Z.div_pos; [lia | apply Z.pow_pos_nonneg; lia].
Qed.

Lemma lit_1_1000 : Py.lit (F:=spec_float) 1 1000 = S754_finite false 4611686018427388 (-62).
Proof. vm_compute. reflexivity. Qed.

Lemma window_size_defined (self : NoiseReductionProcessor.t spec_float) :
  0 < NoiseReductionProcessor.sample_rate self < 2 ^ 1023 ->
  exists w, NoiseReductionProcessor.window_size self = Ok w.
Proof.
  intros Hsr. unfold NoiseReductionProcessor.window_size, py_float_of_int, py_int_of_float.
  set (sr := NoiseReductionProcessor.sample_rate self) in *.
  pose proof (Zdigits2_le sr 1023 ltac:(lia) ltac:(lia) ltac:(lia)) as Hd.
  pose proof (of_Z_finite sr 1023 ltac:(lia) Hd ltac:(lia)) as Hrate.
  rewrite fexp_unfold, emin_unfold in Hrate.
  apply positive_finite_weaken with (elo' := -1074) (ehi' := 971) (hi' := 1024) in Hrate;
    [| pose proof (Zdigits2_nonneg sr); lia | lia | lia].
  change (binary_normalize 53 1024 sr 0 false) with (f_of_Z (F:=spec_float) sr) in Hrate.
  destruct (trunc_positive_finite _ _ _ _ Hrate) as (k & Hk & _).
  change (f_trunc (f_of_Z sr)) with (Binary64.trunc (f_of_Z sr)). rewrite Hk. cbn [bind].
  assert (Hc : Binary64.positive_finite (-62) (-62) (-9) (Py.lit (F:=spec_float) 1 1000)).
  { rewrite lit_1_1000. cbn. lia. }
  pose proof (SFmul_finite _ _ _ _ _ _ _ _ Hrate Hc ltac:(lia) ltac:(lia)) as Hprod.
  destruct (trunc_positive_finite _ _ _ _ Hprod) as (w & Hw & _).
  change (f_trunc (f_mul (f_of_Z sr) (Py.lit 1 1000)))
    with (Binary64.trunc (SFmul 53 1024 (f_of_Z sr) (Py.lit 1 1000))).
  rewrite Hw. cbn [bind]. eauto.
Qed.

Lemma new_length_defined (n : nat) (r1 r2 : Z) :
  0 < r1 < 2 ^ 53 -> 0 < r2 < 2 ^ 53 -> Z.of_nat n < 2 ^ 53 ->
  exists k, new_length (F:=spec_float) n r1 r2 = Ok k /\ 0 <= k.
Proof.
  intros H1 H2 Hn. unfold new_length, py_true_div, py_float_of_int, py_int_of_float.
  assert (Hr1 : (r1 =? 0) = false) by (apply Z.eqb_neq; lia). rewrite Hr1.
  destruct (of_Z_small r1 H1) as (m1 & e1 & E1 & He1 & Hm1).
  destruct (of_Z_small r2 H2) as (m2 & e2 & E2 & He2 & Hm2).
  assert (P1 : Binary64.positive_finite (-52) 0 53 (Binary64.of_Z r1)) by (rewrite E1; cbn; lia).
  assert (P2 : Binary64.positive_finite (-52) 0 53 (Binary64.of_Z r2)) by (rewrite E2; cbn; lia).
  assert (Hnz : forall s, Binary64.of_Z r1 <> S754_zero s) by (rewrite E1; discriminate).
  pose proof (SFdiv_finite _ _ _ _ _ _ _ _ P2 P1 Hnz ltac:(lia) ltac:(lia)) as Hratio.
  rewrite emin_unfold in Hratio.
  destruct (trunc_positive_finite _ _ _ _ Hratio) as (kq & Hkq & _).
  change (f_div (f_of_Z r2) (f_of_Z r1)) with (SFdiv 53 1024 (Binary64.of_Z r2) (Binary64.of_Z r1)).
  change (f_trunc (SFdiv 53 1024 (Binary64.of_Z r2) (Binary64.of_Z r1)))
    with (Binary64.trunc (SFdiv 53 1024 (Binary64.of_Z r2) (Binary64.of_Z r1))).
  rewrite Hkq. cbn [bind].
  pose proof (Zdigits2_le (Z.of_nat n) 53 ltac:(lia) ltac:(lia) Hn) as Hd.
  pose proof (of_Z_finite (Z.of_nat n) 53 ltac:(lia) Hd ltac:(lia)) as Hlen.
  rewrite fexp_unfold, emin_unfold in Hlen.
  apply positive_finite_weaken with (elo' := -1074) (ehi' := 1) (hi' := 54) in Hlen;
    [| pose proof (Zdigits2_nonneg (Z.of_nat n)); lia | lia | lia].
  change (binary_normalize 53 1024 (Z.of_nat n) 0 false) with (Binary64.of_Z (Z.of_nat n)) in Hlen.
  destruct (trunc_positive_finite _ _ _ _ Hlen) as (kn & Hkn & _).
  change (f_trunc (f_of_Z (Z.of_nat n))) with (Binary64.trunc (Binary64.of_Z (Z.of_nat n))).
  rewrite Hkn. cbn [bind].
  pose proof (SFmul_finite _ _ _ _ _ _ _ _ Hlen Hratio ltac:(lia) ltac:(lia)) as Hprod.
  destruct (trunc_positive_finite _ _ _ _ Hprod) as (k & Hk & Hk0).
  change (f_trunc (f_mul (f_of_Z (Z.of_nat n)) (SFdiv 53 1024 (Binary64.of_Z r2) (Binary64.of_Z r1))))
    with (Binary64.trunc (SFmul 53 1024 (Binary64.of_Z (Z.of_nat n))
                            (SFdiv 53 1024 (Binary64.of_Z r2) (Binary64.of_Z r1)))).
  rewrite Hk. eauto.
Qed.

End Rounding.

(** C1, as amended. Equal rates return the input unchanged. Otherwise, for
    a non-empty matrix and positive rates (rates and length below [2^53]),
    the result has [new_length = int(len(x) * (r2 / r1))] rows, the
    double-precision product truncated toward zero, not rounded, and it has
    the element type and the channel layout of the input. *)
Theorem resample_length (x : ndarray spec_float) (r1 r2 : Z) :
  (r1 = r2 -> _resample_audio x r1 r2 = Ok x)
  /\ (r1 <> r2 ->
      0 < r1 < 2 ^ 53 -> 0 < r2 < 2 ^ 53 ->
      (0 < nd_len x)%nat -> Z.of_nat (nd_len x) < 2 ^ 53 ->
      exists n y,
        new_length (F:=spec_float) (nd_len x) r1 r2 = Ok n
        /\ 0 <= n
        /\ _resample_audio x r1 r2 = Ok y
        /\ nd_len y = Z.to_nat n
        /\ nd_dtype y = nd_dtype x
        /\ nd_ndim y = nd_ndim x
        /\ nd_channels y = nd_channels x).
Proof.
  split; [apply (resample_length_generic x r1 r2 0)|].
  intros Hne H1 H2 Hlen Hsize.
  destruct (new_length_defined (nd_len x) r1 r2 H1 H2 Hsize) as (n & Hn & Hn0).
  destruct (proj2 (resample_length_generic x r1 r2 n) Hne Hlen Hn Hn0) as (y & Hy).
  exists n, y. split; [exact Hn|]. split; [exact Hn0|]. exact Hy.
Qed.

(** ** The claims at sample inputs *)

Section Instances.
Import Examples.
Local Abbreviation EFin := ExtReal.EFin.

Lemma er_unit_half : Py.in_unit_interval (F:=ExtReal.ereal) (Py.lit 1 2) = true.
Proof.
  unfold Py.in_unit_interval. rewrite er_lit by lra.
  change (f_of_Z (F:=ExtReal.ereal) 0) with (EFin 0).
  change (f_of_Z (F:=ExtReal.ereal) 1) with (EFin 1).
  rewrite !er_leb_true by lra. reflexivity.
Qed.

Lemma er_unit_two : Py.in_unit_interval (EFin 2) = false.
Proof.
  unfold Py.in_unit_interval.
  change (f_of_Z (F:=ExtReal.ereal) 0) with (EFin 0).
  change (f_of_Z (F:=ExtReal.ereal) 1) with (EFin 1).
  rewrite er_leb_true by lra. rewrite er_leb_false by lra. reflexivity.
Qed.

Lemma er_init_disabled : NoiseReductionProcessor.__init__ disabled_cfg = Ok disabled_stage.
Proof.
  unfold NoiseReductionProcessor.__init__.
  change (Py.get disabled_cfg "enabled" (Py.PBool true))
    with (Py.PBool (F:=ExtReal.ereal) false).
  change (Py.get disabled_cfg "strength" (Py.PFloat (Py.lit 1 2)))
    with (Py.PFloat (F:=ExtReal.ereal) (Py.lit 1 2)).
  change (Py.get disabled_cfg "sample_rate" (Py.PInt 16000))
    with (Py.PInt (F:=ExtReal.ereal) 16000).
  change (Py.get disabled_cfg "frame_length" (Py.PInt 2048))
    with (Py.PInt (F:=ExtReal.ereal) 2048).
  change (Py.get disabled_cfg "hop_length" (Py.PInt 512))
    with (Py.PInt (F:=ExtReal.ereal) 512).
  cbn [Py.float Py.int bind].
  unfold NoiseReductionProcessor._initialize.
  cbn [NoiseReductionProcessor.strength NoiseReductionProcessor.sample_rate].
  rewrite er_unit_half. reflexivity.
Qed.

Lemma er_init_default : NoiseReductionProcessor.__init__ ∅ = Ok default_stage.
Proof.
  unfold NoiseReductionProcessor.__init__.
  change (Py.get ∅ "enabled" (Py.PBool true))
    with (Py.PBool (F:=ExtReal.ereal) true).
  change (Py.get ∅ "strength" (Py.PFloat (Py.lit 1 2)))
    with (Py.PFloat (F:=ExtReal.ereal) (Py.lit 1 2)).
  change (Py.get ∅ "sample_rate" (Py.PInt 16000))
    with (Py.PInt (F:=ExtReal.ereal) 16000).
  change (Py.get ∅ "frame_length" (Py.PInt 2048))
    with (Py.PInt (F:=ExtReal.ereal) 2048).
  change (Py.get ∅ "hop_length" (Py.PInt 512))
    with (Py.PInt (F:=ExtReal.ereal) 512).
  cbn [Py.float Py.int bind].
  unfold NoiseReductionProcessor._initialize.
  cbn [NoiseReductionProcessor.strength NoiseReductionProcessor.sample_rate].
  rewrite er_unit_half. reflexivity.
Qed.

(** At 16 kHz the smoothing window is 16 samples. *)
Lemma er_window_default : NoiseReductionProcessor.window_size default_stage = Ok 16.
Proof.
  unfold NoiseReductionProcessor.window_size, py_float_of_int.
  cbn [NoiseReductionProcessor.sample_rate default_stage f_trunc f_of_Z
       ExtReal.arith ExtReal.trunc bind].
  rewrite er_lit by lra. unfold py_int_of_float.
  cbn [f_mul f_trunc ExtReal.arith ExtReal.mul ExtReal.trunc bind].
  destruct (Rle_dec 0 (16000 * (1 / 1000))) as [_|Hneg]; [|exfalso; lra].
  f_equal. replace (Int_part (16000 * (1 / 1000))) with 16; [reflexivity|].
  apply Int_part_spec. lra.
Qed.

End Instances.

Import Examples.

Lemma disabled_noise_reduction_is_identity_witness :
  NoiseReductionProcessor.process disabled_stage [x01; x02; x03] (Some 48000) (Some 2)
  = Ok [x01; x02; x03].
Proof.
  apply (disabled_noise_reduction_is_identity disabled_cfg);
    [reflexivity | exact er_init_disabled].
Defined.

Lemma noise_reduction_preserves_length_witness :
  exists out,
    NoiseReductionProcessor.process default_stage [x01; x00; xff; x7f] None None = Ok out
    /\ length out = 4%nat
    /\ (Z.of_nat (4 / 2) <= 16 ->
        NoiseReductionProcessor._apply_smoothing default_stage
          (masked_audio default_stage (Spec.int16_samples [x01; x00; xff; x7f]))
        = Ok (masked_audio default_stage (Spec.int16_samples [x01; x00; xff; x7f]))
        /\ out = tobytes_int16
                   (Arr1 (map f64_to_int16
                            (masked_audio default_stage
                               (Spec.int16_samples [x01; x00; xff; x7f]))))).
Proof.
  apply (noise_reduction_preserves_length default_stage 16 [x01; x00; xff; x7f] None None);
    [reflexivity | exact er_window_default | reflexivity | cbn; lia].
Defined.

Lemma noise_reduction_validates_at_construction_witness :
  (exists e, NoiseReductionProcessor.__init__ strength_2_cfg = Raise e
             /\ exc_cls e = AudioProcessingError
             /\ isinstance e ConfigurationError = false)
  /\ is_ok (NoiseReductionProcessor.process default_stage [x01; x00] None (Some 1)) = true.
Proof.
  split.
  - apply (proj1 (noise_reduction_validates_at_construction
                    strength_2_cfg default_stage [] None None 0)
             (ExtReal.EFin 2) 16000 2048 512); try reflexivity.
    left. exact er_unit_two.
  - destruct (proj2 (noise_reduction_validates_at_construction
                       ∅ default_stage [x01; x00] None (Some 1) 16) er_init_default)
      as (_ & _ & Hprocess).
    rewrite (Hprocess eq_refl er_window_default). reflexivity.
Defined.

(** C8 as stated fails on the kind of the error: the two configurations
    that the test suite rejects raise [AudioProcessingError], a
    [PreprocessorError], and no [ConfigurationError]. It also fails on
    process time: a sample rate beyond the range of a double passes
    construction, and then smoothing, which every enabled call reaches,
    raises on it. *)
Lemma construction_error_kind_counterexample :
  NoiseReductionProcessor.__init__ strength_1_5_cfg
  = Raise (mk_exc AudioProcessingError "降噪強度必須在 0.0 到 1.0 之間")
  /\ NoiseReductionProcessor.__init__ negative_rate_cfg
     = Raise (mk_exc AudioProcessingError "採樣率必須大於 0")
  /\ issubclass AudioProcessingError ConfigurationError = false
  /\ issubclass AudioProcessingError PreprocessorError = true
  /\ NoiseReductionProcessor.__init__ huge_rate_cfg = Ok huge_rate_stage
  /\ NoiseReductionProcessor._apply_smoothing huge_rate_stage []
     = Raise (mk_exc OverflowError "int too large to convert to float").
Proof. repeat split; vm_compute; reflexivity. Qed.

(** C10 as stated fails for a stage whose sample rate does not fit a double:
    construction accepts [sample_rate = 10**400], and on a two-byte mono
    buffer [self.sample_rate * 0.001] raises [OverflowError], whatever
    [np.exp] computes. *)
Lemma noise_reduction_overflow_counterexample :
  NoiseReductionProcessor.__init__ huge_rate_cfg = Ok huge_rate_stage
  /\ Py.truthy (NoiseReductionProcessor.enabled huge_rate_stage) = true
  /\ forall FE : FloatExp spec_float,
       NoiseReductionProcessor.process huge_rate_stage [x00; x00] None None
       = Raise (mk_exc AudioProcessingError
                  "降噪處理失敗: int too large to convert to float").
Proof.
  split; [vm_compute; reflexivity|]. split; [reflexivity|].
  intros FE. vm_compute. reflexivity.
Qed.

Lemma normalize_volume_zero_signal_witness :
  AudioNormalizer._normalize_volume (normalizer 2) [x00; x00; x00; x00; x00; x00]
  = Ok [x00; x00; x00; x00].
Proof.
  apply (normalize_volume_zero_signal (normalizer 2) [x00; x00; x00; x00; x00; x00]).
  - repeat constructor.
  - reflexivity.
  - vm_compute. lia.
Defined.

(** C5 as stated fails on three all-zero buffers: the empty one (there is
    no maximum to take), one of odd length (it does not decode), and three
    samples for a stereo target (the odd sample is dropped, so the length
    changes). *)
Lemma normalize_volume_zero_counterexample :
  AudioNormalizer._normalize_volume (normalizer 1) []
  = Raise (mk_exc AudioProcessingError
      "音量標準化失敗: zero-size array to reduction operation maximum which has no identity")
  /\ AudioNormalizer._normalize_volume (normalizer 1) [x00; x00; x00]
     = Raise (mk_exc AudioProcessingError
         "音量標準化失敗: 音訊格式轉換失敗: buffer size must be a multiple of element size")
  /\ AudioNormalizer._normalize_volume (normalizer 2) [x00; x00; x00; x00; x00; x00]
     = Ok [x00; x00; x00; x00].
Proof. repeat split; vm_compute; reflexivity. Qed.

Lemma resample_length_witness :
  exists n y,
    new_length (F:=spec_float) (nd_len ramp) 4 1 = Ok n
    /\ 0 <= n
    /\ _resample_audio ramp 4 1 = Ok y
    /\ nd_len y = Z.to_nat n
    /\ nd_dtype y = nd_dtype ramp
    /\ nd_ndim y = nd_ndim ramp
    /\ nd_channels y = nd_channels ramp.
Proof.
  apply (proj2 (resample_length ramp 4 1));
    [discriminate | split; reflexivity | split; reflexivity
     | cbn; lia | reflexivity].
Defined.

(** C1 as stated fails: seven samples from rate 4 to rate 1 give
    [int(7 * 0.25) = 1] sample, where [round(7 * 1 / 4) = 2]. Nor is there
    always a result: an empty input has no sample point to interpolate
    from, and a rate beyond the range of a double has no ratio. *)
Lemma resample_length_counterexample :
  _resample_audio ramp 4 1 = Ok (I16 (Arr1 [0]))
  /\ nd_len (I16 (F:=spec_float) (Arr1 [0])) = 1%nat
  /\ Spec.target_length 7 4 1 = 2
  /\ _resample_audio (I16 (F:=spec_float) (Arr1 [])) 4 1
     = Raise (mk_exc ValueError "array of sample points is empty")
  /\ _resample_audio ramp 1 (10 ^ 400)
     = Raise (mk_exc OverflowError "integer division result too large for a float").
Proof. repeat split; vm_compute; reflexivity. Qed.

(** The product is a double product: [49 * (1 / 49)] is just below 1, so 49
    samples from rate 49 to rate 1 give no sample at all. *)
Example resample_49_to_1 :
  new_length (F:=spec_float) 49 49 1 = Ok 0 /\ (49 * 1 / 49 = 1)%Z.
Proof. split; vm_compute; reflexivity. Qed.

(* ===================================================================== *)
(** * Further properties of the package *)
(* ===================================================================== *)

(** ** The codec, in both directions *)

Section CodecMore.
Context {F : Type} {FA : FloatArith F} {FS : Float32 F}.

Lemma sample_width_cases (dtype : string) :
  (dtype = "int16" /\ Spec.sample_width dtype = Some 2%nat)
  \/ (dtype = "float32" /\ Spec.sample_width dtype = Some 4%nat)
  \/ (String.eqb dtype "int16" = false /\ String.eqb dtype "float32" = false
      /\ Spec.sample_width dtype = None).
Proof.
  unfold Spec.sample_width.
  destruct (String.eqb dtype "int16") eqn:E1.
  - apply String.eqb_eq in E1. left. split; [exact E1 | reflexivity].
  - destruct (String.eqb dtype "float32") eqn:E2.
    + apply String.eqb_eq in E2. right. left. split; [exact E2 | reflexivity].
    + right. right. repeat split.
Qed.

Lemma to_frames_rectangular (channels : Z) (xs : list Z) :
  Shape.rectangular (to_frames channels xs)
  /\ ndim (to_frames channels xs) = (if 1 <? channels then 2%nat else 1%nat)
  /\ shaped_channels (to_frames channels xs) = frame_width channels.
Proof.
  unfold to_frames, frame_width.
  destruct (1 <? channels) eqn:Hc; [|apply Z.ltb_ge in Hc; rewrite Z.max_l by lia;
                                      repeat split].
  apply Z.ltb_lt in Hc. rewrite Z.max_r by lia.
  set (c := Z.to_nat channels). assert (Hpos : (0 < c)%nat) by (subst c; lia).
  cbn [reshape_rows Shape.rectangular ndim shaped_channels].
  split; [|split; reflexivity].
  pose proof (Nat.div_mod_eq (length xs) c) as Hdm.
  destruct (length xs mod c =? 0)%nat eqn:Hr; cbn [negb].
  - apply Nat.eqb_eq in Hr.
    apply (chunks_sizes c (length xs / c) xs Hpos). lia.
  - apply (chunks_sizes c (length xs / c) _ Hpos).
    rewrite length_firstn. lia.
Qed.

(** Decoding succeeds exactly on a supported element type and a whole
    number of samples, whatever the channel count; every failure is an
    [InvalidAudioFormatError], and an unsupported [dtype] is named in it. *)
Theorem bytes_to_numpy_ok_iff (b : bytes) (sr ch : Z) (dtype : string) :
  (is_ok (bytes_to_numpy (F:=F) b sr ch dtype) = true
   <-> exists w, Spec.sample_width dtype = Some w /\ (length b mod w = 0)%nat)
  /\ (forall e, bytes_to_numpy (F:=F) b sr ch dtype = Raise e ->
        exc_cls e = InvalidAudioFormatError
        /\ (Spec.sample_width dtype = None ->
            exc_str e = String.append "音訊格式轉換失敗: "
                          (String.append "不支援的資料類型: " dtype))).
Proof.
  destruct (sample_width_cases dtype) as [[-> Hw]|[[-> Hw]|(E1 & E2 & Hw)]].
  - assert (H : (length b mod 2 = 0)%nat \/ (length b mod 2 <> 0)%nat) by lia.
    destruct H as [H|H].
    + destruct (codec_whole_frames (F:=F) b sr ch "int16" 2 Hw H) as (a & -> & _).
      split; [|intros e [=]]. cbn [is_ok]. split; [|reflexivity].
      intros _. exists 2%nat. auto.
    + destruct (codec_rejects_partial_sample (F:=F) b sr ch "int16" 2 Hw H) as (e & -> & He).
      split.
      * cbn [is_ok]. split; [discriminate|]. intros (w & Hw' & Hm).
        rewrite Hw in Hw'. injection Hw' as <-. contradiction.
      * intros e' [= <-]. split; [exact He | discriminate].
  - assert (H : (length b mod 4 = 0)%nat \/ (length b mod 4 <> 0)%nat) by lia.
    destruct H as [H|H].
    + destruct (codec_whole_frames (F:=F) b sr ch "float32" 4 Hw H) as (a & -> & _).
      split; [|intros e [=]]. cbn [is_ok]. split; [|reflexivity].
      intros _. exists 4%nat. auto.
    + destruct (codec_rejects_partial_sample (F:=F) b sr ch "float32" 4 Hw H) as (e & -> & He).
      split.
      * cbn [is_ok]. split; [discriminate|]. intros (w & Hw' & Hm).
        rewrite Hw in Hw'. injection Hw' as <-. contradiction.
      * intros e' [= <-]. split; [exact He | discriminate].
  - unfold bytes_to_numpy. rewrite E1, E2. cbn [bind try_except is_ok]. split.
    + split; [discriminate|]. intros (w & Hw' & _). congruence.
    + intros e [= <-]. split; reflexivity.
Qed.

(** The shape of a decoded array. *)
Theorem bytes_to_numpy_shape (b : bytes) (sr ch : Z) (dtype : string)
    (a : ndarray F) (sr' ch' : Z) (w : nat) :
  Spec.sample_width dtype = Some w ->
  bytes_to_numpy b sr ch dtype = Ok (a, sr', ch') ->
  sr' = sr /\ ch' = ch
  /\ nd_ndim a = (if 1 <? ch then 2%nat else 1%nat)
  /\ nd_channels a = frame_width ch
  /\ Shape.nd_rectangular a
  /\ nd_len a = (length b / w / frame_width ch)%nat
  /\ (Shape.nd_size a = nd_len a * frame_width ch)%nat.
Proof.
  intros Hw Hdec.
  assert (Hsize : forall xs : list Z,
            (Shape.size (to_frames ch xs) = len (to_frames ch xs) * frame_width ch)%nat).
  { intros xs. unfold Shape.size. rewrite to_frames_ravel, to_frames_len.
    pose proof (frame_width_pos ch).
    pose proof (Nat.div_mod_eq (length xs) (frame_width ch)).
    rewrite length_firstn. lia. }
  destruct (sample_width_cases dtype) as [[-> Hw']|[[-> Hw']|(_ & _ & Hw')]];
    [| |congruence]; rewrite Hw in Hw'; injection Hw' as ->;
    unfold bytes_to_numpy, frombuffer in Hdec; cbn [String.eqb Ascii.eqb Bool.eqb] in Hdec.
  - destruct (length b mod 2 =? 0)%nat eqn:Hm; cbn in Hdec; [|discriminate].
    apply Nat.eqb_eq in Hm. injection Hdec as <- <- <-.
    destruct (to_frames_rectangular ch (map int16_of_word (map le_decode (chunks 2 b))))
      as (Hr & Hn & Hc).
    cbn [nd_ndim nd_channels Shape.nd_rectangular nd_len Shape.nd_size].
    repeat split; auto.
    rewrite to_frames_len, !length_map. f_equal.
    apply (chunks_sizes 2 (length b / 2) b ltac:(lia)).
    apply Nat.Div0.div_exact in Hm. lia.
  - destruct (length b mod 4 =? 0)%nat eqn:Hm; cbn in Hdec; [|discriminate].
    apply Nat.eqb_eq in Hm. injection Hdec as <- <- <-.
    destruct (to_frames_rectangular ch (map le_decode (chunks 4 b))) as (Hr & Hn & Hc).
    cbn [nd_ndim nd_channels Shape.nd_rectangular nd_len Shape.nd_size].
    repeat split; auto.
    rewrite to_frames_len, !length_map. f_equal.
    apply (chunks_sizes 4 (length b / 4) b ltac:(lia)).
    apply Nat.Div0.div_exact in Hm. lia.
Qed.

End CodecMore.

Section CodecMore2.
Context {F : Type} {FA : FloatArith F} {FS : Float32 F}.

Lemma le_encode_length (k : nat) (z : Z) : length (le_encode k z) = k.
Proof. revert z. induction k as [|k IH]; intros z; cbn [le_encode length]; auto. Qed.

Lemma concat_uniform_length {A} (k : nat) (ls : list (list A)) :
  Forall (fun c => length c = k) ls -> length (concat ls) = (k * length ls)%nat.
Proof.
  induction 1 as [|c cs Hc _ IH]; cbn [concat length]; [lia|].
  rewrite length_app, Hc, IH. lia.
Qed.

Lemma chunks_fuel_concat_uniform {A} (k fuel : nat) (ls : list (list A)) :
  (0 < k)%nat -> Forall (fun c => length c = k) ls -> (length ls <= fuel)%nat ->
  chunks_fuel fuel k (concat ls) = ls.
Proof.
  intros Hk Hall. revert fuel.
  induction Hall as [|c cs Hc _ IH]; intros fuel Hfuel.
  - destruct fuel; reflexivity.
  - destruct fuel as [|fuel]; [cbn in Hfuel; lia|].
    cbn [concat chunks_fuel].
    destruct (c ++ concat cs) as [|x rest] eqn:E.
    + apply (f_equal (@length A)) in E. rewrite length_app in E. cbn in E. lia.
    + rewrite <- E.
      rewrite <- Hc at 1 3.
      rewrite firstn_app, Nat.sub_diag, firstn_all, firstn_O, app_nil_r.
      rewrite skipn_app, Nat.sub_diag, skipn_all, skipn_O. cbn [app].
      f_equal. apply IH. cbn [length] in Hfuel. lia.
Qed.

Lemma chunks_concat_uniform {A} (k : nat) (ls : list (list A)) :
  (0 < k)%nat -> Forall (fun c => length c = k) ls -> chunks k (concat ls) = ls.
Proof.
  intros Hk Hall. unfold chunks.
  apply chunks_fuel_concat_uniform; [exact Hk | exact Hall|].
  rewrite (concat_uniform_length k ls Hall). nia.
Qed.

Lemma tobytes_int16_size (a : shaped Z) :
  length (tobytes_int16 a) = (2 * Shape.size a)%nat.
Proof.
  unfold tobytes_int16, Shape.size.
  rewrite (concat_uniform_length 2), length_map; [reflexivity|].
  apply List.Forall_map, List.Forall_forall. intros z _. apply le_encode_length.
Qed.

Lemma tobytes_float32_size (a : shaped Z) :
  length (tobytes_float32 a) = (4 * Shape.size a)%nat.
Proof.
  unfold tobytes_float32, Shape.size.
  rewrite (concat_uniform_length 4), length_map; [reflexivity|].
  apply List.Forall_map, List.Forall_forall. intros z _. apply le_encode_length.
Qed.

Lemma shaped_map_size {A B} (f : A -> B) (a : shaped A) :
  Shape.rectangular a -> Shape.size (shaped_map f a) = Shape.size a.
Proof.
  destruct a as [xs|c rows]; unfold Shape.size; cbn [shaped_map ravel Shape.rectangular].
  - intros _. apply length_map.
  - intros Hr. rewrite (concat_uniform_length c rows Hr).
    rewrite (concat_uniform_length c), length_map; [reflexivity|].
    apply List.Forall_map. eapply List.Forall_impl; [|exact Hr].
    intros row Hrow. cbn. rewrite length_map. exact Hrow.
Qed.

Lemma shaped_map_ravel {A B} (f : A -> B) (a : shaped A) :
  ravel (shaped_map f a) = map f (ravel a).
Proof.
  destruct a as [xs|c rows]; cbn [shaped_map ravel]; [reflexivity|].
  rewrite concat_map. reflexivity.
Qed.

Lemma astype_int16_size (a : ndarray F) :
  Shape.size (astype_int16 a) = Shape.nd_size a.
Proof.
  destruct a as [a|a|a]; cbn [astype_int16 Shape.nd_size]; [reflexivity| |];
    unfold Shape.size; rewrite shaped_map_ravel; apply length_map.
Qed.

Lemma astype_float32_size (a : ndarray F) :
  Shape.size (astype_float32 a) = Shape.nd_size a.
Proof.
  destruct a as [a|a|a]; cbn [astype_float32 Shape.nd_size]; [|reflexivity|];
    unfold Shape.size; rewrite shaped_map_ravel; apply length_map.
Qed.

(** Encoding never fails on a supported element type, whatever the array
    holds, and writes one sample of that width per element; any other
    [dtype] is an [InvalidAudioFormatError]. *)
Theorem numpy_to_bytes_length (a : ndarray F) (dtype : string) :
  match Spec.sample_width dtype with
  | Some w =>
      exists out, numpy_to_bytes a dtype = Ok out
                  /\ length out = (w * Shape.nd_size a)%nat
  | None =>
      numpy_to_bytes a dtype
      = Raise (mk_exc InvalidAudioFormatError
                 (String.append "音訊格式轉換失敗: "
                    (String.append "不支援的資料類型: " dtype)))
  end.
Proof.
  destruct (sample_width_cases dtype) as [[-> ->]|[[-> ->]|(E1 & E2 & ->)]].
  - eexists. split; [reflexivity|].
    rewrite tobytes_int16_size, astype_int16_size. reflexivity.
  - eexists. split; [reflexivity|].
    rewrite tobytes_float32_size, astype_float32_size. reflexivity.
  - unfold numpy_to_bytes. rewrite E1, E2. reflexivity.
Qed.

Lemma int16_word_roundtrip (z : Z) :
  Shape.is_int16 z -> int16_of_word (le_decode (le_encode 2 (word_of_int16 z))) = z.
Proof.
  unfold Shape.is_int16, word_of_int16. intros Hz.
  assert (Hdec : forall u, 0 <= u < 65536 -> le_decode (le_encode 2 u) = u).
  { intros u Hu. cbn [le_encode le_decode].
    unfold byte_of_Z, byte_to_Z.
    assert (Hb : forall v, 0 <= v < 256 ->
              Z.of_N (Byte.to_N (match Byte.of_N (Z.to_N v) with
                                 | Some b => b | None => Byte.x00 end)) = v).
    { intros v Hv. destruct (Byte.of_N (Z.to_N v)) as [b|] eqn:E.
      - apply Byte.to_of_N in E. rewrite E. lia.
      - apply Byte.of_N_None_iff in E. lia. }
    rewrite !Hb by (apply Z.mod_pos_bound; lia).
    pose proof (Z.div_mod u 256 ltac:(lia)).
    assert (0 <= u / 256 < 256).
    { split; [apply Z.div_pos; lia | apply Z.div_lt_upper_bound; lia]. }
    rewrite (Z.mod_small (u / 256)) by lia. lia. }
  rewrite Hdec by (apply Z.mod_pos_bound; lia).
  unfold int16_of_word.
  destruct (Z_lt_le_dec z 0) as [Hneg|Hpos].
  - replace (z mod 65536) with (z + 65536)
      by (apply Z.mod_unique with (q := -1); lia).
    destruct (z + 65536 <? 32768) eqn:E; [apply Z.ltb_lt in E; lia | lia].
  - rewrite Z.mod_small by lia.
    destruct (z <? 32768) eqn:E; [reflexivity | apply Z.ltb_ge in E; lia].
Qed.

Lemma decode_tobytes_int16 (zs : list Z) :
  Forall Shape.is_int16 zs ->
  frombuffer 2 (concat (map (fun z => le_encode 2 (word_of_int16 z)) zs))
  = Ok (map le_decode (map (fun z => le_encode 2 (word_of_int16 z)) zs)).
Proof.
  intros _. unfold frombuffer.
  assert (Hall : Forall (fun c : bytes => length c = 2%nat)
                   (map (fun z => le_encode 2 (word_of_int16 z)) zs)).
  { apply List.Forall_map, List.Forall_forall. intros z _. apply le_encode_length. }
  rewrite (concat_uniform_length 2 _ Hall).
  rewrite Nat.mul_comm, Nat.Div0.mod_mul. cbn [Nat.eqb].
  rewrite (chunks_concat_uniform 2 _ ltac:(lia) Hall). reflexivity.
Qed.

(** Decoding undoes encoding on every [int16] array: a one-dimensional one
    read back as mono, a two-dimensional one of at least two columns read
    back with that channel count. *)
Theorem encode_decode_roundtrip (a : shaped Z) (sr : Z) :
  Forall Shape.is_int16 (ravel a) ->
  Shape.rectangular a ->
  (ndim a = 2%nat -> (2 <= shaped_channels a)%nat) ->
  exists b,
    numpy_to_bytes (F:=F) (I16 a) "int16" = Ok b
    /\ bytes_to_numpy (F:=F) b sr (Z.of_nat (shaped_channels a)) "int16"
       = Ok (I16 a, sr, Z.of_nat (shaped_channels a)).
Proof.
  intros Hrange Hrect Hcols.
  exists (tobytes_int16 a). split; [reflexivity|].
  unfold bytes_to_numpy, tobytes_int16. cbn [String.eqb Ascii.eqb Bool.eqb].
  rewrite (decode_tobytes_int16 _ Hrange). cbn [bind try_except].
  rewrite !map_map.
  rewrite (map_ext_in _ (fun z => z)), map_id.
  2:{ intros z Hz. apply int16_word_roundtrip.
      rewrite List.Forall_forall in Hrange. apply Hrange. exact Hz. }
  do 3 f_equal.
  destruct a as [xs|c rows]; cbn [ravel shaped_channels ndim Shape.rectangular] in *.
  - reflexivity.
  - specialize (Hcols eq_refl). unfold to_frames.
    assert (Hc : (1 <? Z.of_nat c) = true) by (apply Z.ltb_lt; lia).
    rewrite Hc, Nat2Z.id.
    rewrite (concat_uniform_length c rows Hrect).
    rewrite Nat.mul_comm, Nat.Div0.mod_mul. cbn [Nat.eqb negb].
    unfold reshape_rows.
    rewrite (chunks_concat_uniform c rows ltac:(lia) Hrect). reflexivity.
Qed.

End CodecMore2.

(** ** Format conversion ([normalize_audio]) *)

Section NormalizeAudio.
Context {F : Type} {FA : FloatArith F} {FS : Float32 F}.

Lemma bytes_to_numpy_samples (b : bytes) (sr ch : Z) :
  (length b mod 2 = 0)%nat ->
  bytes_to_numpy (F:=F) b sr ch "int16"
  = Ok (I16 (to_frames ch (Spec.int16_samples b)), sr, ch).
Proof.
  intros Hmod. rewrite bytes_to_numpy_default.
  rewrite bytes_to_numpy_int16_ok by exact Hmod. reflexivity.
Qed.

Lemma bytes_to_numpy_odd (b : bytes) (sr ch : Z) :
  (length b mod 2 <> 0)%nat ->
  bytes_to_numpy (F:=F) b sr ch "int16"
  = Raise (mk_exc InvalidAudioFormatError
             "音訊格式轉換失敗: buffer size must be a multiple of element size").
Proof.
  intros Hmod. unfold bytes_to_numpy, frombuffer. cbn [String.eqb Ascii.eqb Bool.eqb].
  apply Nat.eqb_neq in Hmod. rewrite Hmod. reflexivity.
Qed.

(** With equal rates and no change between mono and multi-channel,
    [normalize_audio] re-encodes what it decoded: the whole frames of the
    buffer, hence the buffer itself when it is mono. A buffer of odd length
    is refused. *)
Theorem normalize_audio_nothing_to_convert (b : bytes) (rate c c' : Z) :
  (1 <? c) && (c' =? 1) = false ->
  (c =? 1) && (1 <? c') = false ->
  ((length b mod 2 = 0)%nat ->
   normalize_audio (F:=F) b rate c rate c'
   = Ok (Spec.whole_frames (frame_width c * 2) b)
   /\ (c <= 1 -> Spec.whole_frames (frame_width c * 2) b = b))
  /\ ((length b mod 2 <> 0)%nat ->
      normalize_audio (F:=F) b rate c rate c'
      = Raise (mk_exc AudioProcessingError
                 "音訊標準化失敗: 音訊格式轉換失敗: buffer size must be a multiple of element size")).
Proof.
  intros H1 H2. split; intros Hmod.
  - split.
    + unfold normalize_audio. rewrite (bytes_to_numpy_samples b rate c Hmod).
      cbn [bind]. rewrite H1, H2, Z.eqb_refl. cbn [negb bind].
      rewrite numpy_to_bytes_int16_eq. unfold numpy_to_bytes_from_int16.
      cbn [try_except]. rewrite tobytes_int16_frames by exact Hmod. reflexivity.
    + intros Hc. unfold frame_width. rewrite Z.max_l by lia.
      unfold Spec.whole_frames. change (Z.to_nat 1 * 2)%nat with 2%nat.
      apply Nat.Div0.div_exact in Hmod. rewrite <- Hmod. apply firstn_all.
  - unfold normalize_audio. rewrite (bytes_to_numpy_odd b rate c Hmod). reflexivity.
Qed.

Lemma concat_map_repeat {A B} (f : A -> list B) (c : nat) (xs : list A) :
  concat (map f (concat (map (fun x => repeat x c) xs)))
  = concat (map (fun x => concat (repeat (f x) c)) xs).
Proof.
  induction xs as [|x xs IH]; [reflexivity|].
  cbn [map concat]. rewrite map_app, concat_app, IH. f_equal. clear IH.
  induction c as [|c IHc]; [reflexivity|]. cbn [repeat map concat]. f_equal. exact IHc.
Qed.

Lemma int16_samples_encode (b : bytes) :
  (length b mod 2 = 0)%nat ->
  map (fun z => le_encode 2 (word_of_int16 z)) (Spec.int16_samples b) = chunks 2 b.
Proof.
  intros Hmod. unfold Spec.int16_samples. rewrite !map_map.
  apply Nat.Div0.div_exact in Hmod.
  destruct (chunks_sizes 2 (length b / 2) b ltac:(lia) ltac:(lia)) as [Hall _].
  induction Hall as [|ch chs Hc _ IH]; [reflexivity|].
  cbn [map]. rewrite int16_group_roundtrip by exact Hc. f_equal. exact IH.
Qed.

(** Mono to [c] channels at one rate: every two-byte sample is written [c]
    times in a row, so the output is [c] times as long. *)
Theorem normalize_audio_mono_to_multi (b : bytes) (rate c : Z) :
  1 < c ->
  (length b mod 2 = 0)%nat ->
  normalize_audio (F:=F) b rate 1 rate c
  = Ok (concat (map (fun sample => concat (repeat sample (Z.to_nat c))) (chunks 2 b)))
  /\ length (concat (map (fun sample => concat (repeat sample (Z.to_nat c)))
                         (chunks 2 b)))
     = (Z.to_nat c * length b)%nat.
Proof.
  intros Hc Hmod. split.
  - unfold normalize_audio. rewrite (bytes_to_numpy_samples b rate 1 Hmod).
    cbn [bind]. change (1 <? 1) with false. cbn [andb].
    change (1 =? 1) with true. cbn [andb].
    assert (Hc' : (1 <? c) = true) by (apply Z.ltb_lt; exact Hc). rewrite Hc'.
    rewrite Z.eqb_refl. cbn [negb bind].
    unfold to_frames. change (1 <? 1) with false. cbn [column_stack].
    rewrite numpy_to_bytes_int16_eq. unfold numpy_to_bytes_from_int16.
    cbn [try_except]. f_equal.
    unfold tobytes_int16, column_stack_copies. cbn [ravel].
    rewrite concat_map_repeat.
    rewrite <- (int16_samples_encode b Hmod), map_map. reflexivity.
  - pose proof Hmod as Hdiv. apply Nat.Div0.div_exact in Hdiv.
    destruct (chunks_sizes 2 (length b / 2) b ltac:(lia) ltac:(lia)) as [Hall Hn].
    rewrite (concat_uniform_length (2 * Z.to_nat c)).
    + rewrite length_map, Hn. lia.
    + apply List.Forall_map. eapply List.Forall_impl; [|exact Hall].
      intros s Hs. cbn beta.
      rewrite (concat_uniform_length 2), repeat_length; [lia|].
      apply List.Forall_forall. intros x Hx. apply repeat_spec in Hx. subst x. exact Hs.
Qed.

(** Multi-channel to mono at one rate: one two-byte sample per whole frame
    of the input. *)
Theorem normalize_audio_multi_to_mono (b : bytes) (rate c : Z) :
  1 < c ->
  (length b mod 2 = 0)%nat ->
  exists out,
    normalize_audio (F:=F) b rate c rate 1 = Ok out
    /\ length out = (2 * (length b / (2 * Z.to_nat c)))%nat.
Proof.
  intros Hc Hmod.
  unfold normalize_audio. rewrite (bytes_to_numpy_samples b rate c Hmod).
  cbn [bind].
  assert (Hc' : (1 <? c) = true) by (apply Z.ltb_lt; exact Hc). rewrite Hc'.
  change (1 =? 1) with true. cbn [andb]. rewrite Z.eqb_refl. cbn [negb bind].
  rewrite convert_to_mono_int16_eq, numpy_to_bytes_int16_eq.
  unfold numpy_to_bytes_from_int16. cbn [try_except].
  eexists. split; [reflexivity|].
  rewrite tobytes_int16_length. f_equal.
  pose proof (to_frames_len c (Spec.int16_samples b)) as Hlen.
  unfold to_frames in *. rewrite Hc' in *. cbn [reshape_rows len convert_to_mono_int16] in *.
  rewrite length_map, Hlen, int16_samples_length by exact Hmod.
  unfold frame_width. rewrite Z.max_r by lia. apply Nat.Div0.div_div.
Qed.

End NormalizeAudio.

Section EmptyResample.
Context {F : Type} {FA : FloatArith F} {FS : Float32 F}.

Lemma linspace_zero (start stop : F) : linspace start stop 0 = Ok [].
Proof. reflexivity. Qed.

(** Resampling an array without rows to another rate raises: whatever the
    new length comes to, [np.interp] refuses the empty sample points. *)
Lemma resample_empty_raises (x : ndarray F) (r1 r2 : Z) :
  nd_len x = 0%nat ->
  (nd_ndim x = 2%nat -> (0 < nd_channels x)%nat) ->
  r1 <> r2 ->
  exists e, _resample_audio x r1 r2 = Raise e.
Proof.
  intros Hlen Hcols Hne. unfold _resample_audio.
  assert (Hrates : (r1 =? r2) = false) by (apply Z.eqb_neq; exact Hne).
  rewrite Hrates, Hlen.
  destruct (new_length 0 r1 r2) as [n|e]; cbn [bind]; [|eauto].
  change (Z.of_nat 0) with 0. rewrite linspace_zero. cbn [bind].
  destruct (linspace (f_of_Z 0) (f_of_Z (0 - 1)) n) as [new|e]; cbn [bind]; [|eauto].
  destruct x as [[xs|c rows]|[xs|c rows]|[xs|c rows]];
    cbn [nd_to_f64 shaped_map nd_len len nd_ndim ndim nd_channels shaped_channels] in *;
    try (cbn [interp bind]; eauto);
    specialize (Hcols eq_refl);
    (destruct c as [|c]; [lia|]); cbn [seq mapM interp bind]; eauto.
Qed.

(** The empty buffer: [normalize_audio] returns it when the rates are
    equal, and fails with an [AudioProcessingError] when they differ. *)
Theorem normalize_audio_empty (r1 r2 c c' : Z) :
  (r1 = r2 -> normalize_audio (F:=F) [] r1 c r2 c' = Ok [])
  /\ (r1 <> r2 ->
      exists e, normalize_audio (F:=F) [] r1 c r2 c' = Raise e
                /\ exc_cls e = AudioProcessingError).
Proof.
  assert (Hdec : bytes_to_numpy (F:=F) [] r1 c "int16"
                 = Ok (I16 (to_frames c []), r1, c)) by reflexivity.
  assert (Hframes : to_frames c [] = if 1 <? c then Arr2 (Z.to_nat c) [] else Arr1 []).
  { unfold to_frames. destruct (1 <? c); [|reflexivity].
    cbn [length]. rewrite Nat.Div0.mod_0_l. reflexivity. }
  split.
  - intros <-. unfold normalize_audio. rewrite Hdec, Hframes. cbn [bind].
    rewrite Z.eqb_refl. cbn [negb].
    destruct (1 <? c) eqn:Hc; destruct (c' =? 1) eqn:Hc1; destruct (c =? 1) eqn:Hc2;
      destruct (1 <? c') eqn:Hc3; reflexivity.
  - intros Hne. unfold normalize_audio. rewrite Hdec, Hframes. cbn [bind].
    assert (Hrates : (r1 =? r2) = false) by (apply Z.eqb_neq; exact Hne).
    rewrite Hrates. cbn [negb].
    match goal with
    | |- context [_resample_audio ?x r1 r2] =>
        destruct (resample_empty_raises x r1 r2) as [e He]
    end.
    + destruct (1 <? c) eqn:Hc; destruct (c' =? 1) eqn:Hc1; destruct (c =? 1) eqn:Hc2;
        destruct (1 <? c') eqn:Hc3; reflexivity.
    + apply Z.eqb_neq in Hrates.
      destruct (1 <? c) eqn:Hc; destruct (c' =? 1) eqn:Hc1; destruct (c =? 1) eqn:Hc2;
        destruct (1 <? c') eqn:Hc3;
        cbn [andb convert_to_mono column_stack column_stack_copies map nd_ndim ndim
             nd_channels shaped_channels];
        try discriminate; intros _;
        try (apply Z.ltb_lt in Hc); try (apply Z.ltb_lt in Hc3); lia.
    + exact Hne.
    + rewrite He. cbn [bind try_except]. eexists. split; reflexivity.
Qed.

End EmptyResample.

Section MonoResample.

(** Mono to mono between two different rates, in binary64: the output
    holds [int(n * (target / original))] samples for [n] input samples. *)
Theorem normalize_audio_resampled_length (b : bytes) (r1 r2 : Z) :
  (length b mod 2 = 0)%nat -> (0 < length b)%nat ->
  Z.of_nat (length b) < 2 ^ 53 ->
  0 < r1 < 2 ^ 53 -> 0 < r2 < 2 ^ 53 -> r1 <> r2 ->
  exists n out,
    new_length (F:=spec_float) (length b / 2) r1 r2 = Ok n
    /\ 0 <= n
    /\ normalize_audio (F:=spec_float) b r1 1 r2 1 = Ok out
    /\ length out = (2 * Z.to_nat n)%nat.
Proof.
  intros Hmod Hpos Hsize H1 H2 Hne.
  assert (Hsamples : (0 < length b / 2)%nat).
  { apply Nat.Div0.div_exact in Hmod. lia. }
  destruct (new_length_defined (length b / 2) r1 r2 H1 H2) as (n & Hn & Hn0).
  { pose proof (Nat.Div0.div_le_upper_bound (length b) 2 (length b)). lia. }
  exists n.
  pose proof (resample_length_generic (F:=spec_float)
                (I16 (Arr1 (Spec.int16_samples b))) r1 r2 n) as [_ Hres].
  cbn [nd_len len] in Hres. rewrite int16_samples_length in Hres by exact Hmod.
  destruct (Hres Hne Hsamples Hn Hn0) as (y & Hy & Hlen & Hdt & Hnd & _).
  assert (Hshape : exists ys, y = I16 (Arr1 ys)).
  { destruct y as [[ys|? ?]|[ys|? ?]|[ys|? ?]]; cbn in Hdt, Hnd; try discriminate.
    eauto. }
  destruct Hshape as [ys ->]. cbn [nd_len len] in Hlen.
  exists (tobytes_int16 (Arr1 ys)). split; [exact Hn|]. split; [exact Hn0|]. split.
  - unfold normalize_audio. rewrite (bytes_to_numpy_samples b r1 1 Hmod).
    cbn [bind]. change (1 <? 1) with false. change (1 =? 1) with true. cbn [andb].
    assert (Hrates : (r1 =? r2) = false) by (apply Z.eqb_neq; exact Hne).
    rewrite Hrates. cbn [negb]. unfold to_frames. change (1 <? 1) with false.
    cbn iota. rewrite Hy. reflexivity.
  - rewrite tobytes_int16_length, Hlen. reflexivity.
Qed.

End MonoResample.

(** ** Inspecting a buffer ([get_audio_info], [validate_audio_format]) *)

Section AudioTools.

(** [validate_audio_format] never raises, and accepts exactly the buffers
    that are at least [min_size] bytes long, within [max_size] when that is
    set and not zero, and a whole number of 16-bit samples. *)
Theorem validate_audio_format_spec (b : bytes) (min_size : Z) (max_size : option Z) :
  validate_audio_format b min_size max_size = true
  <-> min_size <= Z.of_nat (length b)
      /\ (forall m, max_size = Some m -> m = 0 \/ Z.of_nat (length b) <= m)
      /\ (length b mod 2 = 0)%nat.
Proof.
  unfold validate_audio_format.
  destruct (Z.of_nat (length b) <? min_size) eqn:Hmin.
  { apply Z.ltb_lt in Hmin. split; [discriminate | lia]. }
  apply Z.ltb_ge in Hmin.
  assert (Hdec : is_ok (bytes_to_numpy_int16 b 16000 1) = true <-> (length b mod 2 = 0)%nat).
  { unfold bytes_to_numpy_int16, frombuffer.
    destruct (length b mod 2 =? 0)%nat eqn:E; cbn.
    - apply Nat.eqb_eq in E. tauto.
    - apply Nat.eqb_neq in E. split; [discriminate | contradiction]. }
  destruct max_size as [m|].
  - destruct (m =? 0) eqn:Hz; cbn [negb andb].
    + apply Z.eqb_eq in Hz.
      destruct (bytes_to_numpy_int16 b 16000 1) as [d|e]; cbn [bind is_ok] in *.
      * split; [|reflexivity]. intros _. repeat split; [lia| |tauto].
        intros m' [= <-]. left. exact Hz.
      * split; [discriminate|]. intros (_ & _ & H). apply Hdec in H. discriminate.
    + apply Z.eqb_neq in Hz. destruct (m <? Z.of_nat (length b)) eqn:Hmax.
      * apply Z.ltb_lt in Hmax. split; [discriminate|].
        intros (_ & H & _). destruct (H m eq_refl); lia.
      * apply Z.ltb_ge in Hmax.
        destruct (bytes_to_numpy_int16 b 16000 1) as [d|e]; cbn [bind is_ok] in *.
        -- split; [|reflexivity]. intros _. repeat split; [lia| |tauto].
           intros m' [= <-]. right. exact Hmax.
        -- split; [discriminate|]. intros (_ & _ & H). apply Hdec in H. discriminate.
  - destruct (bytes_to_numpy_int16 b 16000 1) as [d|e]; cbn [bind is_ok] in *.
    + split; [|reflexivity]. intros _. repeat split; [lia| |tauto]. discriminate.
    + split; [discriminate|]. intros (_ & _ & H). apply Hdec in H. discriminate.
Qed.

Context {F : Type} {FA : FloatArith F}.

(** [get_audio_info] reports a failure instead of raising it: a buffer of
    odd length gives the one-entry dictionary with the decoder's message,
    and a zero sample rate the one with Python's division message. *)
Theorem get_audio_info_error (b : bytes) (sample_rate channels : Z) :
  ((length b mod 2 <> 0)%nat ->
   get_audio_info (F:=F) b sample_rate channels
   = {[ "error" := IStr "音訊格式轉換失敗: buffer size must be a multiple of element size" ]})
  /\ ((length b mod 2 = 0)%nat -> sample_rate = 0 ->
      get_audio_info (F:=F) b sample_rate channels
      = {[ "error" := IStr "division by zero" ]}).
Proof.
  split.
  - intros Hodd. unfold get_audio_info, bytes_to_numpy_int16, frombuffer.
    apply Nat.eqb_neq in Hodd. rewrite Hodd. reflexivity.
  - intros Heven ->. unfold get_audio_info.
    rewrite bytes_to_numpy_int16_ok by exact Heven. reflexivity.
Qed.

(** On success (sizes and rates that a double holds exactly, where
    [py_true_div] is Python's division) the dictionary has the six
    documented keys; ['duration_samples'] counts whole frames while
    ['size_bytes'] is the length of the buffer as given, so the two differ
    by the bytes of a trailing partial frame. *)
Theorem get_audio_info_fields (b : bytes) (sample_rate channels : Z) (seconds : F) :
  (length b mod 2 = 0)%nat ->
  Z.of_nat (length b) < 2 ^ 53 -> Z.abs sample_rate < 2 ^ 53 ->
  py_true_div (Z.of_nat (length b / 2 / frame_width channels)) sample_rate = Ok seconds ->
  let info := get_audio_info b sample_rate channels in
  info !! "error" = None
  /\ info !! "duration_samples"
     = Some (IInt (Z.of_nat (length b / 2 / frame_width channels)))
  /\ info !! "duration_seconds" = Some (IFloat seconds)
  /\ info !! "channels" = Some (IInt channels)
  /\ info !! "sample_rate" = Some (IInt sample_rate)
  /\ info !! "dtype" = Some (IStr "int16")
  /\ info !! "size_bytes" = Some (IInt (Z.of_nat (length b)))
  /\ (2 * frame_width channels * (length b / 2 / frame_width channels) <= length b)%nat.
Proof.
  intros Heven _ _ Hdiv info. subst info. unfold get_audio_info.
  rewrite bytes_to_numpy_int16_ok by exact Heven. cbn [bind].
  rewrite to_frames_len, int16_samples_length by exact Heven.
  rewrite Hdiv. cbn [bind].
  repeat split; try reflexivity.
  pose proof (frame_width_pos channels).
  pose proof (Nat.div_mod_eq (length b) 2).
  pose proof (Nat.div_mod_eq (length b / 2) (frame_width channels)). nia.
Qed.

End AudioTools.

(** ** The normalizer stage *)

Section Normalizer.
Context {F : Type} {FA : FloatArith F}.
Import AudioNormalizer.

(** What a successful construction of the normalizer has checked. *)
Lemma normalizer_init_ok_inv (cfg : gmap string (Py.value F)) (self : t F) :
  __init__ cfg = Ok self ->
  Py.int (Py.get cfg "target_sample_rate" (Py.PInt 16000)) = Ok (target_sample_rate self)
  /\ Py.int (Py.get cfg "target_channels" (Py.PInt 1)) = Ok (target_channels self)
  /\ normalize_volume self = Py.get cfg "normalize_volume" (Py.PBool true)
  /\ Py.float (Py.get cfg "target_volume" (Py.PFloat (Py.lit 4 5))) = Ok (target_volume self)
  /\ 0 < target_sample_rate self
  /\ (target_channels self = 1 \/ target_channels self = 2)
  /\ Py.in_unit_interval (target_volume self) = true.
Proof.
  unfold __init__, _initialize.
  destruct (Py.int (Py.get cfg "target_sample_rate" _)) as [sr|]; cbn [bind]; [|discriminate].
  destruct (Py.int (Py.get cfg "target_channels" _)) as [ch|]; cbn [bind]; [|discriminate].
  destruct (Py.float _) as [v|]; cbn [bind]; [|discriminate].
  cbn [target_sample_rate target_channels target_volume].
  destruct (sr <=? 0) eqn:Hsr; cbn [bind]; [discriminate|].
  destruct ((ch =? 1) || (ch =? 2)) eqn:Hch; cbn [negb bind]; [|discriminate].
  destruct (Py.in_unit_interval v) eqn:Hv; cbn [negb bind]; [|discriminate].
  intros [= <-]. cbn. apply Z.leb_gt in Hsr.
  apply orb_true_iff in Hch. rewrite !Z.eqb_eq in Hch. repeat split; auto.
Qed.

(** The normalizer validates at construction, in this order: the target
    sample rate must be positive, the target channel count 1 or 2, the
    target volume in [[0.0, 1.0]]. Each violation raises an
    [AudioProcessingError] with its own message, and a normalizer that was
    constructed satisfies all three. *)
Theorem normalizer_validates_at_construction
    (cfg : gmap string (Py.value F)) (sr ch : Z) (v : F) :
  Py.int (Py.get cfg "target_sample_rate" (Py.PInt 16000)) = Ok sr ->
  Py.int (Py.get cfg "target_channels" (Py.PInt 1)) = Ok ch ->
  Py.float (Py.get cfg "target_volume" (Py.PFloat (Py.lit 4 5))) = Ok v ->
  (sr <= 0 ->
   __init__ cfg = Raise (mk_exc AudioProcessingError "目標採樣率必須大於 0"))
  /\ (0 < sr -> ch <> 1 -> ch <> 2 ->
      __init__ cfg = Raise (mk_exc AudioProcessingError "目標聲道數必須是 1 或 2"))
  /\ (0 < sr -> ch = 1 \/ ch = 2 -> Py.in_unit_interval v = false ->
      __init__ cfg = Raise (mk_exc AudioProcessingError "目標音量必須在 0.0 到 1.0 之間"))
  /\ (0 < sr -> ch = 1 \/ ch = 2 -> Py.in_unit_interval v = true ->
      exists self, __init__ cfg = Ok self
                   /\ target_sample_rate self = sr /\ target_channels self = ch
                   /\ target_volume self = v
                   /\ normalize_volume self = Py.get cfg "normalize_volume" (Py.PBool true)).
Proof.
  intros Hsr Hch Hv. unfold __init__, _initialize. rewrite Hsr, Hch, Hv. cbn [bind].
  cbn [target_sample_rate target_channels target_volume].
  split; [|split; [|split]].
  - intros H. apply Z.leb_le in H. rewrite H. reflexivity.
  - intros H H1 H2. apply Z.leb_gt in H. rewrite H.
    apply Z.eqb_neq in H1, H2. rewrite H1, H2. reflexivity.
  - intros H Hc Hu. apply Z.leb_gt in H. rewrite H.
    assert (Hc' : (ch =? 1) || (ch =? 2) = true)
      by (apply orb_true_iff; rewrite !Z.eqb_eq; exact Hc).
    rewrite Hc', Hu. reflexivity.
  - intros H Hc Hu. apply Z.leb_gt in H. rewrite H.
    assert (Hc' : (ch =? 1) || (ch =? 2) = true)
      by (apply orb_true_iff; rewrite !Z.eqb_eq; exact Hc).
    rewrite Hc', Hu. cbn [negb bind]. eexists. split; [reflexivity|]. repeat split.
Qed.

Context {FS : Float32 F}.

(** With volume normalization off, [process] returns its input untouched,
    not even decoded, when a hint is missing (one hint alone is ignored)
    and when both hints equal the targets. *)
Theorem normalizer_identity (self : t F) (b : bytes) (osr och : option Z) :
  Py.truthy (normalize_volume self) = false ->
  osr = None \/ och = None
  \/ (osr = Some (target_sample_rate self) /\ och = Some (target_channels self)) ->
  process self b osr och = Ok b.
Proof.
  intros Hvol Hhints. unfold process.
  destruct Hhints as [->|[->|[-> ->]]].
  - rewrite Hvol. reflexivity.
  - destruct osr; rewrite Hvol; reflexivity.
  - rewrite !Z.eqb_refl. cbn [negb orb bind]. rewrite Hvol. reflexivity.
Qed.

End Normalizer.

Section NormalizeVolume.
Context {F : Type} {FA : FloatArith F}.
Import AudioNormalizer.

Lemma amax_nonempty (zs : list Z) :
  (0 < length zs)%nat -> exists m, amax zs = Ok m.
Proof. destruct zs; [cbn; lia | intros _; eexists; reflexivity]. Qed.

(** The volume step decodes with the target channel count, so it succeeds
    exactly on an even-length buffer that holds at least one whole frame,
    and then returns as many bytes as the whole frames of its input; its
    two failures are the decoder's and the empty maximum's, each wrapped
    in an [AudioProcessingError]. *)
Theorem normalize_volume_length (self : t F) (b : bytes) :
  let frame := (frame_width (target_channels self) * 2)%nat in
  ((length b mod 2 = 0)%nat -> (frame <= length b)%nat ->
   exists out, _normalize_volume self b = Ok out
               /\ length out = (frame * (length b / frame))%nat)
  /\ ((length b mod 2 <> 0)%nat ->
      _normalize_volume self b
      = Raise (mk_exc AudioProcessingError
                 "音量標準化失敗: 音訊格式轉換失敗: buffer size must be a multiple of element size"))
  /\ ((length b mod 2 = 0)%nat -> (length b < frame)%nat ->
      _normalize_volume self b
      = Raise (mk_exc AudioProcessingError
                 "音量標準化失敗: zero-size array to reduction operation maximum which has no identity")).
Proof.
  intros frame. set (ch := target_channels self) in *.
  pose proof (frame_width_pos ch) as Hfw.
  assert (Hflat : (length b mod 2 = 0)%nat ->
            length (ravel (to_frames ch (Spec.int16_samples b)))
            = (frame_width ch * (length b / frame))%nat).
  { intros Hmod. rewrite to_frames_ravel, length_firstn, int16_samples_length by exact Hmod.
    subst frame. rewrite (Nat.mul_comm (frame_width ch) 2), <- Nat.Div0.div_div.
    pose proof (Nat.div_mod_eq (length b / 2) (frame_width ch)). lia. }
  split; [|split].
  - intros Hmod Hframe. unfold _normalize_volume.
    rewrite bytes_to_numpy_int16_ok by exact Hmod. cbn [bind]. fold ch.
    assert (Hq : (0 < length b / frame)%nat) by (apply Nat.div_str_pos; subst frame; lia).
    destruct (amax_nonempty (map abs_int16 (ravel (to_frames ch (Spec.int16_samples b)))))
      as [m Hm].
    { rewrite length_map, (Hflat Hmod). nia. }
    rewrite Hm. cbn [bind]. unfold numpy_to_bytes_from_int16. cbn [try_except].
    eexists. split; [reflexivity|].
    rewrite tobytes_int16_size.
    assert (Hsize : Shape.size (to_frames ch (Spec.int16_samples b))
                    = (frame_width ch * (length b / frame))%nat) by (apply Hflat, Hmod).
    destruct (0 <? m).
    + rewrite shaped_map_size by apply to_frames_rectangular. rewrite Hsize.
      subst frame. lia.
    + rewrite Hsize. subst frame. lia.
  - intros Hodd. unfold _normalize_volume, bytes_to_numpy_int16, frombuffer.
    apply Nat.eqb_neq in Hodd. rewrite Hodd. reflexivity.
  - intros Hmod Hshort. unfold _normalize_volume.
    rewrite bytes_to_numpy_int16_ok by exact Hmod. cbn [bind]. fold ch.
    assert (Hnil : ravel (to_frames ch (Spec.int16_samples b)) = []).
    { apply length_zero_iff_nil. rewrite (Hflat Hmod).
      rewrite Nat.div_small by exact Hshort. lia. }
    rewrite Hnil. reflexivity.
Qed.

End NormalizeVolume.

(** ** Noise reduction on several channels, and the clamp in binary64 *)

Section MultiChannelNoiseReduction.
Context {F : Type} {FA : FloatArith F} {FE : FloatExp F}.
Import NoiseReductionProcessor.

(** With a channel hint above one the stage mixes the frames down,
    processes the mono signal and writes each processed sample into every
    channel: the output is as long as the whole frames of the input, and
    all channels of a frame carry the same value. *)
Theorem noise_reduction_multichannel
    (self : t F) (w : Z) (b : bytes) (osr och : option Z) (c : Z) :
  Py.truthy (enabled self) = true ->
  window_size self = Ok w ->
  (length b mod 2 = 0)%nat ->
  Py.hint_or och 1 = c -> 1 < c ->
  exists mono : list Z,
    length mono = (length b / (2 * Z.to_nat c))%nat
    /\ process self b osr och
       = Ok (concat (map (fun z => concat (repeat (le_encode 2 (word_of_int16 z))
                                                    (Z.to_nat c))) mono))
    /\ length (concat (map (fun z => concat (repeat (le_encode 2 (word_of_int16 z))
                                                     (Z.to_nat c))) mono))
       = (2 * Z.to_nat c * (length b / (2 * Z.to_nat c)))%nat.
Proof.
  intros Hen Hw Hmod Hc Hc1.
  assert (Hc' : (1 <? c) = true) by (apply Z.ltb_lt; exact Hc1).
  pose proof (to_frames_len c (Spec.int16_samples b)) as Hrows.
  rewrite int16_samples_length in Hrows by exact Hmod.
  unfold frame_width in Hrows. rewrite Z.max_r in Hrows by lia.
  rewrite Nat.Div0.div_div in Hrows.
  unfold to_frames in Hrows. rewrite Hc' in Hrows.
  set (rows := chunks (Z.to_nat c)
                 (if negb (length (Spec.int16_samples b) mod Z.to_nat c =? 0)%nat
                  then firstn (length (Spec.int16_samples b)
                               - length (Spec.int16_samples b) mod Z.to_nat c)
                         (Spec.int16_samples b)
                  else Spec.int16_samples b)) in *.
  cbn [reshape_rows len] in Hrows.
  destruct (apply_smoothing_length self w
              (masked_audio self (map row_mean_int16 rows)) Hw) as (ys & Hys & Hlen & _).
  exists (map f64_to_int16 ys).
  assert (Hmono : length (map f64_to_int16 ys) = (length b / (2 * Z.to_nat c))%nat).
  { rewrite length_map, Hlen, masked_audio_length, length_map. exact Hrows. }
  split; [exact Hmono|]. split.
  - unfold process. rewrite Hen. cbn [negb].
    rewrite bytes_to_numpy_int16_ok by exact Hmod. cbn [bind]. rewrite Hc.
    unfold to_frames. rewrite Hc'. fold rows.
    cbn [reshape_rows ndim convert_to_mono_int16 Nat.ltb Nat.leb andb].
    rewrite apply_noise_reduction_steps. fold rows. rewrite Hys. cbn [bind try_except].
    unfold numpy_to_bytes_from_float64. cbn [try_except]. f_equal.
    unfold tobytes_int16. rewrite shaped_map_ravel.
    unfold column_stack_copies. cbn [ravel].
    rewrite !map_map.
    apply (concat_map_repeat (fun y => le_encode 2 (word_of_int16 (f64_to_int16 y)))).
  - rewrite (concat_uniform_length (2 * Z.to_nat c)).
    + rewrite length_map, Hmono. reflexivity.
    + apply List.Forall_map, List.Forall_forall. intros z _.
      rewrite (concat_uniform_length 2), repeat_length; [lia|].
      apply List.Forall_forall. intros x Hx. apply repeat_spec in Hx. subst x.
      apply le_encode_length.
Qed.

End MultiChannelNoiseReduction.

Section ClampBinary64.

Lemma SFcompare_refl (x : spec_float) : x <> S754_nan -> SFeqb x x = true.
Proof.
  intros Hx. unfold SFeqb.
  destruct x as [s|s| |s m e]; [destruct s; reflexivity | destruct s; reflexivity
                                | contradiction |].
  cbn [SFcompare]. destruct s; rewrite Z.compare_refl, ?Pos.compare_cont_refl,
                                 ?Pos.compare_refl; reflexivity.
Qed.

Lemma isnan_spec (x : spec_float) : f_isnan x = true <-> x = S754_nan.
Proof.
  unfold f_isnan. cbn [f_eqb Binary64.arith]. split.
  - intros H. destruct x as [s|s| |s m e]; auto;
      rewrite SFcompare_refl in H by discriminate; discriminate.
  - intros ->. reflexivity.
Qed.

(** The clamp does what its comment says on everything but NaN, which it
    lets through. *)
Lemma clip_in_range_or_nan (x : spec_float) :
  let lo : spec_float := Py.lit 1 10 in
  let hi : spec_float := f_of_Z 1 in
  (x = S754_nan /\ clip lo hi x = S754_nan)
  \/ (x <> S754_nan /\ f_leb lo (clip lo hi x) = true /\ f_leb (clip lo hi x) hi = true).
Proof.
  intros lo hi.
  assert (Hll : f_leb lo lo = true) by (vm_compute; reflexivity).
  assert (Hlh : f_leb lo hi = true) by (vm_compute; reflexivity).
  assert (Hhh : f_leb hi hi = true) by (vm_compute; reflexivity).
  destruct (f_isnan x) eqn:Hnan.
  - apply isnan_spec in Hnan. subst x. left. split; reflexivity.
  - right. split; [intros ->; discriminate|].
    unfold clip, maximum, minimum. rewrite Hnan, orb_false_r.
    destruct (f_leb lo x) eqn:Hlx.
    + rewrite Hnan, orb_false_r. destruct (f_leb x hi) eqn:Hxh; auto.
    + rewrite Hlh. cbn [orb]. auto.
Qed.

(** In binary64 and for every [exp], each value of the soft mask lies in
    [[0.1, 1.0]] unless it is NaN, and it is NaN exactly when the sigmoid
    under the clamp is. *)
Theorem soft_mask_in_range_or_nan (FE : FloatExp spec_float)
    (energy : list spec_float) (threshold : spec_float) :
  Forall (fun m => m = S754_nan
                   \/ (f_leb (Py.lit 1 10) m = true /\ f_leb m (f_of_Z 1) = true))
         (NoiseReductionProcessor._create_soft_mask energy threshold)
  /\ length (NoiseReductionProcessor._create_soft_mask energy threshold) = length energy.
Proof.
  unfold NoiseReductionProcessor._create_soft_mask. split.
  - apply List.Forall_map, List.Forall_map, List.Forall_map, List.Forall_forall.
    intros e _. cbn beta.
    match goal with |- context [clip _ _ ?s] => destruct (clip_in_range_or_nan s)
                                                   as [[_ H]|[_ H]] end; auto.
  - rewrite !length_map. reflexivity.
Qed.

End ClampBinary64.

(** ** The pipeline manager, the registry and streaming *)

Section Manager.
Import AudioPipelineManager.
Implicit Types (self : AudioPipelineManager.t) (p : AudioPreprocessor.t).

(** Registration is keyed by the processor's own name: the processor
    registered last under a name is the one [get_processor] returns,
    other names are untouched, and an unknown name raises
    [PreprocessorError]; [is_registered] tells the two apart. *)
Theorem register_then_get self p (other : string) :
  snd (get_processor (register_processor self p) (AudioPreprocessor.name p)) = Ok p
  /\ is_registered (register_processor self p) (AudioPreprocessor.name p) = true
  /\ (other <> AudioPreprocessor.name p ->
      get_processor (register_processor self p) other = get_processor self other
      /\ is_registered (register_processor self p) other = is_registered self other)
  /\ (is_registered self other = false ->
      snd (get_processor self other)
      = Raise (mk_exc PreprocessorError (String.append "找不到前處理器: " other)))
  /\ (is_registered self other = true -> is_ok (snd (get_processor self other)) = true).
Proof.
  unfold get_processor, is_registered, register_processor. cbn [registered_processors].
  split; [|split; [|split; [|split]]].
  - rewrite lookup_insert_eq. reflexivity.
  - rewrite lookup_insert_eq. reflexivity.
  - intros Hne. rewrite lookup_insert_ne by congruence. split; reflexivity.
  - destruct (registered_processors self !! other); [discriminate | reflexivity].
  - destruct (registered_processors self !! other); [reflexivity | discriminate].
Qed.

Lemma collect_all_registered self (names : list string) (ps acc : list AudioPreprocessor.t) :
  Forall2 (fun name p => registered_processors self !! name = Some p) names ps ->
  snd (collect self names acc) = Ok (acc ++ ps).
Proof.
  intros Hall. revert acc.
  induction Hall as [|name p names ps Hp _ IH]; intros acc.
  - cbn. rewrite app_nil_r. reflexivity.
  - cbn [collect]. unfold get_processor. rewrite Hp.
    specialize (IH (acc ++ [p])).
    destruct (collect self names (acc ++ [p])) as [seen r]. cbn [snd] in *.
    rewrite IH, <- app_assoc. reflexivity.
Qed.

Lemma collect_first_missing self (found : list string) (missing : string)
    (rest : list string) (acc : list AudioPreprocessor.t) :
  Forall (fun name => is_registered self name = true) found ->
  is_registered self missing = false ->
  collect self (found ++ missing :: rest) acc
  = (concat (map (fun name => [name; name]) found) ++ [missing],
     Raise (mk_exc PreprocessorError (String.append "找不到前處理器: " missing))).
Proof.
  intros Hfound Hmissing. revert acc.
  induction Hfound as [|name found Hname _ IH]; intros acc.
  - cbn [app collect map concat]. unfold get_processor.
    unfold is_registered in Hmissing.
    destruct (registered_processors self !! missing); [discriminate | reflexivity].
  - cbn [app collect]. unfold get_processor.
    unfold is_registered in Hname.
    destruct (registered_processors self !! name) as [p|]; [|discriminate].
    rewrite IH. reflexivity.
Qed.

(** [create_pipeline] succeeds exactly when every name is registered, and
    the pipeline then holds the registered processors in the order of the
    names, one per name. *)
Theorem create_pipeline_registered self (names : list string)
    (ps : list AudioPreprocessor.t) :
  Forall2 (fun name p => registered_processors self !! name = Some p) names ps ->
  exists pipeline,
    snd (create_pipeline self names) = Ok pipeline
    /\ AudioPipeline.processors pipeline = ps
    /\ AudioPipeline.__len__ pipeline = length names.
Proof.
  intros Hall. exists (AudioPipeline.__init__ ps).
  assert (Hlen : length ps = length names) by (symmetry; eapply Forall2_length; eauto).
  split; [|split; [reflexivity | exact Hlen]].
  destruct names as [|name names].
  - inversion Hall. reflexivity.
  - unfold create_pipeline.
    pose proof (collect_all_registered self (name :: names) ps [] Hall) as Hc.
    destruct (collect self (name :: names) []) as [seen r]. cbn [snd] in *.
    rewrite Hc. reflexivity.
Qed.

(** The first unregistered name stops [create_pipeline]: it raises
    [PreprocessorError] naming it, and no later name is looked up. *)
Theorem create_pipeline_missing self (found : list string) (missing : string)
    (rest : list string) :
  Forall (fun name => is_registered self name = true) found ->
  is_registered self missing = false ->
  create_pipeline self (found ++ missing :: rest)
  = (concat (map (fun name => [name; name]) found) ++ [missing],
     Raise (mk_exc PreprocessorError (String.append "找不到前處理器: " missing))).
Proof.
  intros Hfound Hmissing. unfold create_pipeline.
  destruct (found ++ missing :: rest) as [|n ns] eqn:E.
  - destruct found; discriminate.
  - rewrite <- E, (collect_first_missing self found missing rest [] Hfound Hmissing).
    reflexivity.
Qed.

End Manager.

Section PipelineFailure.

(** A stage that raises ends the run: the pipeline raises that stage's
    message wrapped once in an [AudioProcessingError], whatever stages
    follow it. *)
Theorem pipeline_stops_at_first_failure
    (front back : list AudioPreprocessor.t) (stage : AudioPreprocessor.t)
    (kw : kwargs) (b r : bytes) (e : exc) :
  AudioPipeline.run front kw b = Ok r ->
  AudioPreprocessor.process stage r kw = Raise e ->
  AudioPipeline.process (AudioPipeline.__init__ (front ++ stage :: back)) b kw
  = Raise (mk_exc AudioProcessingError
             (String.append "音訊處理管線執行失敗: " (exc_str e))).
Proof.
  intros Hfront Hstage. unfold AudioPipeline.process, AudioPipeline.__init__.
  cbn [AudioPipeline.processors]. rewrite run_app, Hfront. cbn [bind AudioPipeline.run].
  rewrite Hstage. reflexivity.
Qed.

End PipelineFailure.

Section Registry.
Context {Config Engine Preprocessor : Type}.
Import ComponentRegistry.
Implicit Types (self : ComponentRegistry.t Config Engine Preprocessor).

(** Creating a component calls the class registered last under the name
    with the configuration, and passes on whatever the constructor returns
    or raises; an unknown name raises the [...NotFoundError] of its kind,
    which handlers for [PreprocessorError] and [EngineError] catch. The
    two tables are separate: registering an engine does not register a
    preprocessor of that name. *)
Theorem registry_create self (name other : string)
    (cls : Config -> result Preprocessor) (ecls : Config -> result Engine)
    (config : Config) :
  create_preprocessor (register_preprocessor self name cls) name config = cls config
  /\ create_engine (register_engine self name ecls) name config = ecls config
  /\ create_preprocessor (register_engine self name ecls) other config
     = create_preprocessor self other config
  /\ (is_preprocessor_registered self other = false ->
      exists e, create_preprocessor self other config = Raise e
                /\ exc_cls e = PreprocessorNotFoundError
                /\ isinstance e PreprocessorError = true
                /\ exc_str e = String.append "找不到前處理器: " other)
  /\ (is_engine_registered self other = false ->
      exists e, create_engine self other config = Raise e
                /\ exc_cls e = EngineNotFoundError
                /\ isinstance e EngineError = true
                /\ exc_str e = String.append "找不到 ASR 引擎: " other).
Proof.
  unfold create_preprocessor, create_engine, register_preprocessor, register_engine,
    is_preprocessor_registered, is_engine_registered.
  cbn [preprocessor_classes engine_classes].
  rewrite !lookup_insert_eq.
  split; [reflexivity|]. split; [reflexivity|]. split; [reflexivity|]. split.
  - destruct (preprocessor_classes self !! other); [discriminate|].
    intros _. eexists. repeat split.
  - destruct (engine_classes self !! other); [discriminate|].
    intros _. eexists. repeat split.
Qed.

End Registry.

Section Streaming.
Import AudioPreprocessorStreaming.

Lemma each_chunk_raised (p : AudioPreprocessor.t) (e : exc) :
  each_chunk p [] (Some e) = Stream.mk [] (Some e).
Proof. reflexivity. Qed.

(** Streaming one more stage after a chunk-wise function is the chunk-wise
    composition. *)
Lemma process_streaming_fuse (p : AudioPreprocessor.t) (f : bytes -> result bytes)
    (chunks : list bytes) :
  process_streaming p (StreamSpec.until_raise f chunks)
  = StreamSpec.until_raise
      (fun chunk => let* out := f chunk in AudioPreprocessor.process p out ∅) chunks.
Proof.
  unfold process_streaming.
  induction chunks as [|chunk rest IH]; [reflexivity|].
  cbn [StreamSpec.until_raise].
  destruct (f chunk) as [out|e]; cbn [bind]; [|reflexivity].
  cbn [Stream.cons Stream.yielded Stream.raised each_chunk].
  destruct (AudioPreprocessor.process p out ∅) as [out'|e']; [|reflexivity].
  rewrite IH. reflexivity.
Qed.

Lemma until_raise_ext (f g : bytes -> result bytes) (chunks : list bytes) :
  (forall chunk, f chunk = g chunk) ->
  StreamSpec.until_raise f chunks = StreamSpec.until_raise g chunks.
Proof.
  intros Hfg. induction chunks as [|chunk rest IH]; [reflexivity|].
  cbn [StreamSpec.until_raise]. rewrite Hfg, IH. reflexivity.
Qed.

Lemma fold_streaming (ps : list AudioPreprocessor.t) (f : bytes -> result bytes)
    (chunks : list bytes) :
  fold_left (fun s p => process_streaming p s) ps (StreamSpec.until_raise f chunks)
  = StreamSpec.until_raise
      (fun chunk => let* out := f chunk in AudioPipeline.run ps ∅ out) chunks.
Proof.
  revert f. induction ps as [|p ps IH]; intros f; cbn [fold_left].
  - apply until_raise_ext. intros chunk. destruct (f chunk); reflexivity.
  - rewrite process_streaming_fuse, IH.
    apply until_raise_ext. intros chunk.
    destruct (f chunk) as [out|e]; reflexivity.
Qed.

Lemma until_raise_ok (chunks : list bytes) :
  StreamSpec.until_raise Ok chunks = Stream.mk chunks None.
Proof.
  induction chunks as [|c cs IH]; [reflexivity|].
  cbn [StreamSpec.until_raise]. rewrite IH. reflexivity.
Qed.

(** Streaming a finite stream of chunks through a pipeline runs every
    chunk through all the stages, in order and without format hints, and
    yields the results up to the first chunk on which a stage raises; the
    stream then ends with that stage's message wrapped once by the
    streaming handler. *)
Theorem pipeline_streaming_chunkwise (self : AudioPipeline.t) (chunks : list bytes) :
  let chunkwise :=
    StreamSpec.until_raise (AudioPipeline.run (AudioPipeline.processors self) ∅) chunks in
  AudioPipeline.process_streaming self (Stream.mk chunks None)
  = Stream.mk (Stream.yielded chunkwise)
      (option_map AudioPipeline.streaming_failed (Stream.raised chunkwise)).
Proof.
  intros chunkwise. unfold AudioPipeline.process_streaming.
  rewrite <- (until_raise_ok chunks), fold_streaming. reflexivity.
Qed.

End Streaming.

Section Keywords.
Context {F : Type} {FA : FloatArith F} {FE : FloatExp F}.

Lemma call_with_hints_unexpected (f : option Z -> option Z -> result bytes)
    (kw : kwargs) (key : string) :
  is_Some (kw !! key) ->
  key <> "original_sample_rate" -> key <> "original_channels" ->
  exists e, call_with_hints f kw = Raise e /\ exc_cls e = TypeError.
Proof.
  intros [v Hv] H1 H2. unfold call_with_hints.
  destruct (forallb _ (map_to_list kw)) eqn:Hall.
  - rewrite forallb_forall in Hall.
    specialize (Hall (key, v)). cbn [fst] in Hall.
    assert (Hin : In (key, v) (map_to_list kw)).
    { apply list_elem_of_In, elem_of_map_to_list. exact Hv. }
    specialize (Hall Hin). apply orb_true_iff in Hall.
    rewrite !String.eqb_eq in Hall. tauto.
  - eexists. split; reflexivity.
Qed.

(** A pipeline that holds a noise-reduction stage refuses every keyword
    other than the two format hints, even when the stage is disabled: the
    call of [process] fails before its body runs, and the pipeline reports
    an [AudioProcessingError]. *)
Theorem pipeline_rejects_unknown_keyword
    (stage : NoiseReductionProcessor.t F) (back : list AudioPreprocessor.t)
    (kw : kwargs) (key : string) (b : bytes) :
  is_Some (kw !! key) ->
  key <> "original_sample_rate" -> key <> "original_channels" ->
  exists e,
    AudioPipeline.process
      (AudioPipeline.__init__ (NoiseReductionProcessor.as_preprocessor stage :: back)) b kw
    = Raise e
    /\ exc_cls e = AudioProcessingError.
Proof.
  intros Hkey H1 H2. unfold AudioPipeline.process, AudioPipeline.__init__.
  cbn [AudioPipeline.processors AudioPipeline.run NoiseReductionProcessor.as_preprocessor
       AudioPreprocessor.process].
  destruct (call_with_hints_unexpected (NoiseReductionProcessor.process stage b) kw key
              Hkey H1 H2) as (e & -> & _).
  cbn [bind try_except]. eexists. split; reflexivity.
Qed.

End Keywords.

(** ** The further properties at sample inputs *)

Lemma bytes_to_numpy_shape_witness :
  let a : ndarray spec_float :=
    I16 (Arr2 2 [[1; 2]; [3; 4]]) in
  nd_ndim a = 2%nat /\ nd_channels a = 2%nat /\ Shape.nd_rectangular a
  /\ nd_len a = 2%nat /\ Shape.nd_size a = 4%nat.
Proof.
  pose proof (bytes_to_numpy_shape (F:=spec_float)
                [x01; x00; x02; x00; x03; x00; x04; x00; x05; x00] 16000 2 "int16"
                (I16 (Arr2 2 [[1; 2]; [3; 4]])) 16000 2 2 eq_refl eq_refl)
    as (_ & _ & Hn & Hc & Hr & Hl & Hs).
  cbv zeta. repeat split; assumption.
Defined.

Lemma encode_decode_roundtrip_witness :
  exists b,
    numpy_to_bytes (F:=spec_float) (I16 (Arr2 2 [[1; -2]; [32767; -32768]])) "int16" = Ok b
    /\ bytes_to_numpy (F:=spec_float) b 44100 2 "int16"
       = Ok (I16 (Arr2 2 [[1; -2]; [32767; -32768]]), 44100, 2).
Proof.
  apply (encode_decode_roundtrip (F:=spec_float) (Arr2 2 [[1; -2]; [32767; -32768]]) 44100).
  - repeat constructor; unfold Shape.is_int16; lia.
  - repeat constructor.
  - intros _. cbn. lia.
Defined.

Lemma normalize_audio_nothing_to_convert_witness :
  normalize_audio (F:=spec_float) [x01; x00; x02; x00; x03; x00] 16000 2 16000 2
  = Ok [x01; x00; x02; x00].
Proof.
  exact (proj1 (proj1 (normalize_audio_nothing_to_convert (F:=spec_float)
                         [x01; x00; x02; x00; x03; x00] 16000 2 2 eq_refl eq_refl)
                  eq_refl)).
Defined.

Lemma normalize_audio_mono_to_multi_witness :
  normalize_audio (F:=spec_float) [x01; x00; x02; x00] 16000 1 16000 2
  = Ok [x01; x00; x01; x00; x02; x00; x02; x00].
Proof.
  exact (proj1 (normalize_audio_mono_to_multi (F:=spec_float)
                  [x01; x00; x02; x00] 16000 2 ltac:(lia) eq_refl)).
Defined.

Lemma normalize_audio_multi_to_mono_witness :
  exists out,
    normalize_audio (F:=spec_float) [x01; x00; x03; x00; x05; x00] 16000 2 16000 1 = Ok out
    /\ length out = 2%nat.
Proof.
  exact (normalize_audio_multi_to_mono (F:=spec_float)
           [x01; x00; x03; x00; x05; x00] 16000 2 ltac:(lia) eq_refl).
Defined.

Lemma normalize_audio_resampled_length_witness :
  exists n out,
    new_length (F:=spec_float) 4 16000 8000 = Ok n
    /\ 0 <= n
    /\ normalize_audio (F:=spec_float)
         [x01; x00; x02; x00; x03; x00; x04; x00] 16000 1 8000 1 = Ok out
    /\ length out = (2 * Z.to_nat n)%nat.
Proof.
  apply (normalize_audio_resampled_length
           [x01; x00; x02; x00; x03; x00; x04; x00] 16000 8000);
    [reflexivity | cbn; lia | reflexivity | split; reflexivity | split; reflexivity
     | discriminate].
Defined.

Lemma get_audio_info_fields_witness :
  get_audio_info (F:=spec_float) [x01; x00; x02; x00; x03; x00] 16000 2
    !! "duration_samples" = Some (IInt 1)
  /\ get_audio_info (F:=spec_float) [x01; x00; x02; x00; x03; x00] 16000 2
       !! "size_bytes" = Some (IInt 6).
Proof.
  pose proof (get_audio_info_fields (F:=spec_float)
                [x01; x00; x02; x00; x03; x00] 16000 2
                (f_div (f_of_Z 1) (f_of_Z 16000))
                eq_refl eq_refl eq_refl eq_refl)
    as (_ & Hsamples & _ & _ & _ & _ & Hsize & _).
  split; [exact Hsamples | exact Hsize].
Defined.

Lemma normalizer_validates_at_construction_witness :
  AudioNormalizer.__init__ three_channels_cfg
  = Raise (mk_exc AudioProcessingError "目標聲道數必須是 1 或 2").
Proof.
  assert (Hsr : Py.int (Py.get three_channels_cfg "target_sample_rate" (Py.PInt 16000))
                = Ok 16000) by (vm_compute; reflexivity).
  assert (Hch : Py.int (Py.get three_channels_cfg "target_channels" (Py.PInt 1)) = Ok 3)
    by (vm_compute; reflexivity).
  assert (Hv : Py.float (Py.get three_channels_cfg "target_volume"
                           (Py.PFloat (Py.lit 4 5))) = Ok (Py.lit 4 5))
    by (vm_compute; reflexivity).
  apply (proj1 (proj2 (normalizer_validates_at_construction
                         three_channels_cfg 16000 3 (Py.lit 4 5) Hsr Hch Hv)));
    [reflexivity | discriminate | discriminate].
Defined.

Lemma normalizer_identity_witness :
  AudioNormalizer.process
    {| AudioNormalizer.target_sample_rate := 16000;
       AudioNormalizer.target_channels := 1;
       AudioNormalizer.normalize_volume := Py.PBool false;
       AudioNormalizer.target_volume := Py.lit 4 5 : spec_float;
       AudioNormalizer.config := ∅ |}
    [x01; x02; x03] (Some 8000) None
  = Ok [x01; x02; x03].
Proof.
  apply normalizer_identity; [reflexivity | right; left; reflexivity].
Defined.

Lemma noise_reduction_multichannel_witness :
  exists mono : list Z,
    length mono = 1%nat
    /\ NoiseReductionProcessor.process default_stage
         [x01; x00; x03; x00; x05; x00] None (Some 2)
       = Ok (concat (map (fun z => concat (repeat (le_encode 2 (word_of_int16 z)) 2))
                         mono))
    /\ length (concat (map (fun z => concat (repeat (le_encode 2 (word_of_int16 z)) 2))
                           mono))
       = 4%nat.
Proof.
  apply (noise_reduction_multichannel default_stage 16
           [x01; x00; x03; x00; x05; x00] None (Some 2) 2);
    [reflexivity | exact er_window_default | reflexivity | reflexivity | lia].
Defined.

Lemma create_pipeline_registered_witness :
  let stage := AudioNormalizer.as_preprocessor (normalizer 1) in
  exists pipeline,
    snd (AudioPipelineManager.create_pipeline
           (AudioPipelineManager.register_processor AudioPipelineManager.__init__ stage)
           ["audio_normalizer"; "audio_normalizer"])
    = Ok pipeline
    /\ AudioPipeline.processors pipeline = [stage; stage]
    /\ AudioPipeline.__len__ pipeline = 2%nat.
Proof.
  intros stage.
  apply (create_pipeline_registered
           (AudioPipelineManager.register_processor AudioPipelineManager.__init__ stage)
           ["audio_normalizer"; "audio_normalizer"] [stage; stage]).
  repeat constructor; apply lookup_insert_eq.
Defined.

Lemma create_pipeline_missing_witness :
  let stage := AudioNormalizer.as_preprocessor (normalizer 1) in
  AudioPipelineManager.create_pipeline
    (AudioPipelineManager.register_processor AudioPipelineManager.__init__ stage)
    ["audio_normalizer"; "noise_reduction"; "audio_normalizer"]
  = (["audio_normalizer"; "audio_normalizer"; "noise_reduction"],
     Raise (mk_exc PreprocessorError "找不到前處理器: noise_reduction")).
Proof.
  intros stage.
  apply (create_pipeline_missing
           (AudioPipelineManager.register_processor AudioPipelineManager.__init__ stage)
           ["audio_normalizer"] "noise_reduction" ["audio_normalizer"]).
  - repeat constructor.
  - reflexivity.
Defined.

Lemma pipeline_stops_at_first_failure_witness :
  let stage := AudioNormalizer.as_preprocessor (normalizer 1) in
  AudioPipeline.process (AudioPipeline.__init__ [stage; stage]) [x01] ∅
  = Raise (mk_exc AudioProcessingError
             "音訊處理管線執行失敗: 音訊標準化失敗: 音量標準化失敗: 音訊格式轉換失敗: buffer size must be a multiple of element size").
Proof.
  intros stage.
  apply (pipeline_stops_at_first_failure [] [stage] stage ∅ [x01] [x01]
           (mk_exc AudioProcessingError
              "音訊標準化失敗: 音量標準化失敗: 音訊格式轉換失敗: buffer size must be a multiple of element size"));
    reflexivity.
Defined.

Lemma pipeline_rejects_unknown_keyword_witness :
  exists e,
    AudioPipeline.process
      (AudioPipeline.__init__ [NoiseReductionProcessor.as_preprocessor disabled_stage])
      [x01; x00] {["language" := Some 1]}
    = Raise e
    /\ exc_cls e = AudioProcessingError.
Proof.
  apply (pipeline_rejects_unknown_keyword disabled_stage [] {["language" := Some 1]}
           "language" [x01; x00]);
    [eexists; apply lookup_singleton_eq | discriminate | discriminate].
Defined.
